(** * Scope tracking and classifiers of the Actions on Google linter

    A shallow embedding of
    - lib/scope/scope.js, lib/scope/scope-manager.js,
      lib/scope/count-scope-manager.js, lib/scope/presence-scope-manager.js,
    - lib/utils/ast-utils.js,
    - lib/classifier/response-classifier.js,
      lib/classifier/simple-response-classifier.js,
    - lib/rules/at-most-two-simple-responses.js,
    followed by the properties established about them.  The calls to the
    logger are left out: they do not change the state of a manager. *)

From Stdlib Require Import String List ZArith Bool Lia.
Import ListNotations.

Open Scope string_scope.
Open Scope list_scope.
Open Scope Z_scope.

(** ** JavaScript strings *)

(** [includes s sub] is `s.includes(sub)`. *)
Fixpoint includes (s sub : string) : bool :=
  if String.prefix sub s then true
  else match s with
       | EmptyString => false
       | String _ rest => includes rest sub
       end.

(** ** Exceptions

    A JavaScript call either returns or throws.  [Error] is `new Error(...)`
    thrown by the linter itself (the interpolated parts of its messages are
    dropped); [TypeError] is the engine's error for reading a property of
    `undefined`; [RangeError] is the engine's error for a call stack that is
    exhausted; [AssertionError] is thrown by `assert` in ESLint itself. *)

Inductive Exception : Type :=
| Error (message : string)
| TypeError
| RangeError
| AssertionError (message : string).

Inductive Result (A : Type) : Type :=
| Ok (a : A)
| Throw (e : Exception).

Arguments Ok {A} a.
Arguments Throw {A} e.

Definition bind {A B : Type} (r : Result A) (k : A -> Result B) : Result B :=
  match r with
  | Ok a => k a
  | Throw e => Throw e
  end.

Notation "x <- r ;; k" := (bind r (fun x => k))
  (at level 61, r at next level, right associativity).
Notation "' p <- r ;; k" := (bind r (fun p => k))
  (at level 61, p pattern, r at next level, right associativity).

(** ** Syntax trees (the part of ESTree the linter looks at)

    [OtherNode] stands for every node kind that is not listed (loops,
    `throw`, object literals, assignment patterns, ...); its [type] is then
    none of the listed ones.  The fields are those ESLint traverses, in the
    order of its visitor keys: the parameters of a function (each an
    identifier or a pattern, which may hold a default value) before its
    body, the parameter of a catch clause (absent in `catch { }`) before its
    body.  Left out are the `id` of a function and the quasis of a template
    literal: an identifier and template elements, which have no children and
    on which no rule has a handler; a function declaration keeps its name. *)

Scheme All for list.
Scheme All for option.

Inductive Node : Type :=
| Identifier (name : string)
| Literal (raw : string)
| TemplateLiteral (expressions : list Node)
| BinaryExpression (operator : string) (left right : Node)
| CallExpression (callee : Node) (arguments : list Node)
| NewExpression (callee : Node) (arguments : list Node)
| MemberExpression (object property : Node)
| SpreadElement (argument : Node)
| FunctionExpression (params : list Node) (body : Node)
| ArrowFunctionExpression (params : list Node) (body : Node)
| FunctionDeclaration (id : string) (params : list Node) (body : Node)
| MethodDefinition (key value : Node)
| ExpressionStatement (expression : Node)
| BlockStatement (body : list Node)
| IfStatement (test consequent : Node) (alternate : option Node)
| TryStatement (block : Node) (handler finalizer : option Node)
| CatchClause (param : option Node) (body : Node)
| ReturnStatement (argument : option Node)
| Program (body : list Node)
| OtherNode (type : string) (children : list Node).

(** `node.type` *)
Definition type (n : Node) : string :=
  match n with
  | Identifier _ => "Identifier"
  | Literal _ => "Literal"
  | TemplateLiteral _ => "TemplateLiteral"
  | BinaryExpression _ _ _ => "BinaryExpression"
  | CallExpression _ _ => "CallExpression"
  | NewExpression _ _ => "NewExpression"
  | MemberExpression _ _ => "MemberExpression"
  | SpreadElement _ => "SpreadElement"
  | FunctionExpression _ _ => "FunctionExpression"
  | ArrowFunctionExpression _ _ => "ArrowFunctionExpression"
  | FunctionDeclaration _ _ _ => "FunctionDeclaration"
  | MethodDefinition _ _ => "MethodDefinition"
  | ExpressionStatement _ => "ExpressionStatement"
  | BlockStatement _ => "BlockStatement"
  | IfStatement _ _ _ => "IfStatement"
  | TryStatement _ _ _ => "TryStatement"
  | CatchClause _ _ => "CatchClause"
  | ReturnStatement _ => "ReturnStatement"
  | Program _ => "Program"
  | OtherNode t _ => t
  end.

(** `node.name`: only an Identifier has one; on any other node the property
    is `undefined`. *)
Definition name (n : Node) : option string :=
  match n with
  | Identifier x => Some x
  | _ => None
  end.

(** `node.alternate` of an if-statement, `undefined` elsewhere. *)
Definition alternate (n : Node) : option Node :=
  match n with
  | IfStatement _ _ a => a
  | _ => None
  end.

(** `x.name === s` *)
Definition nameIs (n : Node) (s : string) : bool :=
  match name n with
  | Some x => String.eqb x s
  | None => false
  end.

(** What a scope manager reads of its `_eslintContext` while a node is
    visited.  [parentAlternateIsNode] is the value of
    `last(context.getAncestors()).alternate === node` for the node being
    visited: `===` on nodes is object identity, which the traversal knows
    from the position of the node and which is not structural equality. *)
Record EslintContext : Type := mkContext {
  parentAlternateIsNode : bool
}.

(** ** lib/scope/scope.js *)

Record Scope (M : Type) : Type := mkScope {
  event : string;
  metadata : M;
  lastViolatingNode : option Node;
  hasReturnStatement : bool
}.

Arguments mkScope {M} _ _ _ _.
Arguments event {M} _.
Arguments metadata {M} _.
Arguments lastViolatingNode {M} _.
Arguments hasReturnStatement {M} _.

(** `Object.assign(scope, {metadata: v})` and its siblings. *)
Definition assign_metadata {M : Type} (v : M) (s : Scope M) : Scope M :=
  mkScope (event s) v (lastViolatingNode s) (hasReturnStatement s).

Definition assign_lastViolatingNode {M : Type} (n : Node) (s : Scope M)
  : Scope M :=
  mkScope (event s) (metadata s) (Some n) (hasReturnStatement s).

Definition assign_hasReturnStatement {M : Type} (b : bool) (s : Scope M)
  : Scope M :=
  mkScope (event s) (metadata s) (lastViolatingNode s) b.

(** ** lib/scope/scope-manager.js: the abstract ScopeManager

    [_scopeStack] holds the JS array reversed: the head of the list is the
    last element of the array, the top of the stack.  [reporterCalls] is the
    trace of the invocations of `_reporterFn`, oldest first: each records the
    argument passed and the scope that was current at the call, which is what
    the rules' reporters read. *)

Record ReporterCall (M : Type) : Type := mkCall {
  reportedNode : option Node;
  scopeAtCall : option (Scope M)
}.

Arguments mkCall {M} _ _.
Arguments reportedNode {M} _.
Arguments scopeAtCall {M} _.

Record ScopeManager (M : Type) : Type := mkManager {
  _scopeStack : list (Scope M);
  reporterCalls : list (ReporterCall M)
}.

Arguments mkManager {M} _ _.
Arguments _scopeStack {M} _.
Arguments reporterCalls {M} _.

Section Base.
Context {M : Type}.

(** `last(this._scopeStack)`, `undefined` on an empty array. *)
Definition currentScope (m : ScopeManager M) : option (Scope M) :=
  match _scopeStack m with
  | [] => None
  | s :: _ => Some s
  end.

(** `this.currentScope().p`: reading a property of the current scope. *)
Definition currentScope_get (m : ScopeManager M) : Result (Scope M) :=
  match currentScope m with
  | Some s => Ok s
  | None => Throw TypeError
  end.

(** `Object.assign(this.currentScope(), {...})` *)
Definition assignCurrent (f : Scope M -> Scope M) (m : ScopeManager M)
  : Result (ScopeManager M) :=
  match _scopeStack m with
  | [] => Throw TypeError
  | s :: rest => Ok (mkManager (f s :: rest) (reporterCalls m))
  end.

(** `this._reporterFn(arg)` *)
Definition _reporterFn (arg : option Node) (m : ScopeManager M)
  : ScopeManager M :=
  mkManager (_scopeStack m)
            (reporterCalls m ++ [mkCall arg (currentScope m)]).

(** `_enterScope(event)`; [create] is the `_createScopeObject` of the
    concrete manager, which may look at the manager. *)
Definition _enterScope (create : ScopeManager M -> string -> Scope M)
           (ev : string) (m : ScopeManager M) : ScopeManager M :=
  mkManager (create m ev :: _scopeStack m) (reporterCalls m).

Definition _invariant (m : ScopeManager M) : Result unit :=
  match currentScope m with
  | None => Throw (Error "is about to be popped")
  | Some s =>
      if String.eqb (event s) "Sentinel"
      then Throw (Error "is about to be popped")
      else Ok tt
  end.

Definition _exitScope (m : ScopeManager M) : Result (ScopeManager M) :=
  _ <- _invariant m ;;
  Ok (mkManager (tl (_scopeStack m)) (reporterCalls m)).

(** `_getElseScopeIfAny(ifStatementNode)`, the same text in both concrete
    managers: the popped scope (or `undefined`) and the manager after. *)
Definition _getElseScopeIfAny (ifStatementNode : Node) (m : ScopeManager M)
  : Result (option (Scope M) * ScopeManager M) :=
  match alternate ifStatementNode, currentScope m with
  | Some _, Some cur =>
      if includes (event cur) "IfStatement"
      then m' <- _exitScope m ;; Ok (Some cur, m')
      else Ok (None, m)
  | _, _ => Ok (None, m)
  end.
End Base.

(** ** lib/scope/count-scope-manager.js *)

Module CountScopeManager.

Definition _createScopeObject (ev : string) : Scope Z :=
  mkScope ev 0 None false.

(** The constructor: the stack holds the sentinel. *)
Definition new : ScopeManager Z :=
  mkManager [_createScopeObject "Sentinel"] [].

Definition _isInsideIfElseStatement (ctx : EslintContext)
           (ifStatementNode : Node) : bool :=
  parentAlternateIsNode ctx.

Definition _undoChangesIfThereIsReturnStatement
           (ifScope : Scope Z) (elseScope : option (Scope Z))
           (initialVal : Z) (m : ScopeManager Z)
  : Result (ScopeManager Z) :=
  let elseReturns :=
    match elseScope with
    | Some e => hasReturnStatement e
    | None => false
    end in
  if hasReturnStatement ifScope && elseReturns then
    assignCurrent (assign_metadata initialVal) m
  else if hasReturnStatement ifScope then
    let ifScopeVal := metadata ifScope in
    let elseScopeVal :=
      match elseScope with
      | Some e => if negb (hasReturnStatement e) then metadata e else 0
      | None => 0
      end in
    cur <- currentScope_get m ;;
    assignCurrent
      (assign_metadata (metadata cur - ifScopeVal + elseScopeVal)) m
  else if elseReturns then
    let ifScopeVal :=
      if negb (hasReturnStatement ifScope) then metadata ifScope else 0 in
    let elseScopeVal :=
      match elseScope with
      | Some e => metadata e
      | None => 0
      end in
    cur <- currentScope_get m ;;
    assignCurrent
      (assign_metadata (metadata cur - elseScopeVal + ifScopeVal)) m
  else Ok m.

Definition _handleIfExit (ctx : EslintContext) (ifStatement : Node)
           (m : ScopeManager Z) : Result (ScopeManager Z) :=
  top <- currentScope_get m ;;
  if negb (includes (event top) "IfStatement") then Ok m
  else
    (* 1. Adjust the values based on if-else logic *)
    '(elseScope, m1) <- _getElseScopeIfAny ifStatement m ;;
    let ifScope := currentScope m1 in
    m2 <- _exitScope m1 ;;
    match ifScope with
    | None => Throw TypeError
    | Some ifScope =>
        parent <- currentScope_get m2 ;;
        let initialVal := metadata parent in
        let branches :=
          Z.max (metadata ifScope)
                (match elseScope with
                 | Some e => metadata e
                 | None => 0
                 end) in
        let newVal :=
          if _isInsideIfElseStatement ctx ifStatement
          then Z.max initialVal branches
          else initialVal + branches in
        m3 <- assignCurrent (assign_metadata newVal) m2 ;;
        (* 2. Report *)
        m4 <- (if negb (initialVal - newVal =? 0)
               then m' <- assignCurrent
                            (assign_lastViolatingNode ifStatement) m3 ;;
                    Ok (_reporterFn None m')
               else Ok m3) ;;
        (* 3. Undo scope changes from step 1 if there is a return *)
        _undoChangesIfThereIsReturnStatement ifScope elseScope initialVal m4
    end.

Definition _handleCatchExit (node : Node) (m : ScopeManager Z)
  : Result (ScopeManager Z) :=
  catchScope <- currentScope_get m ;;
  if negb (includes (event catchScope) "CatchClause")
  then Throw (Error "Expected Catch to be on top of stack")
  else
    m1 <- _exitScope m ;;
    tryScope <- currentScope_get m1 ;;
    if negb (includes (event tryScope) "TryStatement")
    then Throw (Error "Expected TryStatement to be on top of stack")
    else
      m2 <- _exitScope m1 ;;
      parent <- currentScope_get m2 ;;
      m3 <- assignCurrent
              (assign_metadata
                 (Z.max (metadata parent)
                        (Z.max (metadata catchScope) (metadata tryScope))))
              m2 ;;
      Ok (_reporterFn None m3).

Definition _dispatchExit (ctx : EslintContext) (node : Node)
           (m : ScopeManager Z) : Result (ScopeManager Z) :=
  if String.eqb (type node) "IfStatement" then _handleIfExit ctx node m
  else if String.eqb (type node) "CatchClause" then _handleCatchExit node m
  else _exitScope m.

Definition account (ctx : EslintContext) (node : Node) (ev : string)
           (m : ScopeManager Z) : Result (ScopeManager Z) :=
  if includes ev ":exit" then _dispatchExit ctx node m
  else if String.eqb ev "ReturnStatement" then
    assignCurrent (assign_hasReturnStatement true) m
  else Ok (_enterScope (fun _ => _createScopeObject) ev m).

End CountScopeManager.

(** ** lib/scope/presence-scope-manager.js *)

Module PresenceScopeManager.

(** `isScopeInsideIntent(scope)`; [pos] is `this._scopeStack.indexOf(scope)`
    ([None] for -1), an index into the JS array, whose element 0 is the
    last element of [_scopeStack]. *)
Definition isScopeInsideIntent (pos : option nat) (m : ScopeManager bool)
  : Result bool :=
  match _scopeStack m with
  | [] => Ok false
  | stack =>
      match pos with
      | None => Throw (Error "is not in the scope stack, but should be.")
      | Some p =>
          Ok (existsb (fun x => includes (event x) "Intent")
                      (skipn (length stack - 1 - p) stack))
      end
  end.

(** `_createScopeObject({event})`, called with the current scope, whose
    index is the last one. *)
Definition _createScopeObject (m : ScopeManager bool) (ev : string)
  : Scope bool :=
  let isInsideIntent :=
    (match isScopeInsideIntent (Some (length (_scopeStack m) - 1)%nat) m with
     | Ok b => b
     | Throw _ => false
     end) || includes ev "Intent" in
  mkScope ev (negb isInsideIntent) None false.

Definition new : ScopeManager bool :=
  mkManager [_createScopeObject (mkManager [] []) "Sentinel"] [].

Definition _handleIfExit (ifStatement : Node) (m : ScopeManager bool)
  : Result (ScopeManager bool) :=
  top <- currentScope_get m ;;
  if negb (includes (event top) "IfStatement") then Ok m
  else
    '(elseScope, m1) <- _getElseScopeIfAny ifStatement m ;;
    let ifScope := currentScope m1 in
    m2 <- _exitScope m1 ;;
    match ifScope with
    | None => Throw TypeError
    | Some ifScope =>
        parent <- currentScope_get m2 ;;
        (* metadata || ((ifScope.metadata && elseScope) ?
                         elseScope.metadata : false) *)
        let merged :=
          match elseScope with
          | Some e => if metadata ifScope then metadata e else false
          | None => false
          end in
        assignCurrent (assign_metadata (metadata parent || merged)) m2
    end.

Definition _handleCatchExit (node : Node) (m : ScopeManager bool)
  : Result (ScopeManager bool) :=
  catchScope <- currentScope_get m ;;
  if negb (includes (event catchScope) "CatchClause")
  then Throw (Error "Expected Catch to be on top of stack")
  else
    m1 <- _exitScope m ;;
    tryScope <- currentScope_get m1 ;;
    if negb (includes (event tryScope) "TryStatement")
    then Throw (Error "Expected TryStatement to be on top of stack")
    else
      m2 <- _exitScope m1 ;;
      parent <- currentScope_get m2 ;;
      assignCurrent
        (assign_metadata
           (metadata parent || (metadata catchScope && metadata tryScope)))
        m2.

Definition _handleIntentHandlerExit (potentialIntentHandlerNode : Node)
           (m : ScopeManager bool) : Result (ScopeManager bool) :=
  top <- currentScope_get m ;;
  _exitScope (if includes (event top) "Intent"
              then _reporterFn (Some potentialIntentHandlerNode) m
              else m).

Definition _dispatchExit (node : Node) (m : ScopeManager bool)
  : Result (ScopeManager bool) :=
  let t := type node in
  if String.eqb t "IfStatement" then _handleIfExit node m
  else if String.eqb t "CatchClause" then _handleCatchExit node m
  else if String.eqb t "ArrowFunctionExpression"
          || String.eqb t "FunctionExpression"
          || String.eqb t "FunctionDeclaration"
          || String.eqb t "MethodDefinition"
  then _handleIntentHandlerExit node m
  else _exitScope m.

Definition account (node : Node) (ev : string) (m : ScopeManager bool)
  : Result (ScopeManager bool) :=
  if includes ev ":exit" then _dispatchExit node m
  else if String.eqb ev "ReturnStatement" then
    assignCurrent (assign_hasReturnStatement true) m
  else Ok (_enterScope _createScopeObject ev m).

End PresenceScopeManager.

(** ** lib/utils/ast-utils.js

    The scopes are those of eslint-scope: a scope has `variables` and an
    `upper` scope, a variable has `defs`.  Of a definition `d` the code reads
    `d.name.name` ([defName]) and `d.node.init` ([init], [None] when it is
    `undefined` or `null`: a declarator without initialiser, a function or a
    parameter). *)

Record Def : Type := mkDef {
  defName : string;
  init : option Node
}.

Record ScopeVariable : Type := mkVariable {
  defs : list Def
}.

Inductive EScope : Type :=
| mkEScope (variables : list ScopeVariable) (upper : option EScope).

Definition variables (s : EScope) : list ScopeVariable :=
  match s with mkEScope vs _ => vs end.

Definition upper (s : EScope) : option EScope :=
  match s with mkEScope _ u => u end.

Module AstUtils.

(** The `for (const v of variables)` loop of findVariableNodeValue: `val`
    after the loop. *)
Fixpoint searchVariables (x : string) (vs : list ScopeVariable) : option Node :=
  match vs with
  | [] => None
  | v :: rest =>
      let ds := filter (fun d => String.eqb (defName d) x) (defs v) in
      match ds with
      | [] => searchVariables x rest
      | d0 :: _ =>
          match init (last ds d0) with
          | Some val => Some val
          | None => searchVariables x rest
          end
      end
  end.

(** The `while (scope && !val)` loop. *)
Fixpoint searchScopes (x : string) (scope : EScope) : option Node :=
  match scope with
  | mkEScope vs up =>
      match searchVariables x vs with
      | Some val => Some val
      | None =>
          match up with
          | Some u => searchScopes x u
          | None => None
          end
      end
  end.

Definition findVariableNodeValue (scope : option EScope)
           (identifierNode : Node) : Result (option Node) :=
  match identifierNode with
  | Identifier x =>
      match scope with
      | Some s => Ok (searchScopes x s)
      | None => Ok None
      end
  | _ => Throw (Error "Expected Identifier")
  end.

End AstUtils.

(** ** lib/classifier/response-classifier.js *)

Record Response : Type := _createResponse {
  certain : bool;
  result : bool
}.

Module Classifier.

(** `last(node.arguments) && last(node.arguments).type === 'Literal'` *)
Definition lastIsLiteral (args : list Node) : bool :=
  match args with
  | [] => false
  | a :: _ => String.eqb (type (last args a)) "Literal"
  end.

(** `isNodeIntentHandler(node)`; [scope] is `this._context.getScope()`. *)
Definition isNodeIntentHandler (scope : option EScope) (node : option Node)
  : Result bool :=
  match node with
  | None => Ok false
  | Some (CallExpression (MemberExpression object property) args) =>
      if lastIsLiteral args then Ok false
      else
        valueOfMemberExpressionObject <-
          AstUtils.findVariableNodeValue scope object ;;
        let isActionsApp :=
          match valueOfMemberExpressionObject with
          | Some (CallExpression c _) =>
              nameIs c "dialogflow" || nameIs c "actionssdk"
          | _ => false
          end in
        if isActionsApp
           && (nameIs property "intent" || nameIs property "fallback")
        then
          Ok (negb (match args with
                    | [_; a1] => String.eqb (type a1) "Identifier"
                    | _ => false
                    end))
        else Ok false
  | Some _ => Ok false
  end.

Definition doesReturnActionResponse (node : option Node) : bool :=
  match node with
  | Some (CallExpression (MemberExpression object property) _) =>
      nameIs object "conv"
      && (nameIs property "close" || nameIs property "ask"
          || nameIs property "json")
  | _ => false
  end.

End Classifier.

(** ** lib/classifier/simple-response-classifier.js *)

Module SimpleResponseClassifier.

Definition _isString (node : Node) : bool :=
  match node with
  | Literal _ => true
  | BinaryExpression _ l r =>
      String.eqb (type l) "Literal" || String.eqb (type r) "Literal"
      || String.eqb (type l) "TemplateLiteral"
      || String.eqb (type r) "TemplateLiteral"
  | TemplateLiteral _ => true
  | _ => false
  end.

(** `_isSimpleResponse(node)`.  The call on the value of a variable is not
    on a part of [node], and `var a = b; var b = a;` makes it unbounded:
    [stackDepth] is the number of nested calls the engine's stack has room
    for. *)
Fixpoint _isSimpleResponse (stackDepth : nat) (scope : option EScope)
         (node : Node) : Result Response :=
  match stackDepth with
  | O => Throw RangeError
  | S depth =>
      match node with
      | CallExpression _ _ => Ok (_createResponse false false)
      | Identifier _ =>
          v <- AstUtils.findVariableNodeValue scope node ;;
          match v with
          | Some val => _isSimpleResponse depth scope val
          | None => Ok (_createResponse false false)
          end
      | MemberExpression _ _
      | SpreadElement _ => Ok (_createResponse false false)
      | NewExpression c _ =>
          if nameIs c "SimpleResponse"
          then Ok (_createResponse true true)
          else Ok (_createResponse true false)
      | _ =>
          if _isString node
          then Ok (_createResponse true true)
          else Ok (_createResponse true false)
      end
  end.

Definition classify (stackDepth : nat) (scope : option EScope) (node : Node)
  : Result Response :=
  _isSimpleResponse stackDepth scope node.

End SimpleResponseClassifier.

(** ** The traversal of ESLint

    ESLint visits a node, then its children in the order of the visitor keys,
    then leaves the node. *)

Section Visit.
Context {S : Type}.
Variable visit : Node -> S -> Result S.

Fixpoint visitList (l : list Node) (s : S) : Result S :=
  match l with
  | [] => Ok s
  | x :: rest => s' <- visit x s ;; visitList rest s'
  end.

Definition visitOpt (o : option Node) (s : S) : Result S :=
  match o with
  | Some x => visit x s
  | None => Ok s
  end.
End Visit.

(** ** ESLint's `context.report`

    `context.report({node, message})` with a descriptor that has neither a
    node nor a location: ESLint asserts that one of them is given, and the
    rules never give a location. *)
Definition nodeMustBeProvided : string :=
  "Node must be provided when reporting error if location is not provided".

Definition context_report (node : option Node) : Result unit :=
  match node with
  | Some _ => Ok tt
  | None => Throw (AssertionError nodeMustBeProvided)
  end.

(** ** lib/rules/at-most-two-simple-responses.js *)

Module AtMostTwoSimpleResponses.

Section Rule.
(** `context.getScope()` while the given node is visited. *)
Variable getScope : Node -> option EScope.
(** Room on the engine's call stack when a handler runs. *)
Variable stackDepth : nat.

(** `report()` with [s] as `manager.currentScope()`: above two simple
    responses it passes `lastViolatingNode` to ESLint, which throws when
    that is `null`. *)
Definition reportOn (s : Scope Z) : Result unit :=
  if metadata s >? 2 then context_report (lastViolatingNode s) else Ok tt.

(** `report()` as the handler 'CallExpression' calls it.  It is also the
    `_reporterFn` of the manager, so the call is recorded like those the
    manager makes; [reports] below is what it passes on to ESLint. *)
Definition report (m : ScopeManager Z) : Result (ScopeManager Z) :=
  cur <- currentScope_get m ;;
  _ <- reportOn cur ;;
  Ok (_reporterFn None m).

(** `report()` on a call the manager made to it, given the record of the
    call: `report` reads nothing but the scope that was current. *)
Definition reportCall (c : ReporterCall Z) : Result unit :=
  match scopeAtCall c with
  | Some s => reportOn s
  | None => Throw TypeError
  end.

Fixpoint reportCalls (calls : list (ReporterCall Z)) : Result unit :=
  match calls with
  | [] => Ok tt
  | c :: rest => _ <- reportCall c ;; reportCalls rest
  end.

(** `manager.account(node, event)` for the manager the rule creates, whose
    `_reporterFn` is `report`.  [CountScopeManager.account] records the
    calls the manager makes to its reporter; a throw of `report` at one of
    them leaves `account`.  The manager calls its reporter as the last step
    of `_handleCatchExit`, and in `_handleIfExit` right after it has set
    `lastViolatingNode`, where `report` does not throw (lemmas
    [handleCatchExit_reports_last], [handleIfExit_calls] and
    [reportCalls_with_node]): so nothing the manager does after a call that
    throws is run here. *)
Definition account (ctx : EslintContext) (node : Node) (ev : string)
           (m : ScopeManager Z) : Result (ScopeManager Z) :=
  m' <- CountScopeManager.account ctx node ev m ;;
  _ <- reportCalls (skipn (length (reporterCalls m)) (reporterCalls m')) ;;
  Ok m'.

(** The `node` of every `context.report` made so far. *)
Definition reports (m : ScopeManager Z) : list (option Node) :=
  flat_map (fun c =>
              match scopeAtCall c with
              | Some s => if metadata s >? 2 then [lastViolatingNode s] else []
              | None => []
              end)
           (reporterCalls m).

Definition isSimpleResponse (scope : option EScope) (node : Node)
  : Result bool :=
  judgeResponse <- SimpleResponseClassifier.classify stackDepth scope node ;;
  Ok (certain judgeResponse && result judgeResponse).

(** The body of the loop `for (const a of args)` of the 'CallExpression'
    handler. *)
Definition countArgument (scope : option EScope) (memberExpression : Node)
           (a : Node) (m : ScopeManager Z) : Result (ScopeManager Z) :=
  simple <- isSimpleResponse scope a ;;
  m' <- (if simple : bool
         then cur <- currentScope_get m ;;
              assignCurrent
                (fun s => mkScope (event s) (metadata cur + 1)
                                  (Some memberExpression)
                                  (hasReturnStatement s)) m
         else Ok m) ;;
  report m'.

Definition on_CallExpression (callExpression : Node) (m : ScopeManager Z)
  : Result (ScopeManager Z) :=
  if Classifier.doesReturnActionResponse (Some callExpression) then
    match callExpression with
    | CallExpression memberExpression args =>
        visitList (countArgument (getScope callExpression) memberExpression)
                  args m
    | _ => Ok m
    end
  else Ok m.

Definition parentIsIfStatement (parent : option Node) : bool :=
  match parent with
  | Some (IfStatement _ _ _) => true
  | _ => false
  end.

(** The handlers of the rule that fire when [node] is entered; [parent] is
    `node.parent`. *)
Definition enter (parent : option Node) (ctx : EslintContext) (node : Node)
           (m : ScopeManager Z) : Result (ScopeManager Z) :=
  let account := account ctx node in
  match node with
  | CallExpression _ _ => on_CallExpression node m
  | ExpressionStatement _ =>
      if parentIsIfStatement parent
      then account "IfStatement > ExpressionStatement" m else Ok m
  | BlockStatement _ =>
      if parentIsIfStatement parent
      then account "IfStatement > BlockStatement" m else Ok m
  | IfStatement _ _ _ =>
      if parentIsIfStatement parent
      then account "IfStatement > IfStatement" m else Ok m
  | FunctionExpression _ _ =>
      isHandler <- Classifier.isNodeIntentHandler (getScope node) parent ;;
      account (if isHandler : bool then "FunctionExpression, Intent"
               else "FunctionExpression") m
  | ArrowFunctionExpression _ _ =>
      isHandler <- Classifier.isNodeIntentHandler (getScope node) parent ;;
      account (if isHandler : bool then "ArrowFunctionExpression, Intent"
               else "ArrowFunctionExpression") m
  | MethodDefinition _ _ => account "MethodDefinition" m
  | FunctionDeclaration _ _ _ => account "FunctionDeclaration" m
  | CatchClause _ _ => account "CatchClause" m
  | TryStatement _ _ _ => account "TryStatement" m
  | ReturnStatement _ => account "ReturnStatement" m
  | _ => Ok m
  end.

(** The handlers that fire when [node] is left. *)
Definition leave (parent : option Node) (ctx : EslintContext) (node : Node)
           (m : ScopeManager Z) : Result (ScopeManager Z) :=
  let account := account ctx node in
  match node with
  | IfStatement _ _ _ => account "IfStatement:exit" m
  | FunctionExpression _ _ =>
      isHandler <- Classifier.isNodeIntentHandler (getScope node) parent ;;
      account (if isHandler : bool then "FunctionExpression:exit, Intent"
               else "FunctionExpression:exit") m
  | ArrowFunctionExpression _ _ =>
      isHandler <- Classifier.isNodeIntentHandler (getScope node) parent ;;
      account (if isHandler : bool then "ArrowFunctionExpression:exit, Intent"
               else "ArrowFunctionExpression:exit") m
  | MethodDefinition _ _ => account "MethodDefinition:exit" m
  | FunctionDeclaration _ _ _ => account "FunctionDeclaration:exit" m
  | CatchClause _ _ => account "CatchClause:exit" m
  | _ => Ok m
  end.

Definition child : EslintContext := mkContext false.
Definition alternateChild : EslintContext := mkContext true.

(** The pass over the tree rooted at [node].  [ctx] tells whether [node] is
    the `alternate` of [parent]. *)
Fixpoint traverse (parent : option Node) (ctx : EslintContext) (node : Node)
         (m : ScopeManager Z) {struct node} : Result (ScopeManager Z) :=
  let self := Some node in
  m1 <- enter parent ctx node m ;;
  m2 <- match node with
        | Identifier _ | Literal _ => Ok m1
        | TemplateLiteral es => visitList (traverse self child) es m1
        | BinaryExpression _ l r =>
            m' <- traverse self child l m1 ;; traverse self child r m'
        | CallExpression c args | NewExpression c args =>
            m' <- traverse self child c m1 ;;
            visitList (traverse self child) args m'
        | MemberExpression o p =>
            m' <- traverse self child o m1 ;; traverse self child p m'
        | MethodDefinition k v =>
            m' <- traverse self child k m1 ;; traverse self child v m'
        | SpreadElement b | ExpressionStatement b =>
            traverse self child b m1
        | FunctionExpression ps b | ArrowFunctionExpression ps b
        | FunctionDeclaration _ ps b =>
            m' <- visitList (traverse self child) ps m1 ;;
            traverse self child b m'
        | CatchClause p b =>
            m' <- visitOpt (traverse self child) p m1 ;;
            traverse self child b m'
        | BlockStatement l | Program l | OtherNode _ l =>
            visitList (traverse self child) l m1
        | IfStatement t c a =>
            m' <- traverse self child t m1 ;;
            m'' <- traverse self child c m' ;;
            visitOpt (traverse self alternateChild) a m''
        | TryStatement b h f =>
            m' <- traverse self child b m1 ;;
            m'' <- visitOpt (traverse self child) h m' ;;
            visitOpt (traverse self child) f m''
        | ReturnStatement a => visitOpt (traverse self child) a m1
        end ;;
  leave parent ctx node m2.

(** One pass of the rule over a program, from a fresh manager. *)
Definition run (program : Node) : Result (ScopeManager Z) :=
  traverse None child program CountScopeManager.new.

End Rule.

End AtMostTwoSimpleResponses.

(** ** Sample programs *)

Definition conv_ask (a : Node) : Node :=
  ExpressionStatement
    (CallExpression (MemberExpression (Identifier "conv") (Identifier "ask"))
                    [a]).

Definition noScopes : Node -> option EScope := fun _ => None.

(** `catch (e) { }` and `(response) => { }` *)
Definition emptyCatch : Node :=
  CatchClause (Some (Identifier "e")) (BlockStatement []).


(** Frames and managers used in the examples below. *)

Definition sentinel : Scope Z := CountScopeManager._createScopeObject "Sentinel".

Definition frame (ev : string) (count : Z) (returns : bool) : Scope Z :=
  mkScope ev count None returns.

(** `if (a) { ... }` and `if (a) { ... } else { ... }` with empty blocks: the
    managers only read `alternate` of the if-statement they are given. *)
Definition ifWithoutElse : Node :=
  IfStatement (Identifier "a") (BlockStatement []) None.

Definition ifWithElse : Node :=
  IfStatement (Identifier "a") (BlockStatement []) (Some (BlockStatement [])).

(** The frames a conditional exit expects on the stack: the frame of the
    alternate, when the if-statement has one, above the frame of the
    consequent. *)
Definition branchFrames {M : Type} (elseScope : option (Scope M))
           (ifScope : Scope M) : list (Scope M) :=
  match elseScope with
  | Some e => [e; ifScope]
  | None => [ifScope]
  end.

Definition labelled {M : Type} (sub : string) (s : option (Scope M)) : Prop :=
  forall e, s = Some e -> includes (event e) sub = true.

Definition isSome {A : Type} (o : option A) : bool :=
  match o with Some _ => true | None => false end.

(** The count of the branches of a conditional, `Math.max(ifScope.metadata,
    elseScope ? elseScope.metadata : 0)`, and the value step 1 of the
    conditional exit gives the parent. *)
Definition branchCount (elseScope : option (Scope Z)) (ifScope : Scope Z) : Z :=
  Z.max (metadata ifScope)
        (match elseScope with Some e => metadata e | None => 0 end).

Definition mergedCount (ctx : EslintContext) (p branches : Z) : Z :=
  if parentAlternateIsNode ctx then Z.max p branches else p + branches.

(** The manager after steps 1 and 2 of the conditional exit: the parent has
    the merged count, and when that differs from the count it had, the
    if-statement as `lastViolatingNode`, and the reporter has been called. *)
Definition afterMerge (node : Node) (parent : Scope Z) (newVal : Z)
           (rest : list (Scope Z)) (calls : list (ReporterCall Z))
  : ScopeManager Z :=
  if negb (metadata parent - newVal =? 0) then
    let parent' := assign_lastViolatingNode node (assign_metadata newVal parent) in
    mkManager (parent' :: rest) (calls ++ [mkCall None (Some parent')])
  else mkManager (assign_metadata newVal parent :: rest) calls.

(** The metadata of the current scope of a result. *)
Definition currentMetadata {M : Type} (r : Result (ScopeManager M))
  : option M :=
  match r with
  | Ok m => option_map metadata (currentScope m)
  | Throw _ => None
  end.

Definition noReturn (s : option (Scope Z)) : Prop :=
  forall e, s = Some e -> hasReturnStatement e = false.

(** `function f() { if (a) return; }` at the exit of its if-statement: the
    branch `return;` pushed no frame. *)
Definition ifReturn : Node :=
  IfStatement (Identifier "a") (ReturnStatement None) None.

Definition insideFunction : ScopeManager Z :=
  mkManager [frame "FunctionDeclaration" 0 true; sentinel] [].

(** `function f() { try { g(); } finally { h(); } }` *)
Definition tryFinally : Node :=
  Program
    [FunctionDeclaration "f" []
       (BlockStatement
          [TryStatement
             (BlockStatement
                [ExpressionStatement (CallExpression (Identifier "g") [])])
             None
             (Some (BlockStatement
                      [ExpressionStatement
                         (CallExpression (Identifier "h") [])]))])].

(** `function f() { if (a) { conv.ask('1'); } else return; }` *)
Definition ifElseReturn : Node :=
  Program
    [FunctionDeclaration "f" []
       (BlockStatement
          [IfStatement (Identifier "a")
                       (BlockStatement [conv_ask (Literal "1")])
                       (Some (ReturnStatement None))])].

(** `function f() { if (a) { return; } else { conv.ask('1'); }
                    conv.ask('2'); }` *)
Definition returnThenTwo : Node :=
  Program
    [FunctionDeclaration "f" []
       (BlockStatement
          [IfStatement (Identifier "a")
                       (BlockStatement [ReturnStatement None])
                       (Some (BlockStatement [conv_ask (Literal "1")]));
           conv_ask (Literal "2")])].



Definition scopeOfApp : option EScope :=
  Some (mkEScope
          [mkVariable
             [mkDef "app" (Some (CallExpression (Identifier "dialogflow") []))]]
          None).

(** `app.intent('a', func)`, `app.intent('a', 'func')`,
    `app.intent('a', function () {})` and `a.b.intent('x', func)` *)
Definition app_intent (handler : Node) : Node :=
  CallExpression (MemberExpression (Identifier "app") (Identifier "intent"))
                 [Literal "a"; handler].





(** The labels of the frames on the stack, top first. *)
Definition labels (m : ScopeManager Z) : list string :=
  map event (_scopeStack m).

(** The errors that come from the classifiers: the error of
    findVariableNodeValue and the exhaustion of the call stack. *)
Definition classifierError (e : Exception) : Prop :=
  e = Error "Expected Identifier" \/ e = RangeError.

(** The errors that abort a pass whatever the pairing of the frames: those
    of the classifiers, and that of ESLint on a report without a node. *)
Definition passError (e : Exception) : Prop :=
  classifierError e \/ e = AssertionError nodeMustBeProvided.

(** [outcome r expected]: the step returned with the frames [expected] on
    the stack, or it was aborted by one of these errors. *)
Definition outcome (r : Result (ScopeManager Z)) (expected : list string)
  : Prop :=
  match r with
  | Ok m' => labels m' = expected
  | Throw e => passError e
  end.

(** The label of the frame the rule pushes for a child of an if-statement:
    the selectors 'IfStatement > ExpressionStatement',
    'IfStatement > BlockStatement' and 'IfStatement > IfStatement'. *)
Definition branchLabel (node : Node) : option string :=
  match node with
  | ExpressionStatement _ => Some "IfStatement > ExpressionStatement"
  | BlockStatement _ => Some "IfStatement > BlockStatement"
  | IfStatement _ _ _ => Some "IfStatement > IfStatement"
  | _ => None
  end.

Definition pushedBy (parent : option Node) (node : Node) : list string :=
  if AtMostTwoSimpleResponses.parentIsIfStatement parent then
    match branchLabel node with
    | Some l => [l]
    | None => []
    end
  else [].

(** The programs on which the rule pairs every frame it pushes with a pop:
    each branch of an if-statement is an expression statement, a block or an
    if-statement (and its test is none of these), each try statement has a
    catch clause, and catch clauses occur nowhere else. *)
Fixpoint framed (node : Node) : bool :=
  match node with
  | Identifier _ | Literal _ => true
  | TemplateLiteral es => forallb framed es
  | BinaryExpression _ l r => framed l && framed r
  | CallExpression c args | NewExpression c args =>
      framed c && forallb framed args
  | MemberExpression o p | MethodDefinition o p => framed o && framed p
  | SpreadElement b | ExpressionStatement b => framed b
  | FunctionExpression ps b | ArrowFunctionExpression ps b
  | FunctionDeclaration _ ps b => forallb framed ps && framed b
  | BlockStatement l | Program l | OtherNode _ l => forallb framed l
  | IfStatement t c a =>
      negb (isSome (branchLabel t)) && framed t
      && isSome (branchLabel c) && framed c
      && match a with
         | Some x => isSome (branchLabel x) && framed x
         | None => true
         end
  | TryStatement b h f =>
      framed b
      && match h with
         | Some (CatchClause param body) =>
             match param with
             | Some p => framed p
             | None => true
             end && framed body
         | _ => false
         end
      && match f with
         | Some x => framed x
         | None => true
         end
  | CatchClause _ _ => false
  | ReturnStatement a =>
      match a with
      | Some x => framed x
      | None => true
      end
  end.

(** The frame discipline at a node: from any state with the sentinel (or
    more) on the stack, the pass over a framed node, if no classifier error
    aborts it, returns with the frames it started with, under the frame the
    node pushes as a branch of an if-statement; and the pass over a catch
    clause with a framed body, started on top of the frame of its try
    statement, returns with both frames popped. *)
Definition balancedAt (getScope : Node -> option EScope) (stackDepth : nat)
           (node : Node) : Prop :=
  framed node = true ->
  forall parent ctx m,
    labels m <> [] ->
    outcome (AtMostTwoSimpleResponses.traverse getScope stackDepth
               parent ctx node m)
            (pushedBy parent node ++ labels m).

Definition catchBalancedAt (getScope : Node -> option EScope)
           (stackDepth : nat) (node : Node) : Prop :=
  forall param body,
    node = CatchClause param body ->
    match param with Some p => framed p | None => true end = true ->
    framed body = true ->
  forall parent ctx m lt L,
    labels m = lt :: L ->
    includes lt "TryStatement" = true ->
    L <> [] ->
    outcome (AtMostTwoSimpleResponses.traverse getScope stackDepth
               parent ctx node m) L.

(** The children of a node in the order ESLint visits them, each with the
    context it is visited in. *)
Definition childNodes (node : Node) : list (EslintContext * Node) :=
  let plain := map (pair AtMostTwoSimpleResponses.child) in
  let opt o := match o with Some x => [x] | None => [] end in
  match node with
  | Identifier _ | Literal _ => []
  | TemplateLiteral es => plain es
  | BinaryExpression _ l r => plain [l; r]
  | CallExpression c args | NewExpression c args => plain (c :: args)
  | MemberExpression o p | MethodDefinition o p => plain [o; p]
  | SpreadElement b | ExpressionStatement b => plain [b]
  | FunctionExpression ps b | ArrowFunctionExpression ps b
  | FunctionDeclaration _ ps b => plain (ps ++ [b])
  | CatchClause p b => plain (opt p ++ [b])
  | BlockStatement l | Program l | OtherNode _ l => plain l
  | IfStatement t c a =>
      plain [t; c]
      ++ map (pair AtMostTwoSimpleResponses.alternateChild) (opt a)
  | TryStatement b h f => plain (b :: opt h ++ opt f)
  | ReturnStatement a => plain (opt a)
  end.

(** [contains n x]: [x] is [n] or occurs below it. *)
Inductive contains : Node -> Node -> Prop :=
| contains_self (n : Node) : contains n n
| contains_child (n y x : Node) (cx : EslintContext) :
    In (cx, y) (childNodes n) -> contains y x -> contains n x.

(** ** lib/classifier/helper-response-classifier.js *)

Module HelperResponseClassifier.

Definition HELPER_CLASSES : list string :=
  [ "SignIn"; "RegisterUpdate"; "DeepLink"; "DateTime"; "Confirmation";
    "NewSurface"; "Place";
    "CompletePurchase"; "Decision"; "DeliveryAddress";
    "TransactionRequirements";
    "Permission"; "PermissionOptions"; "UpdatePermission";
    "List"; "Carousel" ].

(** `HELPER_CLASSES.indexOf(callee.name) !== -1` *)
Definition isHelperClass (callee : Node) : bool :=
  match name callee with
  | Some x => existsb (String.eqb x) HELPER_CLASSES
  | None => false
  end.

(** `_isHelperResponse(node)`; [stackDepth] as in
    [SimpleResponseClassifier._isSimpleResponse]. *)
Fixpoint _isHelperResponse (stackDepth : nat) (scope : option EScope)
         (node : Node) : Result Response :=
  match stackDepth with
  | O => Throw RangeError
  | S depth =>
      match node with
      | NewExpression c _ => Ok (_createResponse true (isHelperClass c))
      | Identifier _ =>
          valueNode <- AstUtils.findVariableNodeValue scope node ;;
          match valueNode with
          | Some val => _isHelperResponse depth scope val
          | None => Ok (_createResponse false false)
          end
      | CallExpression _ _
      | MemberExpression _ _
      | SpreadElement _ => Ok (_createResponse false false)
      | _ => Ok (_createResponse true false)
      end
  end.

Definition classify (stackDepth : nat) (scope : option EScope) (node : Node)
  : Result Response :=
  _isHelperResponse stackDepth scope node.

End HelperResponseClassifier.

(** ** lib/rules/first-item-simple-or-helper-response.js

    The state of the rule: its flag and the `node` of every `context.report`
    made so far, oldest first. *)

Module FirstItemSimpleOrHelperResponse.

Record State : Type := mkState {
  firstResponseBuildingCall : bool;
  reported : list Node
}.

(** `create(context)`: the flag starts true. *)
Definition initial : State := mkState true [].

Section Rule.
(** `context.getScope()` while a handler runs, and room on the call stack. *)
Variable scope : option EScope.
Variable stackDepth : nat.

Definition isSimpleResponse (node : Node) : Result bool :=
  r <- SimpleResponseClassifier.classify stackDepth scope node ;;
  Ok (negb (certain r) || result r).

Definition isHelperResponse (node : Node) : Result bool :=
  r <- HelperResponseClassifier.classify stackDepth scope node ;;
  Ok (negb (certain r) || result r).

Fixpoint doesContainHelperOrSimple (args : list Node) : Result bool :=
  match args with
  | [] => Ok false
  | a :: rest =>
      helper <- isHelperResponse a ;;
      if helper : bool then Ok true
      else
        simple <- isSimpleResponse a ;;
        if simple : bool then Ok true
        else doesContainHelperOrSimple rest
  end.

Definition on_CallExpression (callExpression : Node) (st : State)
  : Result State :=
  if Classifier.doesReturnActionResponse (Some callExpression) then
    match callExpression with
    | CallExpression callee args =>
        st1 <- (if firstResponseBuildingCall st then
                  contains <- doesContainHelperOrSimple args ;;
                  if contains : bool then Ok st
                  else Ok (mkState (firstResponseBuildingCall st)
                                   (reported st ++ [callee]))
                else Ok st) ;;
        Ok (if firstResponseBuildingCall st1
            then mkState false (reported st1)
            else st1)
    | _ => Ok st
    end
  else Ok st.

(** The handlers 'FunctionDeclaration' and 'ArrowFunctionExpression';
    [parent] is the `parent` of the function. *)
Definition on_function (parent : option Node) (st : State) : Result State :=
  isHandler <- Classifier.isNodeIntentHandler scope parent ;;
  Ok (mkState isHandler (reported st)).

End Rule.

End FirstItemSimpleOrHelperResponse.

(** ** lib/rules/always-return-promise.js *)

Module AlwaysReturnPromise.

(** `array.find(predicate)` with a predicate that may throw: the elements
    are tried in order, up to the first on which the predicate holds. *)
Fixpoint find (predicate : Node -> Result bool) (l : list Node)
  : Result (option Node) :=
  match l with
  | [] => Ok None
  | x :: rest =>
      found <- predicate x ;;
      if found : bool then Ok (Some x) else find predicate rest
  end.

(** The handler 'MemberExpression': [ancestors] is `context.getAncestors()`,
    outermost first; the result is the `node` of the reports made so far. *)
Definition on_MemberExpression (scope : option EScope)
           (ancestors : list Node) (memberExpression : Node)
           (reports : list Node) : Result (list Node) :=
  match memberExpression with
  | MemberExpression _ property =>
      if nameIs property "then" then
        insideIntent <-
          find (fun node => Classifier.isNodeIntentHandler scope (Some node))
               ancestors ;;
        let isReturned :=
          List.find (fun element =>
                       String.eqb (type element) "ReturnStatement")
                    ancestors in
        if isSome insideIntent && negb (isSome isReturned)
        then Ok (reports ++ [memberExpression])
        else Ok reports
      else Ok reports
  | _ => Ok reports
  end.

End AlwaysReturnPromise.

(** ** lib/rules/must-return-response.js: the handlers that do not go
    through [account] *)

Module MustReturnResponse.

(** The handler 'CallExpression'. *)
Definition on_CallExpression (callExpression : Node) (m : ScopeManager bool)
  : Result (ScopeManager bool) :=
  inside <-
    (if Classifier.doesReturnActionResponse (Some callExpression)
     then Ok true
     else PresenceScopeManager.isScopeInsideIntent
            (Some (length (_scopeStack m) - 1)%nat) m) ;;
  if inside : bool then assignCurrent (assign_metadata true) m else Ok m.

(** The `node` of every `context.report` made so far: `report(violationNode)`
    passes the node on when the metadata of the current scope is false. *)
Definition reports (m : ScopeManager bool) : list (option Node) :=
  flat_map (fun c =>
              match scopeAtCall c with
              | Some s =>
                  if metadata s : bool then [] else [reportedNode c]
              | None => []
              end)
           (reporterCalls m).

Section Rule.
(** `context.getScope()` while the given node is visited. *)
Variable getScope : Node -> option EScope.

Definition parentIsIfStatement (parent : option Node) : bool :=
  match parent with
  | Some (IfStatement _ _ _) => true
  | _ => false
  end.

Definition parentIsTryStatement (parent : option Node) : bool :=
  match parent with
  | Some (TryStatement _ _ _) => true
  | _ => false
  end.

(** The handlers of the rule that fire when [node] is entered; [parent] is
    `node.parent`. *)
Definition enter (parent : option Node) (node : Node)
           (m : ScopeManager bool) : Result (ScopeManager bool) :=
  let account := PresenceScopeManager.account node in
  match node with
  | CallExpression _ _ => on_CallExpression node m
  | ExpressionStatement _ =>
      if parentIsIfStatement parent
      then account "IfStatement > ExpressionStatement" m
      else if parentIsTryStatement parent
      then account "TryStatement > ExpressionStatement" m
      else Ok m
  | BlockStatement _ =>
      if parentIsIfStatement parent
      then account "IfStatement > BlockStatement" m
      else if parentIsTryStatement parent
      then account "TryStatement > BlockStatement" m
      else Ok m
  | IfStatement _ _ _ =>
      if parentIsIfStatement parent
      then account "IfStatement > IfStatement" m else Ok m
  | FunctionExpression _ _ =>
      isHandler <- Classifier.isNodeIntentHandler (getScope node) parent ;;
      account (if isHandler : bool then "FunctionExpression, Intent"
               else "FunctionExpression") m
  | ArrowFunctionExpression _ _ =>
      isHandler <- Classifier.isNodeIntentHandler (getScope node) parent ;;
      account (if isHandler : bool then "ArrowFunctionExpression, Intent"
               else "ArrowFunctionExpression") m
  | FunctionDeclaration _ _ _ => account "FunctionDeclaration" m
  | MethodDefinition _ _ => account "MethodDefinition" m
  | CatchClause _ _ => account "CatchClause" m
  | _ => Ok m
  end.

(** The handlers that fire when [node] is left. *)
Definition leave (parent : option Node) (node : Node)
           (m : ScopeManager bool) : Result (ScopeManager bool) :=
  let account := PresenceScopeManager.account node in
  match node with
  | IfStatement _ _ _ => account "IfStatement:exit" m
  | FunctionExpression _ _ =>
      isHandler <- Classifier.isNodeIntentHandler (getScope node) parent ;;
      account (if isHandler : bool then "FunctionExpression:exit, Intent"
               else "FunctionExpression:exit") m
  | ArrowFunctionExpression _ _ =>
      isHandler <- Classifier.isNodeIntentHandler (getScope node) parent ;;
      account (if isHandler : bool then "ArrowFunctionExpression:exit, Intent"
               else "ArrowFunctionExpression:exit") m
  | FunctionDeclaration _ _ _ => account "FunctionDeclaration:exit" m
  | MethodDefinition _ _ => account "MethodDefinition:exit" m
  | CatchClause _ _ => account "CatchClause:exit" m
  | _ => Ok m
  end.

(** The pass of the rule over the tree rooted at [node]. *)
Fixpoint traverse (parent : option Node) (node : Node)
         (m : ScopeManager bool) {struct node} : Result (ScopeManager bool) :=
  let self := Some node in
  m1 <- enter parent node m ;;
  m2 <- match node with
        | Identifier _ | Literal _ => Ok m1
        | TemplateLiteral es => visitList (traverse self) es m1
        | BinaryExpression _ l r =>
            m' <- traverse self l m1 ;; traverse self r m'
        | CallExpression c args | NewExpression c args =>
            m' <- traverse self c m1 ;; visitList (traverse self) args m'
        | MemberExpression o p =>
            m' <- traverse self o m1 ;; traverse self p m'
        | MethodDefinition k v =>
            m' <- traverse self k m1 ;; traverse self v m'
        | SpreadElement b | ExpressionStatement b => traverse self b m1
        | FunctionExpression ps b | ArrowFunctionExpression ps b
        | FunctionDeclaration _ ps b =>
            m' <- visitList (traverse self) ps m1 ;; traverse self b m'
        | CatchClause p b =>
            m' <- visitOpt (traverse self) p m1 ;; traverse self b m'
        | BlockStatement l | Program l | OtherNode _ l =>
            visitList (traverse self) l m1
        | IfStatement t c a =>
            m' <- traverse self t m1 ;;
            m'' <- traverse self c m' ;;
            visitOpt (traverse self) a m''
        | TryStatement b h f =>
            m' <- traverse self b m1 ;;
            m'' <- visitOpt (traverse self) h m' ;;
            visitOpt (traverse self) f m''
        | ReturnStatement a => visitOpt (traverse self) a m1
        end ;;
  leave parent node m2.

(** One pass of the rule over a program, from a fresh manager. *)
Definition run (program : Node) : Result (ScopeManager bool) :=
  traverse None program PresenceScopeManager.new.

End Rule.

End MustReturnResponse.

(** ** Properties of the state of a manager *)

(** The stack is not empty and its bottom frame is the sentinel. *)
Definition sentinelAtBottom {M : Type} (m : ScopeManager M) : Prop :=
  exists frames bottom,
    _scopeStack m = frames ++ [bottom] /\ event bottom = "Sentinel".

(** No frame and no reported scope has a negative count. *)
Definition nonNegative (m : ScopeManager Z) : Prop :=
  Forall (fun s => 0 <= metadata s) (_scopeStack m).

(** [preserves P op]: a state with [P] is taken by [op] to a state with [P],
    when [op] returns. *)
Definition preserves {S : Type} (P : S -> Prop) (op : S -> Result S) : Prop :=
  forall s s', P s -> op s = Ok s' -> P s'.

(** The variables of a scope chain, nearest scope first. *)
Fixpoint chainVariables (scope : EScope) : list ScopeVariable :=
  match scope with
  | mkEScope vs up =>
      vs ++ match up with
            | Some u => chainVariables u
            | None => []
            end
  end.

(** The initialiser a variable gives to [x]: that of its last definition
    named [x]. *)
Definition initialiserOf (x : string) (v : ScopeVariable) : option Node :=
  match filter (fun d => String.eqb (defName d) x) (defs v) with
  | [] => None
  | d0 :: ds => init (last (d0 :: ds) d0)
  end.

(** The types of the nodes whose exit goes to `_handleIntentHandlerExit`. *)
Definition isFunctionType (t : string) : bool :=
  String.eqb t "ArrowFunctionExpression" || String.eqb t "FunctionExpression"
  || String.eqb t "FunctionDeclaration" || String.eqb t "MethodDefinition".

(** A handler body of consecutive statements `conv.ask('...')`, one for each
    of the given strings, and the callee the reports are anchored at. *)
Definition askCallee : Node :=
  MemberExpression (Identifier "conv") (Identifier "ask").

Definition asks (l : list string) : Node :=
  Program (map (fun s => conv_ask (Literal s)) l).

(** The frame after one simple response of `conv.ask` is counted in it. *)
Definition counted (s : Scope Z) : Scope Z :=
  mkScope (event s) (metadata s + 1) (Some askCallee) (hasReturnStatement s).

(** Straight-line code: no conditional, function, method, try statement or
    catch clause anywhere in the tree. *)
Fixpoint straightLine (n : Node) : bool :=
  match n with
  | Identifier _ | Literal _ => true
  | TemplateLiteral es => forallb straightLine es
  | BinaryExpression _ l r => straightLine l && straightLine r
  | CallExpression c args | NewExpression c args =>
      straightLine c && forallb straightLine args
  | MemberExpression o p => straightLine o && straightLine p
  | SpreadElement b | ExpressionStatement b => straightLine b
  | BlockStatement l | Program l | OtherNode _ l => forallb straightLine l
  | ReturnStatement a =>
      match a with
      | Some x => straightLine x
      | None => true
      end
  | _ => false
  end.

(** Whether the tree holds a call expression on which [p] holds. *)
Fixpoint anyCall (p : Node -> bool) (n : Node) : bool :=
  let opt o := match o with Some x => anyCall p x | None => false end in
  match n with
  | Identifier _ | Literal _ => false
  | TemplateLiteral es => existsb (anyCall p) es
  | BinaryExpression _ l r => anyCall p l || anyCall p r
  | CallExpression c args =>
      p n || anyCall p c || existsb (anyCall p) args
  | NewExpression c args => anyCall p c || existsb (anyCall p) args
  | MemberExpression o q | MethodDefinition o q => anyCall p o || anyCall p q
  | SpreadElement b | ExpressionStatement b => anyCall p b
  | FunctionExpression ps b | ArrowFunctionExpression ps b
  | FunctionDeclaration _ ps b => existsb (anyCall p) ps || anyCall p b
  | CatchClause q b => opt q || anyCall p b
  | BlockStatement l | Program l | OtherNode _ l => existsb (anyCall p) l
  | IfStatement t c a => anyCall p t || anyCall p c || opt a
  | TryStatement b h f => anyCall p b || opt h || opt f
  | ReturnStatement a => opt a
  end.

(** Some frame of the stack belongs to an intent handler. *)
Definition insideIntent (stack : list (Scope bool)) : bool :=
  existsb (fun x => includes (event x) "Intent") stack.

(** The calls on which the 'CallExpression' handler of must-return-response
    sets the current frame, given whether the stack is inside an intent. *)
Definition setsPresence (inside : bool) (callExpression : Node) : bool :=
  Classifier.doesReturnActionResponse (Some callExpression) || inside.

(** The frame after the presence of a response has or has not been seen. *)
Definition seen (b : bool) (s : Scope bool) : Scope bool :=
  assign_metadata (metadata s || b) s.

(** What the pass of must-return-response over straight-line code does to a
    manager: it sets the top frame when it meets a call that counts, and
    nothing else. *)
Definition onlySets (getScope : Node -> option EScope)
           (parent : option Node) (node : Node) : Prop :=
  forall s rest calls,
    MustReturnResponse.traverse getScope parent node
                                (mkManager (s :: rest) calls)
    = Ok (mkManager
            (seen (anyCall (setsPresence (insideIntent (s :: rest))) node) s
             :: rest) calls).

(** `app.intent('a', (params) => { body })` as a program. *)
Definition handlerFunction (params body : list Node) : Node :=
  ArrowFunctionExpression params (BlockStatement body).

Definition handlerProgram (params body : list Node) : Node :=
  Program [ExpressionStatement (app_intent (handlerFunction params body))].

(** `try { bs } catch (param) { cs } finally { fs }`, the catch clause and
    its parameter being optional. *)
Definition catchClause (c : option Node * list Node) : Node :=
  CatchClause (fst c) (BlockStatement (snd c)).

Definition tryWithFinally (bs : list Node)
           (catch : option (option Node * list Node)) (fs : list Node)
  : Node :=
  TryStatement (BlockStatement bs) (option_map catchClause catch)
               (Some (BlockStatement fs)).

(** The parameter and the body of an optional catch clause are
    straight-line code. *)
Definition straightLineCatch (catch : option (option Node * list Node))
  : bool :=
  match catch with
  | Some (param, cs) =>
      match param with
      | Some p => straightLine p
      | None => true
      end && forallb straightLine cs
  | None => true
  end.

(** The statement `a + '1';` and the parameter `p = foo()`. *)
Definition plusStatement : Node :=
  ExpressionStatement (BinaryExpression "+" (Identifier "a") (Literal "1")).

Definition defaultFromCall : Node :=
  OtherNode "AssignmentPattern"
            [Identifier "p"; CallExpression (Identifier "foo") []].

(** `fetch(url).then(cb)` and its callee. *)
Definition fetchThen : Node :=
  MemberExpression (CallExpression (Identifier "fetch") [Identifier "url"])
                   (Identifier "then").

Definition fetchThenCall : Node :=
  CallExpression fetchThen [Identifier "cb"].

(** Every call of the reporter was made with a function at its exit, on a
    frame that belongs to an intent handler. *)
Definition reportsOnlyHandlers (m : ScopeManager bool) : Prop :=
  Forall (fun c =>
            exists n s,
              reportedNode c = Some n
              /\ isFunctionType (type n) = true
              /\ scopeAtCall c = Some s
              /\ includes (event s) "Intent" = true)
         (reporterCalls m).

(** `function f() { if (a) { conv.ask('1'); } else { conv.ask('2'); }
                    try { conv.ask('3'); } catch (e) { } }` *)
Definition pairedFrames : Node :=
  Program
    [FunctionDeclaration "f" []
       (BlockStatement
          [IfStatement (Identifier "a")
                       (BlockStatement [conv_ask (Literal "1")])
                       (Some (BlockStatement [conv_ask (Literal "2")]));
           TryStatement (BlockStatement [conv_ask (Literal "3")])
                        (Some emptyCatch) None])].

(** `function f() { try { conv.ask('1'); conv.ask('2'); conv.ask('3'); }
                    catch (e) { } }` *)
Definition threeAsksInTry : Node :=
  Program
    [FunctionDeclaration "f" []
       (BlockStatement
          [TryStatement
             (BlockStatement [conv_ask (Literal "1"); conv_ask (Literal "2");
                              conv_ask (Literal "3")])
             (Some emptyCatch)
             None])].

(** * Properties *)

(** ** Labels *)

Lemma includes_not_Sentinel (ev sub : string) :
  includes "Sentinel" sub = false ->
  includes ev sub = true ->
  String.eqb ev "Sentinel" = false.
Proof.
  intros Hs Hev.
  destruct (String.eqb_spec ev "Sentinel") as [-> | _]; [congruence | reflexivity].
Qed.

Lemma IfStatement_not_Sentinel (ev : string) :
  includes ev "IfStatement" = true -> String.eqb ev "Sentinel" = false.
Proof. apply includes_not_Sentinel. reflexivity. Qed.

Lemma CatchClause_not_Sentinel (ev : string) :
  includes ev "CatchClause" = true -> String.eqb ev "Sentinel" = false.
Proof. apply includes_not_Sentinel. reflexivity. Qed.

Lemma TryStatement_not_Sentinel (ev : string) :
  includes ev "TryStatement" = true -> String.eqb ev "Sentinel" = false.
Proof. apply includes_not_Sentinel. reflexivity. Qed.

(** ** Popping frames *)

Lemma exitScope_pops {M : Type} (s : Scope M) (rest : list (Scope M))
      (calls : list (ReporterCall M)) :
  String.eqb (event s) "Sentinel" = false ->
  _exitScope (mkManager (s :: rest) calls) = Ok (mkManager rest calls).
Proof.
  intros H. unfold _exitScope, _invariant. simpl. rewrite H. reflexivity.
Qed.

Lemma getElseScopeIfAny_pops {M : Type} (node : Node)
      (elseScope : option (Scope M)) (ifScope : Scope M)
      (rest : list (Scope M)) (calls : list (ReporterCall M)) :
  includes (event ifScope) "IfStatement" = true ->
  labelled "IfStatement" elseScope ->
  isSome (alternate node) = isSome elseScope ->
  _getElseScopeIfAny node
    (mkManager (branchFrames elseScope ifScope ++ rest) calls)
  = Ok (elseScope, mkManager (ifScope :: rest) calls).
Proof.
  intros Hif Helse Halt. unfold _getElseScopeIfAny.
  destruct elseScope as [e|]; destruct (alternate node); try discriminate;
    simpl.
  - rewrite (Helse e eq_refl).
    rewrite exitScope_pops by (apply IfStatement_not_Sentinel, Helse; reflexivity).
    reflexivity.
  - reflexivity.
Qed.

(** ** The conditional exit of the counting manager *)

Section CountIfExit.
Variables (ctx : EslintContext) (node : Node).
Variables (ifScope parent : Scope Z) (elseScope : option (Scope Z)).
Variables (rest : list (Scope Z)) (calls : list (ReporterCall Z)).
Hypothesis Hif : includes (event ifScope) "IfStatement" = true.
Hypothesis Helse : labelled "IfStatement" elseScope.
Hypothesis Halt : isSome (alternate node) = isSome elseScope.

Let before : ScopeManager Z :=
  mkManager (branchFrames elseScope ifScope ++ parent :: rest) calls.
Let newVal : Z :=
  mergedCount ctx (metadata parent) (branchCount elseScope ifScope).

Lemma handleIfExit_frames :
  CountScopeManager._handleIfExit ctx node before
  = CountScopeManager._undoChangesIfThereIsReturnStatement
      ifScope elseScope (metadata parent)
      (afterMerge node parent newVal rest calls).
Proof.
  unfold CountScopeManager._handleIfExit, before.
  assert (Htop : exists top,
             currentScope_get
               (mkManager (branchFrames elseScope ifScope ++ parent :: rest)
                          calls) = Ok top
             /\ includes (event top) "IfStatement" = true).
  { destruct elseScope as [e|]; simpl; eexists; split; try reflexivity.
    - apply Helse; reflexivity.
    - exact Hif. }
  destruct Htop as (top & -> & Htop). simpl. rewrite Htop. simpl.
  rewrite getElseScopeIfAny_pops by assumption. simpl.
  rewrite exitScope_pops by (apply IfStatement_not_Sentinel, Hif). simpl.
  unfold afterMerge, newVal, mergedCount, branchCount,
    CountScopeManager._isInsideIfElseStatement.
  destruct (negb _); reflexivity.
Qed.

End CountIfExit.

Lemma undo_without_return (ifScope : Scope Z) (elseScope : option (Scope Z))
      (initialVal : Z) (m : ScopeManager Z) :
  hasReturnStatement ifScope = false ->
  noReturn elseScope ->
  CountScopeManager._undoChangesIfThereIsReturnStatement
    ifScope elseScope initialVal m = Ok m.
Proof.
  intros Hi He. unfold CountScopeManager._undoChangesIfThereIsReturnStatement.
  rewrite Hi. destruct elseScope as [e|]; simpl.
  - rewrite (He e eq_refl). reflexivity.
  - reflexivity.
Qed.

Lemma handleIfExit_without_return (ctx : EslintContext) (node : Node)
      (ifScope parent : Scope Z) (elseScope : option (Scope Z))
      (rest : list (Scope Z)) (calls : list (ReporterCall Z)) :
  includes (event ifScope) "IfStatement" = true ->
  labelled "IfStatement" elseScope ->
  isSome (alternate node) = isSome elseScope ->
  hasReturnStatement ifScope = false ->
  noReturn elseScope ->
  CountScopeManager._handleIfExit ctx node
    (mkManager (branchFrames elseScope ifScope ++ parent :: rest) calls)
  = Ok (afterMerge node parent
          (mergedCount ctx (metadata parent) (branchCount elseScope ifScope))
          rest calls).
Proof.
  intros Hif Helse Halt Hi He.
  rewrite handleIfExit_frames by assumption.
  apply undo_without_return; assumption.
Qed.

Lemma afterMerge_metadata (node : Node) (parent : Scope Z) (newVal : Z)
      (rest : list (Scope Z)) (calls : list (ReporterCall Z)) :
  exists parent',
    _scopeStack (afterMerge node parent newVal rest calls) = parent' :: rest
    /\ event parent' = event parent
    /\ hasReturnStatement parent' = hasReturnStatement parent
    /\ metadata parent' = newVal.
Proof.
  unfold afterMerge. destruct (negb _); simpl; eexists; repeat split.
Qed.

(** C1 (counting tracker, standalone conditional).  When the if-statement
    being left is not the alternate of its parent, its branch frames are on
    the stack (the alternate's frame exactly when there is an else branch)
    and neither has a return statement, the exit succeeds, pops the branch
    frames, and leaves the parent frame with its former count plus
    max(c, e), where e is 0 without an else branch. *)
Theorem C1_standalone_conditional_adds_max
        (ctx : EslintContext) (node : Node)
        (ifScope parent : Scope Z) (elseScope : option (Scope Z))
        (rest : list (Scope Z)) (calls : list (ReporterCall Z)) :
  parentAlternateIsNode ctx = false ->
  includes (event ifScope) "IfStatement" = true ->
  labelled "IfStatement" elseScope ->
  isSome (alternate node) = isSome elseScope ->
  hasReturnStatement ifScope = false ->
  noReturn elseScope ->
  exists m' parent',
    CountScopeManager._handleIfExit ctx node
      (mkManager (branchFrames elseScope ifScope ++ parent :: rest) calls)
    = Ok m'
    /\ _scopeStack m' = parent' :: rest
    /\ event parent' = event parent
    /\ metadata parent'
       = metadata parent
         + Z.max (metadata ifScope)
                 (match elseScope with Some e => metadata e | None => 0 end).
Proof.
  intros Hctx Hif Helse Halt Hi He.
  rewrite handleIfExit_without_return by assumption.
  destruct (afterMerge_metadata node parent
              (mergedCount ctx (metadata parent)
                           (branchCount elseScope ifScope)) rest calls)
    as (parent' & Hstack & Hev & _ & Hmeta).
  exists (afterMerge node parent
            (mergedCount ctx (metadata parent) (branchCount elseScope ifScope))
            rest calls), parent'.
  repeat split; try assumption.
  rewrite Hmeta. unfold mergedCount, branchCount. rewrite Hctx. reflexivity.
Qed.

Lemma C1_witness :
  parentAlternateIsNode (mkContext false) = false
  /\ includes "IfStatement > BlockStatement" "IfStatement" = true
  /\ exists m' parent',
       CountScopeManager._handleIfExit (mkContext false) ifWithElse
         (mkManager [frame "IfStatement > BlockStatement" 2 false;
                     frame "IfStatement > BlockStatement" 1 false;
                     frame "FunctionDeclaration" 4 false; sentinel] [])
       = Ok m'
       /\ _scopeStack m' = [parent'; sentinel]
       /\ event parent' = "FunctionDeclaration"
       /\ metadata parent' = 4 + Z.max 1 2.
Proof.
  split; [reflexivity | split; [reflexivity | ]].
  apply (C1_standalone_conditional_adds_max
           (mkContext false) ifWithElse
           (frame "IfStatement > BlockStatement" 1 false)
           (frame "FunctionDeclaration" 4 false)
           (Some (frame "IfStatement > BlockStatement" 2 false))
           [sentinel] []).
  - reflexivity.
  - reflexivity.
  - intros e [= <-]. reflexivity.
  - reflexivity.
  - reflexivity.
  - intros e [= <-]. reflexivity.
Defined.

(** Without an else branch max(c, 0) is added. *)
Lemma standalone_if_without_else :
  currentMetadata
    (CountScopeManager._handleIfExit (mkContext false) ifWithoutElse
       (mkManager [frame "IfStatement > BlockStatement" 2 false;
                   frame "FunctionDeclaration" 1 false; sentinel] []))
  = Some 3.
Proof. reflexivity. Qed.

(** C2 (counting tracker, else-if chain).  When the if-statement being left
    is the alternate of its parent, under the same conditions on the frames,
    the parent frame is left with max(p, c, e): the counts of the branches
    are not added to p. *)
Theorem C2_chained_conditional_takes_max
        (ctx : EslintContext) (node : Node)
        (ifScope parent : Scope Z) (elseScope : option (Scope Z))
        (rest : list (Scope Z)) (calls : list (ReporterCall Z)) :
  parentAlternateIsNode ctx = true ->
  includes (event ifScope) "IfStatement" = true ->
  labelled "IfStatement" elseScope ->
  isSome (alternate node) = isSome elseScope ->
  hasReturnStatement ifScope = false ->
  noReturn elseScope ->
  exists m' parent',
    CountScopeManager._handleIfExit ctx node
      (mkManager (branchFrames elseScope ifScope ++ parent :: rest) calls)
    = Ok m'
    /\ _scopeStack m' = parent' :: rest
    /\ event parent' = event parent
    /\ metadata parent'
       = Z.max (metadata parent)
               (Z.max (metadata ifScope)
                      (match elseScope with
                       | Some e => metadata e
                       | None => 0
                       end)).
Proof.
  intros Hctx Hif Helse Halt Hi He.
  rewrite handleIfExit_without_return by assumption.
  destruct (afterMerge_metadata node parent
              (mergedCount ctx (metadata parent)
                           (branchCount elseScope ifScope)) rest calls)
    as (parent' & Hstack & Hev & _ & Hmeta).
  exists (afterMerge node parent
            (mergedCount ctx (metadata parent) (branchCount elseScope ifScope))
            rest calls), parent'.
  repeat split; try assumption.
  rewrite Hmeta. unfold mergedCount, branchCount. rewrite Hctx. reflexivity.
Qed.

Lemma C2_witness :
  parentAlternateIsNode (mkContext true) = true
  /\ includes "IfStatement > BlockStatement" "IfStatement" = true
  /\ exists m' parent',
       CountScopeManager._handleIfExit (mkContext true) ifWithElse
         (mkManager [frame "IfStatement > BlockStatement" 0 false;
                     frame "IfStatement > BlockStatement" 2 false;
                     frame "IfStatement > IfStatement" 1 false;
                     frame "IfStatement > BlockStatement" 1 false;
                     sentinel] [])
       = Ok m'
       /\ _scopeStack m'
          = [parent'; frame "IfStatement > BlockStatement" 1 false; sentinel]
       /\ event parent' = "IfStatement > IfStatement"
       /\ metadata parent' = Z.max 1 (Z.max 2 0).
Proof.
  split; [reflexivity | split; [reflexivity | ]].
  apply (C2_chained_conditional_takes_max
           (mkContext true) ifWithElse
           (frame "IfStatement > BlockStatement" 2 false)
           (frame "IfStatement > IfStatement" 1 false)
           (Some (frame "IfStatement > BlockStatement" 0 false))
           [frame "IfStatement > BlockStatement" 1 false; sentinel] []).
  - reflexivity.
  - reflexivity.
  - intros e [= <-]. reflexivity.
  - reflexivity.
  - reflexivity.
  - intros e [= <-]. reflexivity.
Defined.

(** ** Return statements in the branches *)

(** When both branches return, step 3 gives the parent the count it had
    before the merge. *)
Lemma handleIfExit_both_return (ctx : EslintContext) (node : Node)
      (ifScope elseScope parent : Scope Z)
      (rest : list (Scope Z)) (calls : list (ReporterCall Z)) :
  includes (event ifScope) "IfStatement" = true ->
  includes (event elseScope) "IfStatement" = true ->
  isSome (alternate node) = true ->
  hasReturnStatement ifScope = true ->
  hasReturnStatement elseScope = true ->
  exists m' parent',
    CountScopeManager._handleIfExit ctx node
      (mkManager (elseScope :: ifScope :: parent :: rest) calls) = Ok m'
    /\ _scopeStack m' = parent' :: rest
    /\ event parent' = event parent
    /\ metadata parent' = metadata parent.
Proof.
  intros Hif Helse Halt Hi He.
  change (elseScope :: ifScope :: parent :: rest)
    with (branchFrames (Some elseScope) ifScope ++ parent :: rest).
  rewrite handleIfExit_frames;
    [ | assumption | intros e [= <-]; assumption | assumption ].
  unfold CountScopeManager._undoChangesIfThereIsReturnStatement.
  rewrite Hi, He. simpl.
  destruct (afterMerge_metadata node parent
              (mergedCount ctx (metadata parent)
                           (branchCount (Some elseScope) ifScope)) rest calls)
    as (parent' & Hstack & Hev & _ & _).
  unfold assignCurrent. rewrite Hstack.
  eexists; eexists. split; [reflexivity | ]. simpl. repeat split. exact Hev.
Qed.

(** When only the consequent returns, step 3 subtracts the count of the
    consequent from the merged count and adds the count of the alternate (0
    without an else branch). *)
Lemma handleIfExit_consequent_returns (ctx : EslintContext) (node : Node)
      (ifScope parent : Scope Z) (elseScope : option (Scope Z))
      (rest : list (Scope Z)) (calls : list (ReporterCall Z)) :
  includes (event ifScope) "IfStatement" = true ->
  labelled "IfStatement" elseScope ->
  isSome (alternate node) = isSome elseScope ->
  hasReturnStatement ifScope = true ->
  noReturn elseScope ->
  exists m' parent',
    CountScopeManager._handleIfExit ctx node
      (mkManager (branchFrames elseScope ifScope ++ parent :: rest) calls)
    = Ok m'
    /\ _scopeStack m' = parent' :: rest
    /\ event parent' = event parent
    /\ metadata parent'
       = mergedCount ctx (metadata parent) (branchCount elseScope ifScope)
         - metadata ifScope
         + match elseScope with Some e => metadata e | None => 0 end.
Proof.
  intros Hif Helse Halt Hi He.
  rewrite handleIfExit_frames by assumption.
  unfold CountScopeManager._undoChangesIfThereIsReturnStatement.
  rewrite Hi.
  destruct (afterMerge_metadata node parent
              (mergedCount ctx (metadata parent)
                           (branchCount elseScope ifScope)) rest calls)
    as (parent' & Hstack & Hev & _ & Hmeta).
  assert (Hcur : currentScope_get
                   (afterMerge node parent
                      (mergedCount ctx (metadata parent)
                                   (branchCount elseScope ifScope)) rest calls)
                 = Ok parent').
  { unfold currentScope_get, currentScope. rewrite Hstack. reflexivity. }
  destruct elseScope as [e|]; simpl.
  - rewrite (He e eq_refl). simpl. rewrite Hcur. simpl.
    unfold assignCurrent. rewrite Hstack.
    eexists; eexists. split; [reflexivity | ]. simpl. repeat split.
    + exact Hev.
    + rewrite Hmeta. reflexivity.
  - rewrite Hcur. simpl. unfold assignCurrent. rewrite Hstack.
    eexists; eexists. split; [reflexivity | ]. simpl. repeat split.
    + exact Hev.
    + rewrite Hmeta. reflexivity.
Qed.

(** Symmetrically, when only the alternate returns, step 3 subtracts the
    count of the alternate and adds the count of the consequent. *)
Lemma handleIfExit_alternate_returns (ctx : EslintContext) (node : Node)
      (ifScope elseScope parent : Scope Z)
      (rest : list (Scope Z)) (calls : list (ReporterCall Z)) :
  includes (event ifScope) "IfStatement" = true ->
  includes (event elseScope) "IfStatement" = true ->
  isSome (alternate node) = true ->
  hasReturnStatement ifScope = false ->
  hasReturnStatement elseScope = true ->
  exists m' parent',
    CountScopeManager._handleIfExit ctx node
      (mkManager (elseScope :: ifScope :: parent :: rest) calls) = Ok m'
    /\ _scopeStack m' = parent' :: rest
    /\ event parent' = event parent
    /\ metadata parent'
       = mergedCount ctx (metadata parent)
                     (branchCount (Some elseScope) ifScope)
         - metadata elseScope + metadata ifScope.
Proof.
  intros Hif Helse Halt Hi He.
  change (elseScope :: ifScope :: parent :: rest)
    with (branchFrames (Some elseScope) ifScope ++ parent :: rest).
  rewrite handleIfExit_frames;
    [ | assumption | intros e [= <-]; assumption | assumption ].
  unfold CountScopeManager._undoChangesIfThereIsReturnStatement.
  rewrite Hi, He. simpl.
  destruct (afterMerge_metadata node parent
              (mergedCount ctx (metadata parent)
                           (branchCount (Some elseScope) ifScope)) rest calls)
    as (parent' & Hstack & Hev & _ & Hmeta).
  unfold currentScope_get, currentScope, assignCurrent. rewrite Hstack. simpl.
  eexists; eexists. split; [reflexivity | ]. simpl. repeat split.
  - exact Hev.
  - rewrite Hmeta. reflexivity.
Qed.

(** Hence the count of the alternate is what a standalone conditional passes
    on when its consequent returns and counts at least as much as the
    alternate. *)
Lemma standalone_consequent_returns_larger (node : Node)
      (ifScope parent : Scope Z) (elseScope : option (Scope Z))
      (rest : list (Scope Z)) (calls : list (ReporterCall Z)) :
  includes (event ifScope) "IfStatement" = true ->
  labelled "IfStatement" elseScope ->
  isSome (alternate node) = isSome elseScope ->
  hasReturnStatement ifScope = true ->
  noReturn elseScope ->
  match elseScope with Some e => metadata e | None => 0 end
    <= metadata ifScope ->
  currentMetadata
    (CountScopeManager._handleIfExit (mkContext false) node
       (mkManager (branchFrames elseScope ifScope ++ parent :: rest) calls))
  = Some (metadata parent
          + match elseScope with Some e => metadata e | None => 0 end).
Proof.
  intros Hif Helse Halt Hi He Hle.
  destruct (handleIfExit_consequent_returns (mkContext false) node ifScope
              parent elseScope rest calls Hif Helse Halt Hi He)
    as (m' & parent' & -> & Hstack & _ & Hmeta).
  unfold currentMetadata, currentScope. rewrite Hstack. simpl.
  rewrite Hmeta. unfold mergedCount, branchCount. simpl. f_equal. lia.
Qed.

(** C3 (counting tracker, return in the consequent only).  A standalone
    conditional whose consequent counts 1 and returns and whose alternate
    counts 2 and does not return, under a parent that counts 0: the parent
    is left with 0 + max(1, 2) - 1 + 2 = 3, not with the alternate's 2. *)
Theorem C3_return_in_smaller_consequent_counts_alternate_twice :
  currentMetadata
    (CountScopeManager._handleIfExit (mkContext false) ifWithElse
       (mkManager [frame "IfStatement > BlockStatement" 2 false;
                   frame "IfStatement > BlockStatement" 1 true;
                   frame "FunctionDeclaration" 0 false; sentinel] []))
  = Some 3.
Proof. reflexivity. Qed.

(** ** The try/catch exit *)

Lemma handleCatchExit_frames (node : Node)
      (catchScope tryScope parent : Scope Z)
      (rest : list (Scope Z)) (calls : list (ReporterCall Z)) :
  includes (event catchScope) "CatchClause" = true ->
  includes (event tryScope) "TryStatement" = true ->
  let parent' :=
    assign_metadata
      (Z.max (metadata parent)
             (Z.max (metadata catchScope) (metadata tryScope))) parent in
  CountScopeManager._handleCatchExit node
    (mkManager (catchScope :: tryScope :: parent :: rest) calls)
  = Ok (mkManager (parent' :: rest) (calls ++ [mkCall None (Some parent')])).
Proof.
  intros Hcatch Htry.
  unfold CountScopeManager._handleCatchExit. simpl. rewrite Hcatch. simpl.
  rewrite exitScope_pops by (apply CatchClause_not_Sentinel, Hcatch). simpl.
  rewrite Htry. simpl.
  rewrite exitScope_pops by (apply TryStatement_not_Sentinel, Htry).
  reflexivity.
Qed.

(** C4 (counting tracker, try/catch exit).  With the frame of the catch
    clause on top of the frame of the try statement, the exit pops the catch
    frame, then the try frame, gives the parent frame
    max(parent, catch, try), and calls the reporter once, whatever the
    counts; the exit of a conditional without return statements calls the
    reporter exactly when it changes the count of the parent. *)
Theorem C4_try_catch_exit_takes_max_and_always_reports
        (node : Node) (catchScope tryScope parent : Scope Z)
        (rest : list (Scope Z)) (calls : list (ReporterCall Z)) :
  includes (event catchScope) "CatchClause" = true ->
  includes (event tryScope) "TryStatement" = true ->
  (exists m1 m2,
      _exitScope (mkManager (catchScope :: tryScope :: parent :: rest) calls)
      = Ok m1
      /\ _scopeStack m1 = tryScope :: parent :: rest
      /\ _exitScope m1 = Ok m2
      /\ _scopeStack m2 = parent :: rest)
  /\ (let parent' :=
        assign_metadata
          (Z.max (metadata parent)
                 (Z.max (metadata catchScope) (metadata tryScope))) parent in
      CountScopeManager._handleCatchExit node
        (mkManager (catchScope :: tryScope :: parent :: rest) calls)
      = Ok (mkManager (parent' :: rest)
                      (calls ++ [mkCall None (Some parent')])))
  /\ (forall ctx ifNode ifScope elseScope m',
         includes (event ifScope) "IfStatement" = true ->
         labelled "IfStatement" elseScope ->
         isSome (alternate ifNode) = isSome elseScope ->
         hasReturnStatement ifScope = false ->
         noReturn elseScope ->
         CountScopeManager._handleIfExit ctx ifNode
           (mkManager (branchFrames elseScope ifScope ++ parent :: rest) calls)
         = Ok m' ->
         (currentMetadata (Ok m') = Some (metadata parent)
          -> reporterCalls m' = calls)
         /\ (currentMetadata (Ok m') <> Some (metadata parent)
             -> exists call, reporterCalls m' = calls ++ [call])).
Proof.
  intros Hcatch Htry.
  pose proof (CatchClause_not_Sentinel _ Hcatch) as Hc.
  pose proof (TryStatement_not_Sentinel _ Htry) as Ht.
  split; [ | split ].
  - exists (mkManager (tryScope :: parent :: rest) calls),
           (mkManager (parent :: rest) calls).
    rewrite !exitScope_pops by assumption. repeat split.
  - apply handleCatchExit_frames; assumption.
  - intros ctx ifNode ifScope elseScope m' Hif Helse Halt Hi He Hrun.
    rewrite handleIfExit_without_return in Hrun by assumption.
    injection Hrun as <-. unfold afterMerge, currentMetadata, currentScope.
    destruct (Z.eqb_spec
                (metadata parent
                 - mergedCount ctx (metadata parent)
                               (branchCount elseScope ifScope)) 0) as [E | E];
      simpl.
    + split; [reflexivity | ]. intros Hne. exfalso. apply Hne. f_equal. lia.
    + split; [ | intros _; eexists; reflexivity ].
      intros [= Heq]. exfalso. apply E. lia.
Qed.

Lemma C4_witness :
  includes "CatchClause" "CatchClause" = true
  /\ includes "TryStatement" "TryStatement" = true
  /\ CountScopeManager._handleCatchExit emptyCatch
       (mkManager [frame "CatchClause" 3 false; frame "TryStatement" 1 false;
                   frame "FunctionDeclaration" 0 false; sentinel] [])
     = Ok (mkManager
             [frame "FunctionDeclaration" 3 false; sentinel]
             [mkCall None (Some (frame "FunctionDeclaration" 3 false))]).
Proof.
  split; [reflexivity | split; [reflexivity | ]].
  apply (C4_try_catch_exit_takes_max_and_always_reports
           emptyCatch
           (frame "CatchClause" 3 false) (frame "TryStatement" 1 false)
           (frame "FunctionDeclaration" 0 false) [sentinel] []);
    reflexivity.
Defined.

(** ** The conditional exit of the presence manager *)

(** C5 (presence tracker, conditional exit).  With the branch frames on the
    stack (the alternate's frame exactly when there is an else branch), the
    exit pops them and leaves the parent frame with
    parent OR (consequent AND alternate) when there is an else branch, and
    with its metadata unchanged when there is none. *)
Theorem C5_presence_conditional_exit
        (node : Node) (ifScope parent : Scope bool)
        (elseScope : option (Scope bool))
        (rest : list (Scope bool)) (calls : list (ReporterCall bool)) :
  includes (event ifScope) "IfStatement" = true ->
  labelled "IfStatement" elseScope ->
  isSome (alternate node) = isSome elseScope ->
  PresenceScopeManager._handleIfExit node
    (mkManager (branchFrames elseScope ifScope ++ parent :: rest) calls)
  = Ok (mkManager
          (assign_metadata
             (match elseScope with
              | Some e => metadata parent || (metadata ifScope && metadata e)
              | None => metadata parent
              end) parent :: rest) calls).
Proof.
  intros Hif Helse Halt. unfold PresenceScopeManager._handleIfExit.
  assert (Htop : exists top,
             currentScope_get
               (mkManager (branchFrames elseScope ifScope ++ parent :: rest)
                          calls) = Ok top
             /\ includes (event top) "IfStatement" = true).
  { destruct elseScope as [e|]; simpl; eexists; split; try reflexivity.
    - apply Helse; reflexivity.
    - exact Hif. }
  destruct Htop as (top & -> & Htop). simpl. rewrite Htop. simpl.
  rewrite getElseScopeIfAny_pops by assumption. simpl.
  rewrite exitScope_pops by (apply IfStatement_not_Sentinel, Hif). simpl.
  unfold assignCurrent. simpl. destruct elseScope as [e|].
  - destruct (metadata ifScope); reflexivity.
  - rewrite orb_false_r. reflexivity.
Qed.

Lemma C5_witness :
  includes "IfStatement > BlockStatement" "IfStatement" = true
  /\ PresenceScopeManager._handleIfExit ifWithElse
       (mkManager [mkScope "IfStatement > BlockStatement" true None false;
                   mkScope "IfStatement > BlockStatement" true None false;
                   mkScope "ArrowFunctionExpression, Intent" false None false;
                   mkScope "Sentinel" true None false] [])
     = Ok (mkManager
             [mkScope "ArrowFunctionExpression, Intent" true None false;
              mkScope "Sentinel" true None false] []).
Proof.
  split; [reflexivity | ].
  apply (C5_presence_conditional_exit ifWithElse
           (mkScope "IfStatement > BlockStatement" true None false)
           (mkScope "ArrowFunctionExpression, Intent" false None false)
           (Some (mkScope "IfStatement > BlockStatement" true None false))
           [mkScope "Sentinel" true None false] []).
  - reflexivity.
  - intros e [= <-]. reflexivity.
  - reflexivity.
Defined.

(** ** Invariant violations *)

(** C6, as stated, fails: at the exit of the if-statement of
    `function f() { if (a) return; }` the frame on top is the frame of the
    function, which does not carry the label 'IfStatement', and the exit
    returns without an error, leaving the manager as it was. *)
Lemma C6_counterexample :
  currentScope insideFunction = Some (frame "FunctionDeclaration" 0 true)
  /\ includes "FunctionDeclaration" "IfStatement" = false
  /\ CountScopeManager._handleIfExit (mkContext false) ifReturn insideFunction
     = Ok insideFunction
  /\ CountScopeManager.account (mkContext false) ifReturn "IfStatement:exit"
       insideFunction
     = Ok insideFunction.
Proof. repeat split. Qed.

(** C6, amended.  Popping the sentinel frame (or an empty stack) throws; the
    try/catch exit throws when the frame on top does not carry 'CatchClause'
    and when the frame under the catch frame does not carry 'TryStatement';
    these errors come out of [account].  The exit of a conditional whose top
    frame does not carry 'IfStatement' is skipped by an explicit guard: it
    returns and leaves the manager unchanged. *)
Theorem C6_violations_throw_except_at_conditional_exit
        (ctx : EslintContext) (node : Node) (m : ScopeManager Z) :
  ((forall s, currentScope m = Some s -> event s = "Sentinel") ->
   (exists e, _exitScope m = Throw e)
   /\ (String.eqb (type node) "IfStatement" = false ->
       String.eqb (type node) "CatchClause" = false ->
       forall ev, includes ev ":exit" = true ->
                  exists e, CountScopeManager.account ctx node ev m = Throw e))
  /\ ((forall s, currentScope m = Some s ->
                 includes (event s) "CatchClause" = false) ->
      exists e, CountScopeManager._handleCatchExit node m = Throw e)
  /\ (forall catchScope rest,
         _scopeStack m = catchScope :: rest ->
         includes (event catchScope) "CatchClause" = true ->
         (forall t, hd_error rest = Some t ->
                    includes (event t) "TryStatement" = false) ->
         exists e, CountScopeManager._handleCatchExit node m = Throw e)
  /\ (forall e, CountScopeManager._handleCatchExit node m = Throw e ->
                String.eqb (type node) "CatchClause" = true ->
                CountScopeManager.account ctx node "CatchClause:exit" m
                = Throw e)
  /\ ((exists s, currentScope m = Some s
                 /\ includes (event s) "IfStatement" = false) ->
      CountScopeManager._handleIfExit ctx node m = Ok m).
Proof.
  destruct m as [stack calls].
  assert (Hpop : (forall s, currentScope (mkManager stack calls) = Some s ->
                            event s = "Sentinel") ->
                 exists e, _exitScope (mkManager stack calls) = Throw e).
  { intros H. unfold _exitScope, _invariant.
    destruct stack as [|s rest]; simpl.
    - eexists; reflexivity.
    - rewrite (H s eq_refl). simpl. eexists; reflexivity. }
  split; [ | split; [ | split; [ | split ] ] ].
  - intros H. split; [auto | ].
    intros Hif Hcatch ev Hev.
    unfold CountScopeManager.account, CountScopeManager._dispatchExit.
    rewrite Hev, Hif, Hcatch. auto.
  - intros H. unfold CountScopeManager._handleCatchExit.
    destruct stack as [|s rest]; simpl.
    + eexists; reflexivity.
    + rewrite (H s eq_refl). simpl. eexists; reflexivity.
  - intros catchScope rest Hstack Hcatch Htry. simpl in Hstack. subst stack.
    unfold CountScopeManager._handleCatchExit. simpl. rewrite Hcatch. simpl.
    rewrite exitScope_pops by (apply CatchClause_not_Sentinel, Hcatch). simpl.
    destruct rest as [|t rest']; simpl.
    + eexists; reflexivity.
    + rewrite (Htry t eq_refl). simpl. eexists; reflexivity.
  - intros e He Hty.
    unfold CountScopeManager.account, CountScopeManager._dispatchExit.
    rewrite Hty. simpl.
    destruct (String.eqb_spec (type node) "IfStatement") as [E | _];
      [ | exact He ].
    apply String.eqb_eq in Hty. rewrite E in Hty. discriminate.
  - intros (s & Hs & Hlabel). unfold CountScopeManager._handleIfExit.
    unfold currentScope_get. rewrite Hs. simpl. rewrite Hlabel. reflexivity.
Qed.

Lemma C6_witness :
  (forall s, currentScope CountScopeManager.new = Some s ->
             event s = "Sentinel")
  /\ (exists e, _exitScope CountScopeManager.new = Throw e)
  /\ (exists e, CountScopeManager.account (mkContext false)
                  (FunctionDeclaration "f" [] (BlockStatement []))
                  "FunctionDeclaration:exit" CountScopeManager.new
                = Throw e)
  /\ (exists e, CountScopeManager._handleCatchExit
                  emptyCatch insideFunction
                = Throw e)
  /\ CountScopeManager._handleIfExit (mkContext false) ifReturn insideFunction
     = Ok insideFunction.
Proof.
  assert (Hs : forall s, currentScope CountScopeManager.new = Some s ->
                         event s = "Sentinel")
    by (intros s [= <-]; reflexivity).
  split; [exact Hs | ].
  pose proof (C6_violations_throw_except_at_conditional_exit
                (mkContext false)
                (FunctionDeclaration "f" [] (BlockStatement []))
                CountScopeManager.new) as (Hpop & _).
  destruct (Hpop Hs) as (Hexit & Haccount).
  split; [exact Hexit | ].
  split; [apply Haccount; reflexivity | ].
  split.
  - apply (C6_violations_throw_except_at_conditional_exit
             (mkContext false) emptyCatch
             insideFunction).
    intros s [= <-]. reflexivity.
  - apply (C6_violations_throw_except_at_conditional_exit
             (mkContext false) ifReturn insideFunction).
    eexists; split; reflexivity.
Defined.

(** ** The frame stack after a pass *)

(** C7 (stack depth after a pass), at a try statement without catch clause.
    The rule pushes a frame on 'TryStatement' and pops it only at
    'CatchClause:exit': after the pass over
    `function f() { try { g(); } finally { h(); } }` two frames are left, the
    sentinel and the frame of the function, the exit of the function having
    popped the frame of the try statement. *)
Theorem C7_try_without_catch_leaves_a_frame :
  option_map (map event)
    (match AtMostTwoSimpleResponses.run noScopes 1 tryFinally with
     | Ok m => Some (_scopeStack m)
     | Throw _ => None
     end)
  = Some ["FunctionDeclaration"; "Sentinel"].
Proof. reflexivity. Qed.

(** An else branch that pushes no frame: at the exit of the if-statement the
    frame of the consequent is taken for the frame of the alternate and the
    frame of the function for the frame of the consequent; the exit of the
    function then finds the sentinel and the pass aborts. *)
Lemma else_without_frame_aborts :
  AtMostTwoSimpleResponses.run noScopes 1 ifElseReturn
  = Throw (Error "is about to be popped").
Proof. reflexivity. Qed.

(** The sequel of C3 in the rule: on `returnThenTwo` no path makes more than
    two responses, and the rule reports a third. *)
Lemma return_in_consequent_reports_a_third_response :
  match AtMostTwoSimpleResponses.run noScopes 1 returnThenTwo with
  | Ok m => AtMostTwoSimpleResponses.reports m
  | Throw _ => []
  end
  = [Some (MemberExpression (Identifier "conv") (Identifier "ask"))].
Proof. reflexivity. Qed.

(** ** The simple-response classifier *)




(** ** Intent handlers *)

Lemma lastIsLiteral_snoc (pre : list Node) (a : Node) :
  Classifier.lastIsLiteral (pre ++ [a]) = String.eqb (type a) "Literal".
Proof.
  unfold Classifier.lastIsLiteral.
  destruct (pre ++ [a]) as [|d l] eqn:E.
  - destruct pre; discriminate.
  - rewrite <- E, last_last. reflexivity.
Qed.

Lemma lastIsLiteral_false (args : list Node) :
  (forall pre a, args = pre ++ [a] -> type a <> "Literal") ->
  Classifier.lastIsLiteral args = false.
Proof.
  intros H. destruct args as [|d l] using rev_ind; [reflexivity | ].
  rewrite lastIsLiteral_snoc. apply String.eqb_neq. eapply H. reflexivity.
Qed.




(** The handler written in the call is one, in the same scope. *)
Lemma inline_handler_is_a_handler :
  Classifier.isNodeIntentHandler scopeOfApp
    (Some (app_intent (FunctionExpression [] (BlockStatement [])))) = Ok true.
Proof. reflexivity. Qed.

(** ** Errors of the predicate abort the pass *)




Section Abort.
Variable getScope : Node -> option EScope.
Variable stackDepth : nat.

Let enter := AtMostTwoSimpleResponses.enter getScope stackDepth.
Let leave := AtMostTwoSimpleResponses.leave getScope.
Let traverse := AtMostTwoSimpleResponses.traverse getScope stackDepth.






End Abort.


(** ** The frame stack on framed programs *)

Lemma outcome_bind (r : Result (ScopeManager Z))
      (k : ScopeManager Z -> Result (ScopeManager Z)) (L1 L2 : list string) :
  outcome r L1 ->
  (forall m1, labels m1 = L1 -> outcome (k m1) L2) ->
  outcome (bind r k) L2.
Proof. destruct r; simpl; auto. Qed.

Lemma outcome_Ok (m : ScopeManager Z) : outcome (Ok m) (labels m).
Proof. reflexivity. Qed.

Lemma visitList_outcome (visit : Node -> ScopeManager Z -> Result (ScopeManager Z))
      (l : list Node) (L : list string) :
  (forall x m, In x l -> labels m = L -> outcome (visit x m) L) ->
  forall m, labels m = L -> outcome (visitList visit l m) L.
Proof.
  induction l as [|x l IH]; intros H m Hm; simpl.
  - exact Hm.
  - apply outcome_bind with (L1 := L).
    + apply H; [left; reflexivity | exact Hm].
    + apply IH. intros y m' Hy. apply H. right. exact Hy.
Qed.

Lemma labels_cons (m : ScopeManager Z) (l : string) (L : list string) :
  labels m = l :: L ->
  exists s rest,
    m = mkManager (s :: rest) (reporterCalls m)
    /\ event s = l /\ map event rest = L.
Proof.
  destruct m as [[|s rest] calls]; unfold labels; simpl; [discriminate | ].
  intros [= <- <-]. exists s, rest. repeat split.
Qed.

Lemma enterScope_labels (ctx : EslintContext) (node : Node) (ev : string)
      (m : ScopeManager Z) :
  includes ev ":exit" = false ->
  String.eqb ev "ReturnStatement" = false ->
  outcome (CountScopeManager.account ctx node ev m) (ev :: labels m).
Proof.
  intros H1 H2. unfold CountScopeManager.account. rewrite H1, H2. reflexivity.
Qed.

Lemma exitScope_labels (m : ScopeManager Z) (l : string) (L : list string) :
  labels m = l :: L ->
  String.eqb l "Sentinel" = false ->
  outcome (_exitScope m) L.
Proof.
  intros Hm Hl. destruct (labels_cons m l L Hm) as (s & rest & -> & <- & <-).
  rewrite exitScope_pops by exact Hl. reflexivity.
Qed.

Lemma functionExit_labels (ctx : EslintContext) (node : Node) (ev : string)
      (m : ScopeManager Z) (l : string) (L : list string) :
  includes ev ":exit" = true ->
  String.eqb (type node) "IfStatement" = false ->
  String.eqb (type node) "CatchClause" = false ->
  labels m = l :: L ->
  String.eqb l "Sentinel" = false ->
  outcome (CountScopeManager.account ctx node ev m) L.
Proof.
  intros Hev Hif Hcatch Hm Hl.
  unfold CountScopeManager.account, CountScopeManager._dispatchExit.
  rewrite Hev, Hif, Hcatch. apply exitScope_labels with (l := l); assumption.
Qed.

Lemma assignCurrent_labels (f : Scope Z -> Scope Z) (m : ScopeManager Z) :
  (forall s, event (f s) = event s) ->
  labels m <> [] ->
  outcome (assignCurrent f m) (labels m).
Proof.
  intros Hf Hm. destruct m as [[|s rest] calls]; [contradiction | ].
  unfold assignCurrent, outcome, labels. simpl. rewrite Hf. reflexivity.
Qed.

Lemma currentScope_get_Ok (m : ScopeManager Z) :
  labels m <> [] -> exists s, currentScope_get m = Ok s.
Proof.
  destruct m as [[|s rest] calls]; [contradiction | ].
  intros _. exists s. reflexivity.
Qed.

Lemma return_labels (ctx : EslintContext) (node : Node) (m : ScopeManager Z) :
  labels m <> [] ->
  outcome (CountScopeManager.account ctx node "ReturnStatement" m) (labels m).
Proof.
  intros Hm. unfold CountScopeManager.account. simpl.
  apply assignCurrent_labels; [reflexivity | exact Hm].
Qed.

Lemma undo_labels (ifScope : Scope Z) (elseScope : option (Scope Z))
      (initialVal : Z) (m : ScopeManager Z) :
  labels m <> [] ->
  outcome (CountScopeManager._undoChangesIfThereIsReturnStatement
             ifScope elseScope initialVal m) (labels m).
Proof.
  intros Hm. unfold CountScopeManager._undoChangesIfThereIsReturnStatement.
  destruct (currentScope_get_Ok m Hm) as (cur & ->). simpl.
  repeat match goal with
         | |- context [if ?b then _ else _] => destruct b
         end;
    try apply assignCurrent_labels; try reflexivity; exact Hm.
Qed.

Lemma afterMerge_labels (node : Node) (parent : Scope Z) (newVal : Z)
      (rest : list (Scope Z)) (calls : list (ReporterCall Z)) :
  labels (afterMerge node parent newVal rest calls)
  = event parent :: map event rest.
Proof. unfold afterMerge. destruct (negb _); reflexivity. Qed.

Lemma ifExit_labels (ctx : EslintContext) (t c : Node) (a : option Node)
      (m : ScopeManager Z) (elseLabel : option string)
      (lc p : string) (L : list string) :
  isSome a = isSome elseLabel ->
  (forall x, elseLabel = Some x -> includes x "IfStatement" = true) ->
  includes lc "IfStatement" = true ->
  labels m = match elseLabel with Some x => [x] | None => [] end
             ++ lc :: p :: L ->
  outcome (CountScopeManager.account ctx (IfStatement t c a)
             "IfStatement:exit" m) (p :: L).
Proof.
  intros Halt Hla Hlc Hm.
  assert (Hstack : exists elseScope ifScope parent rest,
             _scopeStack m = branchFrames elseScope ifScope ++ parent :: rest
             /\ isSome elseScope = isSome elseLabel
             /\ labelled "IfStatement" elseScope
             /\ event ifScope = lc /\ event parent = p
             /\ map event rest = L).
  { destruct m as [stack calls]. unfold labels in Hm. simpl in Hm.
    destruct elseLabel as [x|]; simpl in Hm.
    - destruct stack as [|se [|sc [|sp rest]]]; try discriminate.
      injection Hm as <- <- <- <-.
      exists (Some se), sc, sp, rest. repeat split.
      intros e [= <-]. apply Hla. reflexivity.
    - destruct stack as [|sc [|sp rest]]; try discriminate.
      injection Hm as <- <- <-.
      exists None, sc, sp, rest. repeat split. intros e; discriminate. }
  destruct Hstack as (elseScope & ifScope & parent & rest
                      & Hstack & Hsome & Helse & <- & <- & <-).
  destruct m as [stack calls]. simpl in Hstack. subst stack.
  unfold CountScopeManager.account, CountScopeManager._dispatchExit.
  change (includes "IfStatement:exit" ":exit") with true.
  cbv iota. simpl type. change (String.eqb "IfStatement" "IfStatement") with true.
  cbv iota.
  rewrite handleIfExit_frames;
    [ | assumption | assumption | simpl; congruence ].
  pose proof (undo_labels ifScope elseScope (metadata parent)
                (afterMerge (IfStatement t c a) parent
                   (mergedCount ctx (metadata parent)
                                (branchCount elseScope ifScope)) rest calls))
    as H.
  rewrite afterMerge_labels in H. apply H. discriminate.
Qed.

Lemma catchExit_labels (ctx : EslintContext) (param : option Node)
      (body : Node) (m : ScopeManager Z) (lk lt p : string)
      (L : list string) :
  includes lk "CatchClause" = true ->
  includes lt "TryStatement" = true ->
  labels m = lk :: lt :: p :: L ->
  outcome (CountScopeManager.account ctx (CatchClause param body)
             "CatchClause:exit" m) (p :: L).
Proof.
  intros Hk Ht Hm. destruct m as [stack calls].
  unfold labels in Hm. simpl in Hm.
  destruct stack as [|sk [|st [|sp rest]]]; try discriminate.
  injection Hm as <- <- <- <-.
  unfold CountScopeManager.account, CountScopeManager._dispatchExit.
  change (includes "CatchClause:exit" ":exit") with true. cbv iota.
  simpl type. change (String.eqb "CatchClause" "IfStatement") with false.
  change (String.eqb "CatchClause" "CatchClause") with true. cbv iota.
  rewrite handleCatchExit_frames by assumption. reflexivity.
Qed.

Lemma isSimpleResponse_throws (depth : nat) (scope : option EScope)
      (node : Node) (e : Exception) :
  SimpleResponseClassifier._isSimpleResponse depth scope node = Throw e ->
  e = RangeError.
Proof.
  revert node. induction depth as [|d IH]; intros node H; simpl in H.
  - congruence.
  - destruct node; simpl in H;
      try (destruct (nameIs _ _));
      try (destruct (_ || _));
      try discriminate.
    destruct scope as [s|]; simpl in H; [ | discriminate].
    destruct (AstUtils.searchScopes name0 s) as [val|]; [ | discriminate].
    apply (IH val H).
Qed.

Lemma isNodeIntentHandler_throws (scope : option EScope)
      (node : option Node) (e : Exception) :
  Classifier.isNodeIntentHandler scope node = Throw e ->
  e = Error "Expected Identifier".
Proof.
  unfold Classifier.isNodeIntentHandler.
  destruct node as [[ ]|]; try discriminate.
  destruct callee; try discriminate.
  destruct (Classifier.lastIsLiteral arguments); [discriminate | ].
  destruct callee1; simpl; try congruence.
  destruct scope as [s|]; simpl.
  - destruct (AstUtils.searchScopes name0 s) as [[ ]|]; simpl;
      try discriminate.
    destruct (_ && _); discriminate.
  - discriminate.
Qed.

(** *** The reporter of the rule, called by the manager *)

Ltac split_ifs H :=
  repeat (simpl in H;
          match type of H with
          | context [match alternate ?n with Some _ => _ | None => _ end] =>
              destruct (alternate n)
          | context [match ?o with Some _ => _ | None => _ end] =>
              is_var o; destruct o
          | context [if ?b then _ else _] => destruct b eqn:?
          end).

(** The calls [account] of the manager makes to its reporter are made with
    a current scope. *)
Lemma count_account_calls (ctx : EslintContext) (node : Node) (ev : string)
      (m m' : ScopeManager Z) :
  CountScopeManager.account ctx node ev m = Ok m' ->
  exists new,
    reporterCalls m' = reporterCalls m ++ new
    /\ Forall (fun c => scopeAtCall c <> None) new.
Proof.
  destruct m as [stack calls]. intros H.
  unfold CountScopeManager.account, CountScopeManager._dispatchExit,
    CountScopeManager._handleIfExit, CountScopeManager._handleCatchExit,
    CountScopeManager._undoChangesIfThereIsReturnStatement,
    CountScopeManager._isInsideIfElseStatement,
    _getElseScopeIfAny, _exitScope, _invariant, _enterScope,
    currentScope_get, currentScope, assignCurrent, _reporterFn in H.
  destruct stack as [|a [|b [|c rest]]]; split_ifs H;
    try discriminate; try (injection H as <-); simpl;
    first [ exists []; split; [symmetry; apply app_nil_r | constructor]
          | eexists; split;
            [reflexivity | repeat constructor; discriminate] ].
Qed.

(** Those `_handleIfExit` makes come after it has set `lastViolatingNode`
    to the if-statement: `report` returns on them, whatever the count. *)
Lemma handleIfExit_calls (ctx : EslintContext) (node : Node)
      (m m' : ScopeManager Z) :
  CountScopeManager._handleIfExit ctx node m = Ok m' ->
  exists new,
    reporterCalls m' = reporterCalls m ++ new
    /\ Forall (fun c =>
                 exists s, scopeAtCall c = Some s
                           /\ lastViolatingNode s = Some node) new.
Proof.
  destruct m as [stack calls]. intros H.
  unfold CountScopeManager._handleIfExit,
    CountScopeManager._undoChangesIfThereIsReturnStatement,
    CountScopeManager._isInsideIfElseStatement,
    _getElseScopeIfAny, _exitScope, _invariant,
    currentScope_get, currentScope, assignCurrent, _reporterFn in H.
  destruct stack as [|a [|b [|c rest]]]; split_ifs H;
    try discriminate; try (injection H as <-); simpl;
    first [ exists []; split; [symmetry; apply app_nil_r | constructor]
          | eexists; split;
            [reflexivity
            | repeat constructor; eexists; split; reflexivity] ].
Qed.

(** The one `_handleCatchExit` makes is its last step: when it returns, the
    manager is the one the reporter was called on, with the call
    recorded. *)
Lemma handleCatchExit_reports_last (node : Node) (m m' : ScopeManager Z) :
  CountScopeManager._handleCatchExit node m = Ok m' ->
  exists m0,
    m' = _reporterFn None m0 /\ reporterCalls m0 = reporterCalls m.
Proof.
  destruct m as [stack calls]. intros H.
  unfold CountScopeManager._handleCatchExit, _exitScope, _invariant,
    currentScope_get, currentScope, assignCurrent in H.
  destruct stack as [|a [|b [|c rest]]]; split_ifs H;
    try discriminate; injection H as <-;
    eexists; split; reflexivity.
Qed.

Lemma skipn_length_app {A : Type} (l new : list A) :
  skipn (length l) (l ++ new) = new.
Proof. induction l as [|x l IH]; [reflexivity | exact IH]. Qed.

Lemma reportCalls_with_node (calls : list (ReporterCall Z)) (node : Node) :
  Forall (fun c =>
            exists s, scopeAtCall c = Some s
                      /\ lastViolatingNode s = Some node) calls ->
  AtMostTwoSimpleResponses.reportCalls calls = Ok tt.
Proof.
  induction 1 as [|c calls (s & Hs & Hnode) _ IH];
    cbn [AtMostTwoSimpleResponses.reportCalls]; [reflexivity | ].
  unfold AtMostTwoSimpleResponses.reportCall,
    AtMostTwoSimpleResponses.reportOn, context_report.
  rewrite Hs, Hnode. destruct (metadata s >? 2); cbn [bind]; exact IH.
Qed.

Lemma reportCalls_throws (calls : list (ReporterCall Z)) (e : Exception) :
  Forall (fun c => scopeAtCall c <> None) calls ->
  AtMostTwoSimpleResponses.reportCalls calls = Throw e ->
  e = AssertionError nodeMustBeProvided.
Proof.
  induction 1 as [|c calls Hc _ IH]; cbn [AtMostTwoSimpleResponses.reportCalls];
    [discriminate | ].
  unfold AtMostTwoSimpleResponses.reportCall,
    AtMostTwoSimpleResponses.reportOn, context_report.
  destruct (scopeAtCall c) as [s|]; [ | contradiction].
  destruct (metadata s >? 2); [destruct (lastViolatingNode s) | ];
    cbn [bind]; first [exact IH | congruence].
Qed.

(** When `report` returns, all it has done is recorded. *)
Lemma report_Ok (m m' : ScopeManager Z) :
  AtMostTwoSimpleResponses.report m = Ok m' -> m' = _reporterFn None m.
Proof.
  unfold AtMostTwoSimpleResponses.report.
  destruct (currentScope_get m) as [cur|]; cbn [bind]; [ | discriminate].
  destruct (AtMostTwoSimpleResponses.reportOn cur); cbn [bind];
    [intros [= <-]; reflexivity | discriminate].
Qed.

(** When [account] of the rule returns, so did that of the manager, with
    the same manager. *)
Lemma account_Ok (ctx : EslintContext) (node : Node) (ev : string)
      (m m' : ScopeManager Z) :
  AtMostTwoSimpleResponses.account ctx node ev m = Ok m' ->
  CountScopeManager.account ctx node ev m = Ok m'.
Proof.
  unfold AtMostTwoSimpleResponses.account.
  destruct (CountScopeManager.account ctx node ev m) as [m1|];
    cbn [bind]; [ | discriminate].
  destruct (AtMostTwoSimpleResponses.reportCalls _); cbn [bind];
    [intros [= <-]; reflexivity | discriminate].
Qed.

Lemma account_outcome (ctx : EslintContext) (node : Node) (ev : string)
      (m : ScopeManager Z) (L : list string) :
  outcome (CountScopeManager.account ctx node ev m) L ->
  outcome (AtMostTwoSimpleResponses.account ctx node ev m) L.
Proof.
  unfold AtMostTwoSimpleResponses.account.
  destruct (CountScopeManager.account ctx node ev m) as [m1|] eqn:E;
    cbn [bind]; [ | exact (fun H => H)].
  destruct (count_account_calls _ _ _ _ _ E) as (new & -> & Hnew).
  rewrite skipn_length_app. intros H.
  destruct (AtMostTwoSimpleResponses.reportCalls new) as [[]|e] eqn:Er;
    cbn [bind outcome]; [exact H | ].
  right. apply (reportCalls_throws new e Hnew Er).
Qed.

Section Framed.
Variable getScope : Node -> option EScope.
Variable stackDepth : nat.

Lemma countArgument_labels (scope : option EScope)
      (memberExpression a : Node) (m : ScopeManager Z) :
  labels m <> [] ->
  outcome (AtMostTwoSimpleResponses.countArgument stackDepth scope
             memberExpression a m) (labels m).
Proof.
  intros Hm.
  unfold AtMostTwoSimpleResponses.countArgument,
    AtMostTwoSimpleResponses.isSimpleResponse,
    SimpleResponseClassifier.classify.
  destruct (SimpleResponseClassifier._isSimpleResponse stackDepth scope a)
    as [r | e] eqn:E; simpl.
  - assert (Hreport : forall m', labels m' = labels m ->
                                 outcome (AtMostTwoSimpleResponses.report m')
                                         (labels m)).
    { intros m' Hm'. unfold AtMostTwoSimpleResponses.report.
      destruct (currentScope_get_Ok m') as (s & ->); [congruence | ].
      cbn [bind]. unfold AtMostTwoSimpleResponses.reportOn, context_report.
      destruct (metadata s >? 2); [destruct (lastViolatingNode s) | ];
        cbn [bind outcome]; first [exact Hm' | right; reflexivity]. }
    destruct (certain r && result r).
    + destruct (currentScope_get_Ok m Hm) as (cur & ->). simpl.
      apply outcome_bind with (L1 := labels m); [ | exact Hreport].
      apply assignCurrent_labels; [reflexivity | exact Hm].
    + simpl. apply Hreport. reflexivity.
  - left. right. apply (isSimpleResponse_throws _ _ _ _ E).
Qed.

Lemma on_CallExpression_labels (node : Node) (m : ScopeManager Z) :
  labels m <> [] ->
  outcome (AtMostTwoSimpleResponses.on_CallExpression getScope stackDepth
             node m) (labels m).
Proof.
  intros Hm. unfold AtMostTwoSimpleResponses.on_CallExpression.
  destruct (Classifier.doesReturnActionResponse (Some node));
    [ | reflexivity].
  destruct node; try reflexivity.
  apply visitList_outcome; [ | reflexivity].
  intros x m' _ Hm'. rewrite <- Hm'. apply countArgument_labels. congruence.
Qed.

End Framed.

Lemma list_all_In {A : Type} (P : A -> Prop) (l : list A) :
  list_all A P l -> forall x, In x l -> P x.
Proof.
  induction 1 as [|a Ha l Hl IH]; intros x Hx.
  - contradiction.
  - destruct Hx as [<- | Hx]; [exact Ha | exact (IH x Hx)].
Qed.

Lemma option_all_Some {A : Type} (P : A -> Prop) (x : A) :
  option_all A P (Some x) -> P x.
Proof. inversion 1. assumption. Qed.

Lemma branchLabel_IfStatement (node : Node) (l : string) :
  branchLabel node = Some l ->
  includes l "IfStatement" = true
  /\ includes l ":exit" = false
  /\ String.eqb l "ReturnStatement" = false.
Proof.
  destruct node; simpl; intros [= <-]; repeat split.
Qed.

Section Balance.
Variable getScope : Node -> option EScope.
Variable stackDepth : nat.

Let traverse := AtMostTwoSimpleResponses.traverse getScope stackDepth.

(** A child of a node that is no if-statement pushes no frame. *)
Lemma child_outcome (self x : Node) (m : ScopeManager Z) (L : list string) :
  AtMostTwoSimpleResponses.parentIsIfStatement (Some self) = false ->
  balancedAt getScope stackDepth x ->
  framed x = true ->
  labels m = L -> L <> [] ->
  outcome (traverse (Some self) AtMostTwoSimpleResponses.child x m) L.
Proof.
  intros Hself Hx Hf Hm HL. subst L.
  pose proof (Hx Hf (Some self) AtMostTwoSimpleResponses.child m HL) as H.
  unfold pushedBy in H. rewrite Hself in H. exact H.
Qed.

Lemma children_outcome (self : Node) (l : list Node) (m : ScopeManager Z)
      (L : list string) :
  AtMostTwoSimpleResponses.parentIsIfStatement (Some self) = false ->
  (forall x, In x l -> balancedAt getScope stackDepth x) ->
  forallb framed l = true ->
  labels m = L -> L <> [] ->
  outcome (visitList (traverse (Some self) AtMostTwoSimpleResponses.child) l m)
          L.
Proof.
  intros Hself Hl Hf Hm HL. apply visitList_outcome; [ | exact Hm].
  intros x m' Hx Hm'. apply child_outcome; auto.
  rewrite forallb_forall in Hf. apply Hf, Hx.
Qed.

Lemma optChild_outcome (self : Node) (o : option Node) (m : ScopeManager Z)
      (L : list string) :
  AtMostTwoSimpleResponses.parentIsIfStatement (Some self) = false ->
  (forall x, o = Some x -> balancedAt getScope stackDepth x) ->
  match o with Some x => framed x | None => true end = true ->
  labels m = L -> L <> [] ->
  outcome (visitOpt (traverse (Some self) AtMostTwoSimpleResponses.child) o m)
          L.
Proof.
  intros Hself Ho Hf Hm HL. destruct o as [x|]; simpl.
  - apply child_outcome; auto.
  - exact Hm.
Qed.


Lemma pushedBy_none (parent : option Node) (node : Node) :
  branchLabel node = None -> pushedBy parent node = [].
Proof.
  intros H. unfold pushedBy. rewrite H.
  destruct (AtMostTwoSimpleResponses.parentIsIfStatement parent); reflexivity.
Qed.

(** The handlers at the entry of a branch of an if-statement. *)
Lemma branch_enter (parent : option Node) (ctx : EslintContext) (node : Node)
      (ev : string) (m : ScopeManager Z) :
  branchLabel node = Some ev ->
  outcome (if AtMostTwoSimpleResponses.parentIsIfStatement parent
           then AtMostTwoSimpleResponses.account ctx node ev m else Ok m)
          (pushedBy parent node ++ labels m).
Proof.
  intros Hev. unfold pushedBy. rewrite Hev.
  destruct (AtMostTwoSimpleResponses.parentIsIfStatement parent).
  - destruct (branchLabel_IfStatement node ev Hev) as (_ & H1 & H2).
    apply account_outcome, enterScope_labels; assumption.
  - reflexivity.
Qed.

Ltac framed_parts H :=
  repeat match type of H with
         | (_ && _) = true =>
             let H1 := fresh H in
             apply andb_prop in H; destruct H as [H H1]
         end.

Ltac after L :=
  apply outcome_bind with (L1 := L);
  [ | let m' := fresh "m" in let Hm' := fresh "Hm" in intros m' Hm' ].

Ltac handlers :=
  cbn [AtMostTwoSimpleResponses.enter AtMostTwoSimpleResponses.leave bind].


Ltac nonempty := first [assumption | discriminate | congruence].

Ltac child IH :=
  apply child_outcome;
  [ reflexivity | apply IH | assumption
  | first [reflexivity | assumption] | try nonempty ].

Ltac children IH :=
  apply children_outcome;
  [ reflexivity
  | let y := fresh "y" in let Hy := fresh "Hy" in
    intros y Hy; apply (list_all_In _ _ IH y Hy)
  | assumption
  | first [reflexivity | assumption] | try nonempty ].

Ltac optChild IH :=
  apply optChild_outcome;
  [ reflexivity
  | let y := fresh "y" in let Hy := fresh "Hy" in
    intros y Hy; subst; apply (option_all_Some _ _ IH)
  | assumption
  | first [reflexivity | assumption] | try nonempty ].

Theorem traverse_balanced (node : Node) :
  balancedAt getScope stackDepth node
  /\ catchBalancedAt getScope stackDepth node.
Proof.
  induction node as
      [ x | raw | es IHes | op l IHl r IHr | c IHc args IHargs
      | c IHc args IHargs | o IHo p IHp | b IHb | ps IHps b IHb
      | ps IHps b IHb | id ps IHps b IHb | k IHk v IHv | b IHb | l IHl
      | t IHt c IHc a IHa | b IHb h IHh f IHf | q IHq b IHb | a IHa
      | l IHl | ty l IHl ].
  all: split;
    [ intros Hf parent ctx m Hm; simpl in Hf; framed_parts Hf;
      unfold traverse in *; cbn [AtMostTwoSimpleResponses.traverse]
    | try (intros param' body' [= <- <-]) ].
  - (* Identifier *)
    rewrite pushedBy_none by reflexivity. handlers. reflexivity.
  - (* Literal *)
    rewrite pushedBy_none by reflexivity. handlers. reflexivity.
  - (* TemplateLiteral *)
    rewrite pushedBy_none by reflexivity. handlers.
    after (labels m); [children IHes | exact Hm0].
  - (* BinaryExpression *)
    rewrite pushedBy_none by reflexivity. handlers.
    after (labels m); [ | exact Hm0].
    after (labels m); [child IHl | child IHr].
  - (* CallExpression *)
    rewrite pushedBy_none by reflexivity. handlers.
    after (labels m); [apply on_CallExpression_labels; exact Hm | ].
    after (labels m); [ | exact Hm1].
    after (labels m); [child IHc | children IHargs].
  - (* NewExpression *)
    rewrite pushedBy_none by reflexivity. handlers.
    after (labels m); [ | exact Hm0].
    after (labels m); [child IHc | children IHargs].
  - (* MemberExpression *)
    rewrite pushedBy_none by reflexivity. handlers.
    after (labels m); [ | exact Hm0].
    after (labels m); [child IHo | child IHp].
  - (* SpreadElement *)
    rewrite pushedBy_none by reflexivity. handlers.
    after (labels m); [child IHb | exact Hm0].
  - (* FunctionExpression *)
    rewrite pushedBy_none by reflexivity. handlers.
    destruct (Classifier.isNodeIntentHandler
                (getScope (FunctionExpression ps b)) parent)
      as [isHandler | e] eqn:E;
      [ | left; left; apply (isNodeIntentHandler_throws _ _ _ E) ].
    cbn [bind].
    after ((if isHandler then "FunctionExpression, Intent"
            else "FunctionExpression") :: labels m);
      [ apply account_outcome, enterScope_labels;
        destruct isHandler; reflexivity | ].
    after ((if isHandler then "FunctionExpression, Intent"
            else "FunctionExpression") :: labels m);
      [ | apply account_outcome; eapply functionExit_labels;
          try eassumption; destruct isHandler; reflexivity ].
    after ((if isHandler then "FunctionExpression, Intent"
            else "FunctionExpression") :: labels m);
      [children IHps | child IHb].
  - (* ArrowFunctionExpression *)
    rewrite pushedBy_none by reflexivity. handlers.
    destruct (Classifier.isNodeIntentHandler
                (getScope (ArrowFunctionExpression ps b)) parent)
      as [isHandler | e] eqn:E;
      [ | left; left; apply (isNodeIntentHandler_throws _ _ _ E) ].
    cbn [bind].
    after ((if isHandler then "ArrowFunctionExpression, Intent"
            else "ArrowFunctionExpression") :: labels m);
      [ apply account_outcome, enterScope_labels;
        destruct isHandler; reflexivity | ].
    after ((if isHandler then "ArrowFunctionExpression, Intent"
            else "ArrowFunctionExpression") :: labels m);
      [ | apply account_outcome; eapply functionExit_labels;
          try eassumption; destruct isHandler; reflexivity ].
    after ((if isHandler then "ArrowFunctionExpression, Intent"
            else "ArrowFunctionExpression") :: labels m);
      [children IHps | child IHb].
  - (* FunctionDeclaration *)
    rewrite pushedBy_none by reflexivity. handlers.
    after ("FunctionDeclaration" :: labels m);
      [ apply account_outcome, enterScope_labels; reflexivity | ].
    after ("FunctionDeclaration" :: labels m);
      [ | apply account_outcome; eapply functionExit_labels;
          try eassumption; reflexivity ].
    after ("FunctionDeclaration" :: labels m); [children IHps | child IHb].
  - (* MethodDefinition *)
    rewrite pushedBy_none by reflexivity. handlers.
    after ("MethodDefinition" :: labels m);
      [ apply account_outcome, enterScope_labels; reflexivity | ].
    after ("MethodDefinition" :: labels m).
    + after ("MethodDefinition" :: labels m); [child IHk | child IHv].
    + apply account_outcome; eapply functionExit_labels; try eassumption;
        reflexivity.
  - (* ExpressionStatement *)
    handlers.
    after (pushedBy parent (ExpressionStatement b) ++ labels m);
      [ apply branch_enter; reflexivity | ].
    after (pushedBy parent (ExpressionStatement b) ++ labels m);
      [ | assumption ].
    child IHb. intros H. apply app_eq_nil in H. apply Hm, H.
  - (* BlockStatement *)
    handlers.
    after (pushedBy parent (BlockStatement l) ++ labels m);
      [ apply branch_enter; reflexivity | ].
    after (pushedBy parent (BlockStatement l) ++ labels m);
      [ | assumption ].
    children IHl. intros H. apply app_eq_nil in H. apply Hm, H.
  - (* IfStatement *)
    destruct (branchLabel c) as [lc|] eqn:Hlc; [ | discriminate ].
    destruct (branchLabel t) eqn:Hlt; [ discriminate | ].
    destruct (branchLabel_IfStatement c lc Hlc) as (Hc & _ & _).
    set (L1 := pushedBy parent (IfStatement t c a) ++ labels m).
    assert (HL1 : exists p L', L1 = p :: L').
    { unfold L1. destruct (pushedBy parent (IfStatement t c a)); simpl.
      - destruct (labels m); [contradiction | eauto].
      - eauto. }
    destruct HL1 as (p & L' & HL1).
    set (elseLabel := match a with Some x => branchLabel x | None => None end).
    match goal with
    | H : match a with Some _ => _ | None => _ end = true |- _ =>
        rename H into Halt
    end.
    handlers.
    after L1; [ apply branch_enter; reflexivity | ].
    after (match elseLabel with Some x => [x] | None => [] end ++ lc :: L1).
    + after L1.
      { pose proof (proj1 IHt ltac:(assumption) (Some (IfStatement t c a))
                      AtMostTwoSimpleResponses.child m0) as H.
        rewrite (pushedBy_none _ t Hlt), Hm0 in H. apply H.
        rewrite HL1. discriminate. }
      after (lc :: L1).
      { pose proof (proj1 IHc ltac:(assumption) (Some (IfStatement t c a))
                      AtMostTwoSimpleResponses.child m1) as H.
        unfold pushedBy in H. simpl in H. rewrite Hlc, Hm1 in H. apply H.
        rewrite HL1. discriminate. }
      unfold elseLabel. destruct a as [x|]; simpl.
      * apply andb_prop in Halt. destruct Halt as [Hx Hfx].
        destruct (branchLabel x) as [lx|] eqn:Hlx; [ | discriminate ].
        pose proof (proj1 (option_all_Some _ _ IHa) Hfx
                      (Some (IfStatement t c (Some x)))
                      AtMostTwoSimpleResponses.alternateChild m2) as H.
        unfold pushedBy in H. simpl in H. rewrite Hlx, Hm2 in H. apply H.
        discriminate.
      * exact Hm2.
    + rewrite HL1 in *.
      apply account_outcome.
      apply ifExit_labels with (elseLabel := elseLabel) (lc := lc);
        try assumption.
      * unfold elseLabel. destruct a as [x|]; [ | reflexivity ].
        apply andb_prop in Halt. destruct Halt as [Hx _].
        destruct (branchLabel x); [reflexivity | discriminate].
      * unfold elseLabel. intros lx Hlx. destruct a as [x|]; [ | discriminate ].
        apply (branchLabel_IfStatement x lx Hlx).
  - (* TryStatement *)
    rewrite pushedBy_none by reflexivity. handlers.
    destruct h as [[ ]|]; try discriminate.
    match goal with
    | H : match f with Some _ => _ | None => _ end = true |- _ =>
        rename H into Hfin
    end.
    after ("TryStatement" :: labels m);
      [ apply account_outcome, enterScope_labels; reflexivity | ].
    after (labels m); [ | assumption ].
    after ("TryStatement" :: labels m); [ child IHb | ].
    after (labels m).
    + simpl.
      match goal with
      | H : (_ && framed _) = true |- _ =>
          apply andb_prop in H; destruct H as [Hparam Hbody]
      end.
      apply (proj2 (option_all_Some _ _ IHh) _ _ eq_refl Hparam Hbody
               (Some (TryStatement b (Some (CatchClause param body)) f))
               AtMostTwoSimpleResponses.child m1 "TryStatement" (labels m));
        [assumption | reflexivity | assumption].
    + optChild IHf.
  - (* CatchClause, outside a try statement *)
    discriminate.
  - (* CatchClause, as the handler of a try statement *)
    intros Hfq Hfb parent ctx m lt L Hm Hlt HL.
    unfold traverse in *. cbn [AtMostTwoSimpleResponses.traverse]. handlers.
    destruct L as [|p L']; [contradiction | ].
    after ("CatchClause" :: lt :: p :: L');
      [ rewrite <- Hm; apply account_outcome, enterScope_labels;
        reflexivity | ].
    after ("CatchClause" :: lt :: p :: L');
      [ | apply account_outcome ].
    { after ("CatchClause" :: lt :: p :: L'); [optChild IHq | child IHb]. }
    apply catchExit_labels with (lk := "CatchClause") (lt := lt);
      [reflexivity | assumption | assumption].
  - (* ReturnStatement *)
    rewrite pushedBy_none by reflexivity. handlers.
    after (labels m);
      [ apply account_outcome, return_labels; assumption | ].
    after (labels m); [ optChild IHa | assumption ].
  - (* Program *)
    rewrite pushedBy_none by reflexivity. handlers.
    after (labels m); [children IHl | assumption].
  - (* OtherNode *)
    rewrite pushedBy_none by reflexivity. handlers.
    after (labels m); [children IHl | assumption].
Qed.

(** The pass over a framed program, started from a fresh manager, returns
    with the sentinel alone on the stack, unless an error of the classifiers
    or a report without a node aborts it. *)
Corollary run_framed (program : Node) :
  framed program = true ->
  match AtMostTwoSimpleResponses.run getScope stackDepth program with
  | Ok m => map event (_scopeStack m) = ["Sentinel"]
  | Throw e => passError e
  end.
Proof.
  intros Hf.
  pose proof (proj1 (traverse_balanced program) Hf None
                AtMostTwoSimpleResponses.child CountScopeManager.new) as H.
  unfold pushedBy in H. simpl in H. apply H. discriminate.
Qed.

End Balance.

(** * Further properties *)

(** ** Resolution of variables *)

Lemma searchVariables_app (x : string) (l1 l2 : list ScopeVariable) :
  AstUtils.searchVariables x (l1 ++ l2)
  = match AstUtils.searchVariables x l1 with
    | Some val => Some val
    | None => AstUtils.searchVariables x l2
    end.
Proof.
  induction l1 as [|v l1 IH]; simpl; [reflexivity | ].
  destruct (filter _ (defs v)) as [|d0 ds]; [exact IH | ].
  destruct (init (last (d0 :: ds) d0)); [reflexivity | exact IH].
Qed.

Lemma searchScopes_chain (x : string) (scope : EScope) :
  AstUtils.searchScopes x scope
  = AstUtils.searchVariables x (chainVariables scope).
Proof.
  induction scope as [vs up IH]. simpl. rewrite searchVariables_app.
  destruct (AstUtils.searchVariables x vs); [reflexivity | ].
  destruct up as [u|]; [ | reflexivity].
  inversion IH; assumption.
Qed.

Lemma searchVariables_first (x : string) (vs : list ScopeVariable) :
  match AstUtils.searchVariables x vs with
  | Some val =>
      exists before v after,
        vs = before ++ v :: after
        /\ initialiserOf x v = Some val
        /\ Forall (fun w => initialiserOf x w = None) before
  | None => Forall (fun w => initialiserOf x w = None) vs
  end.
Proof.
  induction vs as [|v vs IH]; simpl; [constructor | ].
  assert (Hv : match filter (fun d => String.eqb (defName d) x) (defs v) with
               | [] => None
               | d0 :: ds => init (last (d0 :: ds) d0)
               end = initialiserOf x v) by reflexivity.
  destruct (filter _ (defs v)) as [|d0 ds].
  - destruct (AstUtils.searchVariables x vs) as [val|].
    + destruct IH as (before & w & after & -> & Hw & Hbefore).
      exists (v :: before), w, after. repeat split; auto.
    + constructor; auto.
  - destruct (init (last (d0 :: ds) d0)) as [val|].
    + exists [], v, vs. repeat split; auto.
    + destruct (AstUtils.searchVariables x vs) as [val|].
      * destruct IH as (before & w & after & -> & Hw & Hbefore).
        exists (v :: before), w, after. repeat split; auto.
      * constructor; auto.
Qed.

(** X1.  What findVariableNodeValue returns for an identifier [x] in a
    scope: the initialiser given to [x] by the first variable of the scope
    chain, nearest scope first, that gives it one, where a variable gives [x]
    the initialiser of its last definition named [x]; and `undefined` when
    no variable of the chain gives one. *)
Theorem X1_findVariableNodeValue_first_initialiser
        (scope : EScope) (x : string) :
  match AstUtils.findVariableNodeValue (Some scope) (Identifier x) with
  | Ok (Some val) =>
      exists before v after,
        chainVariables scope = before ++ v :: after
        /\ initialiserOf x v = Some val
        /\ Forall (fun w => initialiserOf x w = None) before
  | Ok None =>
      Forall (fun w => initialiserOf x w = None) (chainVariables scope)
  | Throw _ => False
  end.
Proof.
  simpl. rewrite searchScopes_chain. apply searchVariables_first.
Qed.

(** ** The two classifiers *)

(** X2.  On the same node in the same scope the simple-response classifier
    and the helper-response classifier are certain together, and they never
    both answer yes. *)
Theorem X2_classifiers_agree_on_certainty
        (depth depth' : nat) (scope : option EScope) (node : Node)
        (simple helper : Response) :
  SimpleResponseClassifier.classify depth scope node = Ok simple ->
  HelperResponseClassifier.classify depth' scope node = Ok helper ->
  certain simple = certain helper
  /\ result simple && result helper = false.
Proof.
  unfold SimpleResponseClassifier.classify, HelperResponseClassifier.classify.
  revert depth' node simple helper.
  induction depth as [|d IH]; intros [|d'] node simple helper Hs Hh;
    try discriminate.
  destruct node; simpl in Hs, Hh;
    try (injection Hh as <-);
    try (destruct (nameIs _ _) eqn:Hname in Hs);
    try (destruct (_ || _) in Hs);
    try (injection Hs as <-; split; reflexivity).
  - (* Identifier *)
    destruct scope as [s|]; simpl in Hs, Hh.
    + destruct (AstUtils.searchScopes _ s) as [val|].
      * exact (IH d' val simple helper Hs Hh).
      * injection Hs as <-. injection Hh as <-. split; reflexivity.
    + injection Hs as <-. injection Hh as <-. split; reflexivity.
  - (* NewExpression, `new SimpleResponse(...)` *)
    injection Hs as <-. split; [reflexivity | ]. simpl.
    unfold nameIs in Hname. unfold HelperResponseClassifier.isHelperClass.
    match goal with
    | H : match name ?c with Some _ => _ | None => _ end = true |- _ =>
        destruct (name c) as [x|]; [ | discriminate]
    end.
    apply String.eqb_eq in Hname. subst x. reflexivity.
Qed.

Lemma X2_witness :
  SimpleResponseClassifier.classify 2 scopeOfApp
    (NewExpression (Identifier "SignIn") [])
  = Ok (_createResponse true false)
  /\ HelperResponseClassifier.classify 1 scopeOfApp
       (NewExpression (Identifier "SignIn") [])
     = Ok (_createResponse true true)
  /\ certain (_createResponse true false) = certain (_createResponse true true)
  /\ result (_createResponse true false) && result (_createResponse true true)
     = false.
Proof.
  split; [reflexivity | split; [reflexivity | ]].
  apply (X2_classifiers_agree_on_certainty 2 1 scopeOfApp
           (NewExpression (Identifier "SignIn") [])); reflexivity.
Defined.

(** ** The handler predicate *)

Lemma lastIsLiteral_true (args : list Node) :
  Classifier.lastIsLiteral args = true ->
  exists pre a, args = pre ++ [a] /\ type a = "Literal".
Proof.
  destruct args as [|d l] using rev_ind; [discriminate | ].
  rewrite lastIsLiteral_snoc. intros H. apply String.eqb_eq in H. eauto.
Qed.

(** X3.  isNodeIntentHandler answers true exactly on a call
    `x.intent(...)` or `x.fallback(...)` whose receiver is a plain identifier
    that findVariableNodeValue resolves to a call of `dialogflow` or
    `actionssdk`, whose last argument is not a literal and which is not a
    call of two arguments the second of which is an identifier. *)
Theorem X3_isNodeIntentHandler_true_iff
        (scope : option EScope) (node : option Node) :
  Classifier.isNodeIntentHandler scope node = Ok true
  <-> exists x property args c cargs,
      node = Some (CallExpression (MemberExpression (Identifier x) property)
                                  args)
      /\ (forall pre a, args = pre ++ [a] -> type a <> "Literal")
      /\ AstUtils.findVariableNodeValue scope (Identifier x)
         = Ok (Some (CallExpression c cargs))
      /\ (name c = Some "dialogflow" \/ name c = Some "actionssdk")
      /\ (name property = Some "intent" \/ name property = Some "fallback")
      /\ (forall a0 a1, args = [a0; a1] -> type a1 <> "Identifier").
Proof.
  assert (Hname : forall n s, nameIs n s = true <-> name n = Some s).
  { intros n s. unfold nameIs. destruct (name n) as [y|].
    - rewrite String.eqb_eq. split; congruence.
    - split; discriminate. }
  assert (Hor : forall n s t,
             nameIs n s || nameIs n t = true
             <-> name n = Some s \/ name n = Some t).
  { intros n s t. rewrite orb_true_iff, !Hname. reflexivity. }
  split.
  - unfold Classifier.isNodeIntentHandler.
    destruct node as [[| | | | callee args | | | | | | | | | | | | | | |]|];
      try discriminate.
    destruct callee as [| | | | | | object property | | | | | | | | | | | | |];
      try discriminate.
    destruct (Classifier.lastIsLiteral args) eqn:Hlast; [discriminate | ].
    destruct object as [x| | | | | | | | | | | | | | | | | | |];
      try discriminate.
    destruct (AstUtils.findVariableNodeValue scope (Identifier x))
      as [[[| | | | c cargs | | | | | | | | | | | | | | |]|]|] eqn:Hfind;
      simpl; try discriminate.
    destruct (nameIs c "dialogflow" || nameIs c "actionssdk")
      eqn:Happ; simpl; [ | discriminate].
    destruct (nameIs property "intent" || nameIs property "fallback")
      eqn:Hprop; simpl; [ | discriminate].
    intros [= Hargs].
    exists x, property, args, c, cargs.
    repeat split; auto.
    + intros pre a -> Ha. rewrite lastIsLiteral_snoc in Hlast.
      apply String.eqb_neq in Hlast. contradiction.
    + apply Hor, Happ.
    + apply Hor, Hprop.
    + intros a0 a1 -> Ha1. simpl in Hargs. rewrite Ha1 in Hargs. discriminate.
  - intros (x & property & args & c & cargs
            & -> & Hlast & Hfind & Happ & Hprop & Hargs).
    unfold Classifier.isNodeIntentHandler.
    rewrite lastIsLiteral_false by assumption. rewrite Hfind. simpl.
    apply Hor in Happ. apply Hor in Hprop. rewrite Happ, Hprop. simpl.
    f_equal. destruct args as [|a0 [|a1 [|a2 rest]]]; try reflexivity.
    apply negb_true_iff, String.eqb_neq. eapply Hargs. reflexivity.
Qed.

Lemma X3_witness :
  exists x property args c cargs,
    Some (app_intent (handlerFunction [Identifier "conv"] []))
    = Some (CallExpression (MemberExpression (Identifier x) property) args)
    /\ (forall pre a, args = pre ++ [a] -> type a <> "Literal")
    /\ AstUtils.findVariableNodeValue scopeOfApp (Identifier x)
       = Ok (Some (CallExpression c cargs))
    /\ (name c = Some "dialogflow" \/ name c = Some "actionssdk")
    /\ (name property = Some "intent" \/ name property = Some "fallback")
    /\ (forall a0 a1, args = [a0; a1] -> type a1 <> "Identifier").
Proof.
  apply (proj1 (X3_isNodeIntentHandler_true_iff
                  scopeOfApp
                  (Some (app_intent (handlerFunction [Identifier "conv"]
                                                     []))))).
  reflexivity.
Defined.

(** ** The sentinel is never popped *)

Lemma preserves_bind {S : Type} (P : S -> Prop) (f g : S -> Result S) :
  preserves P f -> preserves P g ->
  preserves P (fun s => bind (f s) g).
Proof.
  intros Hf Hg s s' HP H. destruct (f s) as [s1|] eqn:E; [ | discriminate].
  apply (Hg s1 s'); [apply (Hf s s1 HP E) | exact H].
Qed.

Lemma preserves_Ok {S : Type} (P : S -> Prop) (f : S -> S) :
  (forall s, P s -> P (f s)) -> preserves P (fun s => Ok (f s)).
Proof. intros Hf s s' HP [= <-]. apply Hf, HP. Qed.

Lemma preserves_if {S : Type} (P : S -> Prop) (b : S -> bool)
      (f g : S -> Result S) :
  preserves P f -> preserves P g ->
  preserves P (fun s => if b s then f s else g s).
Proof.
  intros Hf Hg s s' HP H. destruct (b s); [apply (Hf s) | apply (Hg s)]; auto.
Qed.

Lemma visitList_preserves {S : Type} (P : S -> Prop)
      (visit : Node -> S -> Result S) (l : list Node) :
  (forall x, In x l -> preserves P (visit x)) ->
  preserves P (visitList visit l).
Proof.
  induction l as [|x l IH]; intros H s s' HP Hrun; simpl in Hrun.
  - injection Hrun as <-. exact HP.
  - destruct (visit x s) as [s1|] eqn:E; [ | discriminate].
    apply (IH (fun y Hy => H y (or_intror Hy)) s1 s'); [ | exact Hrun].
    apply (H x (or_introl eq_refl) s s1 HP E).
Qed.

Lemma visitOpt_preserves {S : Type} (P : S -> Prop)
      (visit : Node -> S -> Result S) (o : option Node) :
  (forall x, o = Some x -> preserves P (visit x)) ->
  preserves P (visitOpt visit o).
Proof.
  intros H s s' HP Hrun. destruct o as [x|]; simpl in Hrun.
  - apply (H x eq_refl s s' HP Hrun).
  - injection Hrun as <-. exact HP.
Qed.

Section Sentinel.
Context {M : Type}.

Lemma sentinel_cons (s : Scope M) (stack : list (Scope M))
      (calls calls' : list (ReporterCall M)) :
  sentinelAtBottom (mkManager stack calls) ->
  sentinelAtBottom (mkManager (s :: stack) calls').
Proof.
  intros (frames & bottom & Hstack & Hb). simpl in Hstack. subst stack.
  exists (s :: frames), bottom. split; [reflexivity | exact Hb].
Qed.

Lemma sentinel_head (f : Scope M -> Scope M) (s : Scope M)
      (stack : list (Scope M)) (calls calls' : list (ReporterCall M)) :
  event (f s) = event s ->
  sentinelAtBottom (mkManager (s :: stack) calls) ->
  sentinelAtBottom (mkManager (f s :: stack) calls').
Proof.
  intros Hf (frames & bottom & Hstack & Hb). simpl in Hstack.
  destruct frames as [|s0 frames]; simpl in Hstack; injection Hstack as -> ->.
  - exists [], (f bottom). split; [reflexivity | congruence].
  - exists (f s0 :: frames), bottom. split; [reflexivity | exact Hb].
Qed.

Lemma sentinel_calls (stack : list (Scope M))
      (calls calls' : list (ReporterCall M)) :
  sentinelAtBottom (mkManager stack calls) ->
  sentinelAtBottom (mkManager stack calls').
Proof. intros (frames & bottom & H). exists frames, bottom. exact H. Qed.

Lemma exitScope_sentinel : preserves sentinelAtBottom (@_exitScope M).
Proof.
  intros [stack calls] m' (frames & bottom & Hstack & Hb) H.
  simpl in Hstack. subst stack. unfold _exitScope, _invariant in H.
  destruct frames as [|s frames]; simpl in H.
  - rewrite Hb in H. discriminate.
  - destruct (String.eqb (event s) "Sentinel"); [discriminate | ].
    injection H as <-. exists frames, bottom. split; [reflexivity | exact Hb].
Qed.

Lemma assignCurrent_sentinel (f : Scope M -> Scope M) :
  (forall s, event (f s) = event s) ->
  preserves sentinelAtBottom (assignCurrent f).
Proof.
  intros Hf [stack calls] m' HP H. unfold assignCurrent in H. simpl in H.
  destruct stack as [|s stack]; [discriminate | ]. injection H as <-.
  apply sentinel_head with (calls := calls); auto.
Qed.

Lemma reporterFn_sentinel (arg : option Node) (m : ScopeManager M) :
  sentinelAtBottom m -> sentinelAtBottom (_reporterFn arg m).
Proof. destruct m. apply sentinel_calls. Qed.

Lemma getElseScopeIfAny_sentinel (node : Node) (m m' : ScopeManager M)
      (e : option (Scope M)) :
  sentinelAtBottom m ->
  _getElseScopeIfAny node m = Ok (e, m') ->
  sentinelAtBottom m'.
Proof.
  intros HP H. unfold _getElseScopeIfAny in H.
  destruct (alternate node); [ | injection H as _ <-; exact HP].
  destruct (currentScope m) as [cur|]; [ | injection H as _ <-; exact HP].
  destruct (includes (event cur) "IfStatement");
    [ | injection H as _ <-; exact HP].
  destruct (_exitScope m) as [m1|] eqn:E; [ | discriminate].
  injection H as _ <-. apply (exitScope_sentinel m m1 HP E).
Qed.

End Sentinel.

Lemma count_undo_sentinel (ifScope : Scope Z) (elseScope : option (Scope Z))
      (initialVal : Z) :
  preserves sentinelAtBottom
    (CountScopeManager._undoChangesIfThereIsReturnStatement
       ifScope elseScope initialVal).
Proof.
  intros m m' HP H.
  unfold CountScopeManager._undoChangesIfThereIsReturnStatement in H.
  repeat match type of H with
         | (if ?b then _ else _) = _ => destruct b
         | bind (currentScope_get ?m) _ = _ =>
             destruct (currentScope_get m); [simpl in H | discriminate]
         end;
    try (injection H as <-; exact HP);
    eapply assignCurrent_sentinel; try eassumption; reflexivity.
Qed.

Lemma count_handleIfExit_sentinel (ctx : EslintContext) (node : Node) :
  preserves sentinelAtBottom (CountScopeManager._handleIfExit ctx node).
Proof.
  intros m m' HP H. unfold CountScopeManager._handleIfExit in H.
  destruct (currentScope_get m) as [top|]; [simpl in H | discriminate].
  destruct (negb _); [injection H as <-; exact HP | ].
  destruct (_getElseScopeIfAny node m) as [[e m1]|] eqn:E1;
    [simpl in H | discriminate].
  pose proof (getElseScopeIfAny_sentinel _ _ _ _ HP E1) as HP1.
  destruct (_exitScope m1) as [m2|] eqn:E2; [simpl in H | discriminate].
  pose proof (exitScope_sentinel _ _ HP1 E2) as HP2.
  destruct (currentScope m1) as [ifScope|]; [ | discriminate].
  destruct (currentScope_get m2) as [parent|]; [simpl in H | discriminate].
  match type of H with
  | bind (assignCurrent ?f m2) _ = _ =>
      destruct (assignCurrent f m2) as [m3|] eqn:E3;
      [simpl in H | discriminate];
      pose proof (assignCurrent_sentinel f (fun _ => eq_refl) _ _ HP2 E3)
        as HP3
  end.
  match type of H with
  | bind ?r _ = _ => destruct r as [m4|] eqn:E4; [simpl in H | discriminate]
  end.
  refine (count_undo_sentinel _ _ _ m4 m' _ H).
  destruct (negb _); [ | injection E4 as <-; exact HP3].
  match type of E4 with
  | bind (assignCurrent ?f m3) _ = _ =>
      destruct (assignCurrent f m3) as [m5|] eqn:E5;
      [simpl in E4 | discriminate];
      pose proof (assignCurrent_sentinel f (fun _ => eq_refl) _ _ HP3 E5)
  end.
  injection E4 as <-. apply reporterFn_sentinel. assumption.
Qed.

Lemma count_handleCatchExit_sentinel (node : Node) :
  preserves sentinelAtBottom (CountScopeManager._handleCatchExit node).
Proof.
  intros m m' HP H. unfold CountScopeManager._handleCatchExit in H.
  destruct (currentScope_get m) as [k|]; [simpl in H | discriminate].
  destruct (negb _); [discriminate | ].
  destruct (_exitScope m) as [m1|] eqn:E1; [simpl in H | discriminate].
  pose proof (exitScope_sentinel _ _ HP E1) as HP1.
  destruct (currentScope_get m1) as [t|]; [simpl in H | discriminate].
  destruct (negb _); [discriminate | ].
  destruct (_exitScope m1) as [m2|] eqn:E2; [simpl in H | discriminate].
  pose proof (exitScope_sentinel _ _ HP1 E2) as HP2.
  destruct (currentScope_get m2) as [p|]; [simpl in H | discriminate].
  match type of H with
  | bind (assignCurrent ?f m2) _ = _ =>
      destruct (assignCurrent f m2) as [m3|] eqn:E3;
      [simpl in H | discriminate];
      pose proof (assignCurrent_sentinel f (fun _ => eq_refl) _ _ HP2 E3)
  end.
  injection H as <-. apply reporterFn_sentinel. assumption.
Qed.

Lemma count_account_sentinel (ctx : EslintContext) (node : Node)
      (ev : string) :
  preserves sentinelAtBottom (CountScopeManager.account ctx node ev).
Proof.
  intros m m' HP H. unfold CountScopeManager.account in H.
  destruct (includes ev ":exit").
  - unfold CountScopeManager._dispatchExit in H.
    destruct (String.eqb (type node) "IfStatement");
      [apply (count_handleIfExit_sentinel ctx node m m' HP H) | ].
    destruct (String.eqb (type node) "CatchClause");
      [apply (count_handleCatchExit_sentinel node m m' HP H) | ].
    apply (exitScope_sentinel m m' HP H).
  - destruct (String.eqb ev "ReturnStatement").
    + apply (assignCurrent_sentinel (assign_hasReturnStatement true)
               (fun _ => eq_refl) m m' HP H).
    + injection H as <-. destruct m as [stack calls].
      apply sentinel_cons with (calls := calls). exact HP.
Qed.

(** ** Counts are never negative *)

Ltac nonneg_frames :=
  repeat match goal with
         | H : Forall _ (_ :: _) |- _ => inversion H; clear H; subst
         end;
  repeat (constructor; simpl; try lia); try assumption.

Lemma count_handleIfExit_nonNegative (ctx : EslintContext) (node : Node) :
  preserves nonNegative (CountScopeManager._handleIfExit ctx node).
Proof.
  intros [stack calls] m' HP H. unfold nonNegative in *. simpl in HP.
  unfold CountScopeManager._handleIfExit, _getElseScopeIfAny, _exitScope,
    _invariant, currentScope_get, currentScope,
    CountScopeManager._undoChangesIfThereIsReturnStatement,
    CountScopeManager._isInsideIfElseStatement,
    assignCurrent, _reporterFn in H.
  destruct stack as [|a [|b [|c rest]]]; split_ifs H;
    try discriminate; try (injection H as <-); simpl; nonneg_frames.
Qed.

Lemma count_handleCatchExit_nonNegative (node : Node) :
  preserves nonNegative (CountScopeManager._handleCatchExit node).
Proof.
  intros [stack calls] m' HP H. unfold nonNegative in *. simpl in HP.
  unfold CountScopeManager._handleCatchExit, _exitScope, _invariant,
    currentScope_get, currentScope, assignCurrent, _reporterFn in H.
  destruct stack as [|a [|b [|c rest]]]; split_ifs H;
    try discriminate; try (injection H as <-); simpl; nonneg_frames.
Qed.

Lemma count_account_nonNegative (ctx : EslintContext) (node : Node)
      (ev : string) :
  preserves nonNegative (CountScopeManager.account ctx node ev).
Proof.
  intros m m' HP H. unfold CountScopeManager.account in H.
  destruct (includes ev ":exit").
  - unfold CountScopeManager._dispatchExit in H.
    destruct (String.eqb (type node) "IfStatement");
      [apply (count_handleIfExit_nonNegative ctx node m m' HP H) | ].
    destruct (String.eqb (type node) "CatchClause");
      [apply (count_handleCatchExit_nonNegative node m m' HP H) | ].
    destruct m as [stack calls]. unfold nonNegative in *. simpl in HP.
    unfold _exitScope, _invariant, currentScope in H.
    destruct stack; split_ifs H; try discriminate; injection H as <-;
      simpl; nonneg_frames.
  - destruct m as [stack calls]. unfold nonNegative in *. simpl in HP.
    unfold assignCurrent, _enterScope in H.
    destruct stack; split_ifs H; try discriminate; injection H as <-;
      simpl; nonneg_frames.
Qed.

(** ** Invariants of a pass of at-most-two-simple-responses *)

Section PassInvariant.
Variable getScope : Node -> option EScope.
Variable stackDepth : nat.
Variable P : ScopeManager Z -> Prop.

Let enter := AtMostTwoSimpleResponses.enter getScope stackDepth.
Let leave := AtMostTwoSimpleResponses.leave getScope.
Let traverse := AtMostTwoSimpleResponses.traverse getScope stackDepth.

Hypothesis Henter : forall parent ctx node, preserves P (enter parent ctx node).
Hypothesis Hleave : forall parent ctx node, preserves P (leave parent ctx node).

Ltac decompose_run :=
  repeat match goal with
         | H : bind ?r _ = Ok _ |- _ =>
             let m := fresh "m" in
             let E := fresh "E" in
             destruct r as [m|] eqn:E; [cbn [bind] in H | discriminate H]
         end.

Ltac chain_invariant :=
  repeat match goal with
         | E : Ok _ = Ok _ |- _ => injection E as E; subst
         | HP0 : P ?m0,
           E : AtMostTwoSimpleResponses.enter _ _ _ _ _ ?m0 = Ok _ |- _ =>
             pose proof (Henter _ _ _ _ _ HP0 E); clear E
         | HP0 : P ?m0,
           E : AtMostTwoSimpleResponses.leave _ _ _ _ ?m0 = Ok _ |- _ =>
             pose proof (Hleave _ _ _ _ _ HP0 E); clear E
         | IH : forall parent ctx, preserves P _,
           HP0 : P ?m0,
           E : AtMostTwoSimpleResponses.traverse _ _ _ _ _ ?m0 = Ok _ |- _ =>
             pose proof (IH _ _ _ _ HP0 E); clear E
         | IH : list_all Node _ ?l,
           HP0 : P ?m0,
           E : visitList _ ?l ?m0 = Ok _ |- _ =>
             pose proof (visitList_preserves P _ l
                           (fun y Hy => list_all_In _ _ IH y Hy _ _)
                           _ _ HP0 E); clear E
         | IH : option_all Node _ (Some ?x),
           HP0 : P ?m0,
           E : AtMostTwoSimpleResponses.traverse _ _ _ _ ?x ?m0 = Ok _ |- _ =>
             pose proof (option_all_Some _ _ IH _ _ _ _ HP0 E); clear E
         end.

Lemma traverse_preserves (node : Node) :
  forall parent ctx, preserves P (traverse parent ctx node).
Proof.
  induction node as
      [ x | raw | es IHes | op l IHl r IHr | c IHc args IHargs
      | c IHc args IHargs | o IHo p IHp | b IHb | b IHb | b IHb
      | id b IHb | k IHk v IHv | b IHb | l IHl | t IHt c IHc a IHa
      | b IHb h IHh f IHf | b IHb | a IHa | l IHl | ty l IHl ];
    intros parent ctx m m' HP H; unfold traverse in *;
    cbn [AtMostTwoSimpleResponses.traverse] in H;
    repeat match goal with
           | o : option Node |- _ => destruct o
           end;
    cbn [visitOpt] in H;
    decompose_run; chain_invariant; assumption.
Qed.

End PassInvariant.

(** X4.  Whatever the event, the node and the context, [account] of the
    counting manager never pops the sentinel and never makes a count
    negative: when it returns, the stack is still not empty and still ends
    with the sentinel frame, and if no frame had a negative count, none
    has. *)
Theorem X4_count_account_keeps_the_sentinel
        (ctx : EslintContext) (node : Node) (ev : string)
        (m m' : ScopeManager Z) :
  sentinelAtBottom m ->
  CountScopeManager.account ctx node ev m = Ok m' ->
  sentinelAtBottom m' /\ (nonNegative m -> nonNegative m').
Proof.
  intros Hsentinel Haccount. split.
  - exact (count_account_sentinel ctx node ev m m' Hsentinel Haccount).
  - intros Hcounts.
    exact (count_account_nonNegative ctx node ev m m' Hcounts Haccount).
Qed.

Lemma X4_witness :
  sentinelAtBottom
    (mkManager [frame "FunctionDeclaration" 0 false; sentinel] [])
  /\ nonNegative
       (mkManager [frame "FunctionDeclaration" 0 false; sentinel] []).
Proof.
  assert (Hsentinel : sentinelAtBottom CountScopeManager.new)
    by (exists [], sentinel; split; reflexivity).
  assert (Hcounts : nonNegative CountScopeManager.new)
    by (repeat constructor; discriminate).
  destruct (X4_count_account_keeps_the_sentinel
              AtMostTwoSimpleResponses.child
              (FunctionDeclaration "f" [] (BlockStatement []))
              "FunctionDeclaration" CountScopeManager.new
              (mkManager [frame "FunctionDeclaration" 0 false; sentinel] [])
              Hsentinel eq_refl) as [H1 H2].
  split; [exact H1 | exact (H2 Hcounts)].
Defined.

Section PassOfTheRule.
Variable getScope : Node -> option EScope.
Variable stackDepth : nat.
Variable P : ScopeManager Z -> Prop.

Hypothesis Haccount :
  forall ctx node ev, preserves P (CountScopeManager.account ctx node ev).
Hypothesis Hcount :
  forall scope memberExpression a,
    preserves P (AtMostTwoSimpleResponses.countArgument stackDepth scope
                   memberExpression a).

Lemma enter_preserves (parent : option Node) (ctx : EslintContext)
      (node : Node) :
  preserves P (AtMostTwoSimpleResponses.enter getScope stackDepth
                 parent ctx node).
Proof.
  intros m m' HP H. unfold AtMostTwoSimpleResponses.enter in H.
  destruct node;
    try match type of H with
        | context [AtMostTwoSimpleResponses.parentIsIfStatement parent] =>
            destruct (AtMostTwoSimpleResponses.parentIsIfStatement parent)
        | context [Classifier.isNodeIntentHandler ?s parent] =>
            destruct (Classifier.isNodeIntentHandler s parent);
            [cbn [bind] in H | discriminate]
        end;
    try (injection H as <-; exact HP);
    try (apply (Haccount _ _ _ _ _ HP (account_Ok _ _ _ _ _ H))).
  unfold AtMostTwoSimpleResponses.on_CallExpression in H.
  destruct (Classifier.doesReturnActionResponse _);
    [ | injection H as <-; exact HP].
  refine (visitList_preserves P _ _ _ _ _ HP H).
  intros y _. apply Hcount.
Qed.

Lemma leave_preserves (parent : option Node) (ctx : EslintContext)
      (node : Node) :
  preserves P (AtMostTwoSimpleResponses.leave getScope parent ctx node).
Proof.
  intros m m' HP H. unfold AtMostTwoSimpleResponses.leave in H.
  destruct node;
    try match type of H with
        | context [Classifier.isNodeIntentHandler ?s parent] =>
            destruct (Classifier.isNodeIntentHandler s parent);
            [cbn [bind] in H | discriminate]
        end;
    try (injection H as <-; exact HP);
    apply (Haccount _ _ _ _ _ HP (account_Ok _ _ _ _ _ H)).
Qed.

Lemma run_preserves (program : Node) (m : ScopeManager Z) :
  P CountScopeManager.new ->
  AtMostTwoSimpleResponses.run getScope stackDepth program = Ok m ->
  P m.
Proof.
  intros Hnew H.
  apply (traverse_preserves getScope stackDepth P
           enter_preserves leave_preserves program _ _ _ _ Hnew H).
Qed.

End PassOfTheRule.

Lemma countArgument_sentinel (stackDepth : nat) (scope : option EScope)
      (memberExpression a : Node) :
  preserves sentinelAtBottom
    (AtMostTwoSimpleResponses.countArgument stackDepth scope
       memberExpression a).
Proof.
  intros m m' HP H. unfold AtMostTwoSimpleResponses.countArgument in H.
  destruct (AtMostTwoSimpleResponses.isSimpleResponse _ _ _) as [simple|];
    [cbn [bind] in H | discriminate].
  assert (Hreport : forall m1, sentinelAtBottom m1 ->
                               AtMostTwoSimpleResponses.report m1 = Ok m' ->
                               sentinelAtBottom m').
  { intros m1 HP1 H1. apply report_Ok in H1. subst m'.
    apply reporterFn_sentinel, HP1. }
  destruct simple; [ | apply (Hreport m HP H)].
  destruct (currentScope_get m) as [cur|]; [cbn [bind] in H | discriminate].
  match type of H with
  | bind (assignCurrent ?f m) _ = _ =>
      destruct (assignCurrent f m) as [m1|] eqn:E;
      [cbn [bind] in H | discriminate];
      apply (Hreport m1 (assignCurrent_sentinel f (fun _ => eq_refl)
                           _ _ HP E) H)
  end.
Qed.

Lemma countArgument_nonNegative (stackDepth : nat) (scope : option EScope)
      (memberExpression a : Node) :
  preserves nonNegative
    (AtMostTwoSimpleResponses.countArgument stackDepth scope
       memberExpression a).
Proof.
  intros [stack calls] m' HP H. unfold nonNegative in *. simpl in HP.
  unfold AtMostTwoSimpleResponses.countArgument in H.
  destruct (AtMostTwoSimpleResponses.isSimpleResponse _ _ _) as [simple|];
    [cbn [bind] in H | discriminate].
  match type of H with
  | bind ?r _ = _ => destruct r as [m1|] eqn:E; [cbn [bind] in H | discriminate]
  end.
  apply report_Ok in H. subst m'.
  unfold currentScope_get, currentScope, assignCurrent in E.
  destruct stack; split_ifs E; try discriminate; injection E as <-;
    simpl; nonneg_frames.
Qed.

(** X5.  A pass of at-most-two-simple-responses over any program, when it
    returns, leaves a stack that is not empty and ends with the sentinel,
    and no frame on it has a negative count. *)
Theorem X5_pass_keeps_sentinel_and_counts_non_negative
        (getScope : Node -> option EScope) (stackDepth : nat)
        (program : Node) (m : ScopeManager Z) :
  AtMostTwoSimpleResponses.run getScope stackDepth program = Ok m ->
  sentinelAtBottom m /\ nonNegative m.
Proof.
  intros H. split.
  - apply (run_preserves getScope stackDepth sentinelAtBottom
             count_account_sentinel (countArgument_sentinel stackDepth)
             program m); [ | exact H].
    exists [], sentinel. split; reflexivity.
  - apply (run_preserves getScope stackDepth nonNegative
             count_account_nonNegative (countArgument_nonNegative stackDepth)
             program m); [ | exact H].
    repeat constructor. discriminate.
Qed.

Lemma X5_witness :
  exists m,
    AtMostTwoSimpleResponses.run noScopes 1 (asks ["a"; "b"; "c"]) = Ok m
    /\ sentinelAtBottom m /\ nonNegative m.
Proof.
  eexists. split; [reflexivity | ].
  apply (X5_pass_keeps_sentinel_and_counts_non_negative
           noScopes 1 (asks ["a"; "b"; "c"])).
  reflexivity.
Defined.

(** ** The presence manager *)

Lemma presence_handleIfExit_frames
      (node : Node) (ifScope parent : Scope bool)
      (elseScope : option (Scope bool))
      (rest : list (Scope bool)) (calls : list (ReporterCall bool)) :
  includes (event ifScope) "IfStatement" = true ->
  labelled "IfStatement" elseScope ->
  isSome (alternate node) = isSome elseScope ->
  PresenceScopeManager._handleIfExit node
    (mkManager (branchFrames elseScope ifScope ++ parent :: rest) calls)
  = Ok (mkManager
          (assign_metadata
             (match elseScope with
              | Some e => metadata parent || (metadata ifScope && metadata e)
              | None => metadata parent
              end) parent :: rest) calls).
Proof.
  intros Hif Helse Halt. unfold PresenceScopeManager._handleIfExit.
  assert (Htop : exists top,
             currentScope_get
               (mkManager (branchFrames elseScope ifScope ++ parent :: rest)
                          calls) = Ok top
             /\ includes (event top) "IfStatement" = true).
  { destruct elseScope as [e|]; simpl; eexists; split; try reflexivity.
    - apply Helse; reflexivity.
    - exact Hif. }
  destruct Htop as (top & -> & Htop). simpl. rewrite Htop. simpl.
  rewrite getElseScopeIfAny_pops by assumption. simpl.
  rewrite exitScope_pops by (apply IfStatement_not_Sentinel, Hif). simpl.
  unfold assignCurrent. simpl. destruct elseScope as [e|].
  - destruct (metadata ifScope); reflexivity.
  - rewrite orb_false_r. reflexivity.
Qed.

(** X6.  The conditional exit of the presence manager does not depend on
    which branch is the consequent: with the frames of the two branches
    exchanged, it returns the same manager. *)
Theorem X6_presence_conditional_exit_is_symmetric
        (node : Node) (ifScope elseScope parent : Scope bool)
        (rest : list (Scope bool)) (calls : list (ReporterCall bool)) :
  includes (event ifScope) "IfStatement" = true ->
  includes (event elseScope) "IfStatement" = true ->
  isSome (alternate node) = true ->
  PresenceScopeManager._handleIfExit node
    (mkManager (elseScope :: ifScope :: parent :: rest) calls)
  = PresenceScopeManager._handleIfExit node
      (mkManager (ifScope :: elseScope :: parent :: rest) calls).
Proof.
  intros Hif Helse Halt.
  change (elseScope :: ifScope :: parent :: rest)
    with (branchFrames (Some elseScope) ifScope ++ parent :: rest).
  change (ifScope :: elseScope :: parent :: rest)
    with (branchFrames (Some ifScope) elseScope ++ parent :: rest).
  rewrite !presence_handleIfExit_frames;
    try assumption; try (intros e [= <-]; assumption).
  rewrite (andb_comm (metadata ifScope)). reflexivity.
Qed.

Lemma X6_witness :
  includes "IfStatement > BlockStatement" "IfStatement" = true
  /\ isSome (alternate ifWithElse) = true
  /\ PresenceScopeManager._handleIfExit ifWithElse
       (mkManager [mkScope "IfStatement > BlockStatement" false None false;
                   mkScope "IfStatement > BlockStatement" true None false;
                   mkScope "FunctionExpression, Intent" false None false;
                   mkScope "Sentinel" true None false] [])
     = PresenceScopeManager._handleIfExit ifWithElse
         (mkManager [mkScope "IfStatement > BlockStatement" true None false;
                     mkScope "IfStatement > BlockStatement" false None false;
                     mkScope "FunctionExpression, Intent" false None false;
                     mkScope "Sentinel" true None false] []).
Proof.
  split; [reflexivity | split; [reflexivity | ]].
  apply (X6_presence_conditional_exit_is_symmetric ifWithElse
           (mkScope "IfStatement > BlockStatement" true None false)
           (mkScope "IfStatement > BlockStatement" false None false)
           (mkScope "FunctionExpression, Intent" false None false)
           [mkScope "Sentinel" true None false] []); reflexivity.
Defined.

(** X7.  The try/catch exit of the presence manager: with the frame of the
    catch clause on top of the frame of the try block, both are popped, the
    parent frame gets parent OR (catch AND try), and the reporter is not
    called; with another frame on top, or another frame under the catch
    frame, it throws. *)
Theorem X7_presence_try_catch_exit
        (node : Node) (catchScope tryScope parent : Scope bool)
        (rest : list (Scope bool)) (calls : list (ReporterCall bool)) :
  includes (event catchScope) "CatchClause" = true ->
  (if includes (event tryScope) "TryStatement"
   then PresenceScopeManager._handleCatchExit node
          (mkManager (catchScope :: tryScope :: parent :: rest) calls)
        = Ok (mkManager
                (assign_metadata
                   (metadata parent
                    || (metadata catchScope && metadata tryScope)) parent
                 :: rest) calls)
   else PresenceScopeManager._handleCatchExit node
          (mkManager (catchScope :: tryScope :: parent :: rest) calls)
        = Throw (Error "Expected TryStatement to be on top of stack"))
  /\ (includes (event tryScope) "CatchClause" = false ->
      PresenceScopeManager._handleCatchExit node
        (mkManager (tryScope :: parent :: rest) calls)
      = Throw (Error "Expected Catch to be on top of stack")).
Proof.
  intros Hcatch. split.
  - unfold PresenceScopeManager._handleCatchExit. simpl. rewrite Hcatch. simpl.
    rewrite exitScope_pops by (apply CatchClause_not_Sentinel, Hcatch). simpl.
    destruct (includes (event tryScope) "TryStatement") eqn:Htry; simpl;
      [ | reflexivity].
    rewrite exitScope_pops by (apply TryStatement_not_Sentinel, Htry).
    reflexivity.
  - intros Hno. unfold PresenceScopeManager._handleCatchExit. simpl.
    rewrite Hno. reflexivity.
Qed.

Lemma X7_witness :
  includes "CatchClause" "CatchClause" = true
  /\ PresenceScopeManager._handleCatchExit emptyCatch
       (mkManager [mkScope "CatchClause" true None false;
                   mkScope "TryStatement > BlockStatement" true None false;
                   mkScope "FunctionExpression, Intent" false None false;
                   mkScope "Sentinel" true None false] [])
     = Ok (mkManager [mkScope "FunctionExpression, Intent" true None false;
                      mkScope "Sentinel" true None false] []).
Proof.
  split; [reflexivity | ].
  apply (proj1 (X7_presence_try_catch_exit emptyCatch
                  (mkScope "CatchClause" true None false)
                  (mkScope "TryStatement > BlockStatement" true None false)
                  (mkScope "FunctionExpression, Intent" false None false)
                  [mkScope "Sentinel" true None false] [] eq_refl)).
Defined.

(** The frame [account] pushes starts with metadata false exactly when the
    event or a frame on the stack carries 'Intent'. *)
Lemma presence_enter (node : Node) (ev : string) (m : ScopeManager bool) :
  includes ev ":exit" = false ->
  String.eqb ev "ReturnStatement" = false ->
  PresenceScopeManager.account node ev m
  = Ok (mkManager
          (mkScope ev
             (negb (existsb (fun s => includes (event s) "Intent")
                            (_scopeStack m)
                    || includes ev "Intent")) None false
           :: _scopeStack m) (reporterCalls m)).
Proof.
  intros H1 H2. unfold PresenceScopeManager.account. rewrite H1, H2.
  unfold _enterScope, PresenceScopeManager._createScopeObject,
    PresenceScopeManager.isScopeInsideIntent.
  destruct (_scopeStack m) as [|s stack] eqn:E; [reflexivity | ].
  replace (length (s :: stack) - 1 - (length (s :: stack) - 1))%nat
    with 0%nat by lia.
  reflexivity.
Qed.

(** X8.  A handler from entry to exit, in the presence manager: when a
    function is entered with an event that carries 'Intent', its frame
    starts false; if nothing sets it before the function is left, the
    reporter is called with the function, on a frame whose metadata is false
    (must-return-response then reports the function); if the frame has been
    set to true, the reporter is called on a frame whose metadata is true
    (nothing is reported).  Either way the stack is then as it was before
    the entry. *)
Theorem X8_presence_handler_entry_to_exit
        (node : Node) (ev evExit : string) (m : ScopeManager bool)
        (acted : bool) :
  includes ev ":exit" = false ->
  String.eqb ev "ReturnStatement" = false ->
  includes ev "Intent" = true ->
  includes evExit ":exit" = true ->
  isFunctionType (type node) = true ->
  exists m',
    (entered <- PresenceScopeManager.account node ev m ;;
     inside <- (if acted
                then assignCurrent (assign_metadata true) entered
                else Ok entered) ;;
     PresenceScopeManager.account node evExit inside) = Ok m'
    /\ _scopeStack m' = _scopeStack m
    /\ reporterCalls m'
       = reporterCalls m
         ++ [mkCall (Some node) (Some (mkScope ev acted None false))]
    /\ MustReturnResponse.reports m'
       = MustReturnResponse.reports m ++ (if acted then [] else [Some node]).
Proof.
  intros H1 H2 Hintent Hexit Hnode.
  rewrite presence_enter by assumption. rewrite Hintent, orb_true_r.
  cbn [bind negb].
  assert (Hns : String.eqb ev "Sentinel" = false)
    by (apply (includes_not_Sentinel ev "Intent");
        [reflexivity | exact Hintent]).
  assert (Hdispatch : forall stack calls,
             PresenceScopeManager.account node evExit (mkManager stack calls)
             = PresenceScopeManager._handleIntentHandlerExit node
                 (mkManager stack calls)).
  { intros stack calls. unfold PresenceScopeManager.account.
    rewrite Hexit. unfold PresenceScopeManager._dispatchExit.
    unfold isFunctionType in Hnode.
    destruct (String.eqb_spec (type node) "IfStatement") as [E|_];
      [rewrite E in Hnode; discriminate | ].
    destruct (String.eqb_spec (type node) "CatchClause") as [E|_];
      [rewrite E in Hnode; discriminate | ].
    rewrite Hnode. reflexivity. }
  destruct m as [stack calls].
  destruct acted; cbn [bind assignCurrent _scopeStack reporterCalls];
    rewrite Hdispatch; unfold PresenceScopeManager._handleIntentHandlerExit;
    cbn [currentScope_get currentScope _scopeStack bind event assign_metadata];
    rewrite Hintent; unfold _reporterFn;
    cbn [_scopeStack reporterCalls currentScope];
    rewrite exitScope_pops by exact Hns;
    eexists; (split; [reflexivity | ]);
    (split; [reflexivity | ]); (split; [reflexivity | ]);
    unfold MustReturnResponse.reports; cbn [reporterCalls];
    rewrite flat_map_app; reflexivity.
Qed.

Lemma X8_witness :
  exists m',
    (entered <- PresenceScopeManager.account
                  (ArrowFunctionExpression [] (BlockStatement []))
                  "ArrowFunctionExpression, Intent" PresenceScopeManager.new ;;
     PresenceScopeManager.account
       (ArrowFunctionExpression [] (BlockStatement []))
       "ArrowFunctionExpression:exit, Intent" entered) = Ok m'
    /\ _scopeStack m' = _scopeStack PresenceScopeManager.new
    /\ MustReturnResponse.reports m'
       = [Some (ArrowFunctionExpression [] (BlockStatement []))].
Proof.
  destruct (X8_presence_handler_entry_to_exit
              (ArrowFunctionExpression [] (BlockStatement []))
              "ArrowFunctionExpression, Intent"
              "ArrowFunctionExpression:exit, Intent"
              PresenceScopeManager.new false
              eq_refl eq_refl eq_refl eq_refl eq_refl)
    as (m' & Hrun & Hstack & _ & Hreports).
  exists m'. split; [ | split; assumption].
  destruct (PresenceScopeManager.account _ _ PresenceScopeManager.new);
    exact Hrun.
Defined.

(** ** The rule first-item-simple-or-helper-response *)

Section FirstItem.
Variable scope : option EScope.
Variable stackDepth : nat.

Lemma firstItem_call (call : Node)
      (st st' : FirstItemSimpleOrHelperResponse.State) :
  FirstItemSimpleOrHelperResponse.on_CallExpression scope stackDepth call st
  = Ok st' ->
  (FirstItemSimpleOrHelperResponse.firstResponseBuildingCall st = false ->
   st' = st)
  /\ (FirstItemSimpleOrHelperResponse.firstResponseBuildingCall st' = true ->
      st' = st)
  /\ exists new,
      FirstItemSimpleOrHelperResponse.reported st'
      = FirstItemSimpleOrHelperResponse.reported st ++ new
      /\ (length new <= 1)%nat.
Proof.
  unfold FirstItemSimpleOrHelperResponse.on_CallExpression.
  destruct st as [flag reports].
  cbn [FirstItemSimpleOrHelperResponse.firstResponseBuildingCall
       FirstItemSimpleOrHelperResponse.reported].
  assert (Hsame : Ok (FirstItemSimpleOrHelperResponse.mkState flag reports)
                  = Ok st' ->
                  (flag = false ->
                   st' = FirstItemSimpleOrHelperResponse.mkState flag reports)
                  /\ (FirstItemSimpleOrHelperResponse.firstResponseBuildingCall
                        st' = true ->
                      st' = FirstItemSimpleOrHelperResponse.mkState
                              flag reports)
                  /\ exists new,
                      FirstItemSimpleOrHelperResponse.reported st'
                      = reports ++ new /\ (length new <= 1)%nat).
  { intros [= <-]. repeat split; auto.
    exists []. rewrite app_nil_r. split; [reflexivity | simpl; lia]. }
  destruct (Classifier.doesReturnActionResponse (Some call)); [ | exact Hsame].
  destruct call; try exact Hsame.
  destruct flag; cbn [bind]; [ | destruct st'; exact Hsame].
  destruct (FirstItemSimpleOrHelperResponse.doesContainHelperOrSimple _ _ _)
    as [[|]|];
    cbn [bind FirstItemSimpleOrHelperResponse.firstResponseBuildingCall
                    FirstItemSimpleOrHelperResponse.reported];
    try discriminate; intros [= <-];
    cbn [FirstItemSimpleOrHelperResponse.firstResponseBuildingCall
         FirstItemSimpleOrHelperResponse.reported].
  - repeat split; try discriminate.
    exists []. rewrite app_nil_r. split; [reflexivity | simpl; lia].
  - repeat split; try discriminate.
    eexists. split; [reflexivity | simpl; lia].
Qed.

(** X9.  However many calls the 'CallExpression' handler of
    first-item-simple-or-helper-response sees one after the other (no
    function being entered in between), it reports at most one of them; and
    once the flag is down it reports none and leaves the state as it is. *)
Theorem X9_first_item_reports_at_most_once
        (calls : list Node) (st st' : FirstItemSimpleOrHelperResponse.State) :
  visitList (FirstItemSimpleOrHelperResponse.on_CallExpression scope stackDepth)
            calls st = Ok st' ->
  (exists new,
      FirstItemSimpleOrHelperResponse.reported st'
      = FirstItemSimpleOrHelperResponse.reported st ++ new
      /\ (length new <= 1)%nat)
  /\ (FirstItemSimpleOrHelperResponse.firstResponseBuildingCall st = false ->
      st' = st).
Proof.
  revert st. induction calls as [|call calls IH]; intros st H; simpl in H.
  - injection H as <-. split; [ | reflexivity].
    exists []. rewrite app_nil_r. split; [reflexivity | simpl; lia].
  - destruct (FirstItemSimpleOrHelperResponse.on_CallExpression scope stackDepth
                call st) as [st1|] eqn:E; [ | discriminate].
    cbn [bind] in H.
    destruct (firstItem_call call st st1 E)
      as (Hdown & Hup & new & Hnew & Hlen).
    destruct (IH st1 H) as ((new' & Hnew' & Hlen') & Hdown').
    split.
    + destruct (FirstItemSimpleOrHelperResponse.firstResponseBuildingCall st1)
        eqn:Hflag.
      * rewrite (Hup eq_refl) in *. eauto.
      * rewrite (Hdown' eq_refl). eauto.
    + intros Hst. rewrite (Hdown Hst) in *. apply Hdown', Hst.
Qed.

Lemma doesContainHelperOrSimple_spec (args : list Node) (b : bool) :
  FirstItemSimpleOrHelperResponse.doesContainHelperOrSimple
    scope stackDepth args = Ok b ->
  if b
  then Exists (fun a =>
                 exists r,
                   (HelperResponseClassifier.classify stackDepth scope a
                    = Ok r
                    \/ SimpleResponseClassifier.classify stackDepth scope a
                       = Ok r)
                   /\ negb (certain r) || result r = true) args
  else Forall (fun a =>
                 HelperResponseClassifier.classify stackDepth scope a
                 = Ok (_createResponse true false)
                 /\ SimpleResponseClassifier.classify stackDepth scope a
                    = Ok (_createResponse true false)) args.
Proof.
  revert b. induction args as [|a args IH]; intros b Hb; simpl in Hb.
  - injection Hb as <-. constructor.
  - unfold FirstItemSimpleOrHelperResponse.isHelperResponse,
      FirstItemSimpleOrHelperResponse.isSimpleResponse in Hb.
    destruct (HelperResponseClassifier.classify stackDepth scope a)
      as [[hc hr]|] eqn:Eh; [cbn [bind certain result] in Hb | discriminate].
    destruct (negb hc || hr) eqn:Hh.
    + injection Hb as <-. apply Exists_cons_hd.
      exists (_createResponse hc hr). split; [left; exact Eh | exact Hh].
    + destruct (SimpleResponseClassifier.classify stackDepth scope a)
        as [[sc sr]|] eqn:Es;
        [cbn [bind certain result] in Hb | discriminate].
      destruct (negb sc || sr) eqn:Hs.
      * injection Hb as <-. apply Exists_cons_hd.
        exists (_createResponse sc sr).
        split; [right; exact Es | exact Hs].
      * assert (Hvals : hc = true /\ hr = false /\ sc = true /\ sr = false).
        { destruct hc, hr, sc, sr; try discriminate; auto. }
        destruct Hvals as (-> & -> & -> & ->).
        specialize (IH b Hb). destruct b.
        { apply Exists_cons_tl, IH. }
        { constructor; [split; assumption | exact IH]. }
Qed.

(** X10.  When the flag is up, a response-building call is reported exactly
    when each of its arguments is classified with certainty as no helper
    response and as no simple response (so a call without arguments is
    reported, and a call with an argument the classifiers are not certain
    about is not); in every case the flag is down afterwards. *)
Theorem X10_first_item_reports_certain_non_responses
        (callee : Node) (args : list Node)
        (reports : list Node) (st' : FirstItemSimpleOrHelperResponse.State) :
  Classifier.doesReturnActionResponse (Some (CallExpression callee args))
  = true ->
  FirstItemSimpleOrHelperResponse.on_CallExpression scope stackDepth
    (CallExpression callee args)
    (FirstItemSimpleOrHelperResponse.mkState true reports) = Ok st' ->
  FirstItemSimpleOrHelperResponse.firstResponseBuildingCall st' = false
  /\ ((FirstItemSimpleOrHelperResponse.reported st' = reports ++ [callee]
       /\ Forall (fun a =>
                    HelperResponseClassifier.classify stackDepth scope a
                    = Ok (_createResponse true false)
                    /\ SimpleResponseClassifier.classify stackDepth scope a
                       = Ok (_createResponse true false)) args)
      \/ (FirstItemSimpleOrHelperResponse.reported st' = reports
          /\ Exists (fun a =>
                       exists r,
                         (HelperResponseClassifier.classify stackDepth scope a
                          = Ok r
                          \/ SimpleResponseClassifier.classify stackDepth
                               scope a = Ok r)
                         /\ negb (certain r) || result r = true) args)).
Proof.
  intros Hcall. unfold FirstItemSimpleOrHelperResponse.on_CallExpression.
  rewrite Hcall.
  cbn [FirstItemSimpleOrHelperResponse.firstResponseBuildingCall].
  destruct (FirstItemSimpleOrHelperResponse.doesContainHelperOrSimple
              scope stackDepth args) as [[|]|] eqn:E;
    cbn [bind FirstItemSimpleOrHelperResponse.firstResponseBuildingCall
         FirstItemSimpleOrHelperResponse.reported];
    try discriminate; intros [= <-];
    (split; [reflexivity | ]).
  - right. split; [reflexivity | ].
    apply (doesContainHelperOrSimple_spec _ true E).
  - left. split; [reflexivity | ].
    apply (doesContainHelperOrSimple_spec _ false E).
Qed.

End FirstItem.

Lemma X9_witness :
  (exists new,
      [askCallee] = [] ++ new /\ (length new <= 1)%nat)
  /\ (FirstItemSimpleOrHelperResponse.firstResponseBuildingCall
        FirstItemSimpleOrHelperResponse.initial = false ->
      FirstItemSimpleOrHelperResponse.mkState false [askCallee]
      = FirstItemSimpleOrHelperResponse.initial).
Proof.
  apply (X9_first_item_reports_at_most_once
           None 1
           [CallExpression askCallee []; CallExpression askCallee []]
           FirstItemSimpleOrHelperResponse.initial
           (FirstItemSimpleOrHelperResponse.mkState false [askCallee])).
  reflexivity.
Defined.

Lemma X10_witness :
  FirstItemSimpleOrHelperResponse.on_CallExpression None 1
    (CallExpression askCallee [Literal "hi"])
    (FirstItemSimpleOrHelperResponse.mkState true [])
  = Ok (FirstItemSimpleOrHelperResponse.mkState false [])
  /\ FirstItemSimpleOrHelperResponse.on_CallExpression None 1
       (CallExpression askCallee [])
       (FirstItemSimpleOrHelperResponse.mkState true [])
     = Ok (FirstItemSimpleOrHelperResponse.mkState false [askCallee])
  /\ Forall (fun a =>
               HelperResponseClassifier.classify 1 None a
               = Ok (_createResponse true false)
               /\ SimpleResponseClassifier.classify 1 None a
                  = Ok (_createResponse true false)) [].
Proof.
  split; [reflexivity | split; [reflexivity | ]].
  destruct (X10_first_item_reports_certain_non_responses
              None 1 askCallee [] []
              (FirstItemSimpleOrHelperResponse.mkState false [askCallee])
              eq_refl eq_refl) as [_ [[_ H] | [H _]]].
  - exact H.
  - discriminate H.
Defined.

(** ** The rule always-return-promise *)

Lemma find_spec (predicate : Node -> Result bool) (l : list Node) :
  match AlwaysReturnPromise.find predicate l with
  | Ok (Some x) =>
      exists before after,
        l = before ++ x :: after
        /\ predicate x = Ok true
        /\ Forall (fun y => predicate y = Ok false) before
  | Ok None => Forall (fun y => predicate y = Ok false) l
  | Throw e =>
      exists before x after,
        l = before ++ x :: after
        /\ predicate x = Throw e
        /\ Forall (fun y => predicate y = Ok false) before
  end.
Proof.
  induction l as [|x l IH]; simpl; [constructor | ].
  destruct (predicate x) as [[|]|e] eqn:E; simpl.
  - exists [], l. repeat split; auto.
  - destruct (AlwaysReturnPromise.find predicate l) as [[y|]|e].
    + destruct IH as (before & after & -> & Hy & Hbefore).
      exists (x :: before), after. repeat split; auto.
    + constructor; auto.
    + destruct IH as (before & y & after & -> & Hy & Hbefore).
      exists (x :: before), y, after. repeat split; auto.
  - exists [], x, l. repeat split; auto.
Qed.

Lemma find_ReturnStatement (l : list Node) :
  isSome (List.find (fun element => String.eqb (type element) "ReturnStatement")
                    l) = true
  <-> exists a, In a l /\ type a = "ReturnStatement".
Proof.
  destruct (List.find _ l) as [a|] eqn:E; simpl.
  - apply find_some in E. destruct E as (Hin & Ha). apply String.eqb_eq in Ha.
    split; [eauto | reflexivity].
  - split; [discriminate | ]. intros (a & Hin & Ha).
    pose proof (find_none _ _ E a Hin) as H. simpl in H.
    rewrite Ha in H. discriminate.
Qed.

Lemma isNodeIntentHandler_receiver_throws
      (scope : option EScope) (object property : Node) (args : list Node) :
  (forall x, object <> Identifier x) ->
  (forall pre a, args = pre ++ [a] -> type a <> "Literal") ->
  Classifier.isNodeIntentHandler scope
    (Some (CallExpression (MemberExpression object property) args))
  = Throw (Error "Expected Identifier").
Proof.
  intros Hobject Hargs. simpl. rewrite lastIsLiteral_false by assumption.
  destruct object; try reflexivity. exfalso. eapply Hobject. reflexivity.
Qed.

(** X11.  The 'MemberExpression' handler of always-return-promise, when it
    returns, has reported the member expression exactly when its property
    is named `then`, isNodeIntentHandler holds of one of its ancestors, and
    no ancestor is a return statement; otherwise it has reported nothing. *)
Theorem X11_promise_reported_iff
        (scope : option EScope) (ancestors : list Node)
        (object property : Node) (reports out : list Node) :
  AlwaysReturnPromise.on_MemberExpression scope ancestors
    (MemberExpression object property) reports = Ok out ->
  (out = reports ++ [MemberExpression object property]
   /\ name property = Some "then"
   /\ (exists a, In a ancestors
                 /\ Classifier.isNodeIntentHandler scope (Some a) = Ok true)
   /\ (forall a, In a ancestors -> type a <> "ReturnStatement"))
  \/ (out = reports
      /\ (name property <> Some "then"
          \/ (forall a, In a ancestors ->
                        Classifier.isNodeIntentHandler scope (Some a)
                        = Ok false)
          \/ (exists a, In a ancestors /\ type a = "ReturnStatement"))).
Proof.
  unfold AlwaysReturnPromise.on_MemberExpression.
  destruct (nameIs property "then") eqn:Hthen.
  - assert (Hname : name property = Some "then").
    { unfold nameIs in Hthen. destruct (name property); [ | discriminate].
      apply String.eqb_eq in Hthen. congruence. }
    pose proof (find_spec
                  (fun node => Classifier.isNodeIntentHandler scope (Some node))
                  ancestors) as Hfind.
    destruct (AlwaysReturnPromise.find _ ancestors) as [[a|]|];
      cbn [bind isSome andb]; [ | | discriminate].
    + destruct Hfind as (before & after & -> & Ha & _).
      destruct (isSome (List.find _ _)) eqn:Hret; cbn [negb];
        intros [= <-].
      * right. split; [reflexivity | ]. right; right.
        apply find_ReturnStatement, Hret.
      * left. repeat split; auto.
        -- exists a. split; [apply in_elt | exact Ha].
        -- intros b Hb Hty.
           assert (H : isSome
                         (List.find
                            (fun element =>
                               String.eqb (type element) "ReturnStatement")
                            (before ++ a :: after)) = true)
             by (apply find_ReturnStatement; eauto).
           congruence.
    + intros [= <-]. right. split; [reflexivity | ]. right; left.
      intros b Hb. rewrite Forall_forall in Hfind. apply Hfind, Hb.
  - intros [= <-]. right. split; [reflexivity | ]. left.
    unfold nameIs in Hthen. destruct (name property) as [y|]; [ | discriminate].
    apply String.eqb_neq in Hthen. congruence.
Qed.

(** X12.  The handler throws on a `.then` when one of the ancestors is a
    call whose callee is a member expression with a receiver that is not a
    plain identifier and whose last argument is not a literal, unless
    isNodeIntentHandler holds of an ancestor further out: so it does on the
    callee of `fetch(url).then(cb)` outside every recognised handler. *)
Theorem X12_promise_on_other_receiver_throws
        (scope : option EScope) (before after : list Node)
        (receiver method : Node) (args : list Node)
        (object property : Node) (reports : list Node) :
  name property = Some "then" ->
  Forall (fun a => Classifier.isNodeIntentHandler scope (Some a) = Ok false)
         before ->
  (forall x, receiver <> Identifier x) ->
  (forall pre a, args = pre ++ [a] -> type a <> "Literal") ->
  AlwaysReturnPromise.on_MemberExpression scope
    (before ++ CallExpression (MemberExpression receiver method) args :: after)
    (MemberExpression object property) reports
  = Throw (Error "Expected Identifier").
Proof.
  intros Hthen Hbefore Hreceiver Hargs.
  unfold AlwaysReturnPromise.on_MemberExpression, nameIs. rewrite Hthen.
  simpl String.eqb. cbv iota.
  assert (Hfind : AlwaysReturnPromise.find
                    (fun node =>
                       Classifier.isNodeIntentHandler scope (Some node))
                    (before
                     ++ CallExpression (MemberExpression receiver method) args
                     :: after)
                  = Throw (Error "Expected Identifier")).
  { induction Hbefore as [|a before Ha _ IH];
      cbn [AlwaysReturnPromise.find app].
    - rewrite isNodeIntentHandler_receiver_throws by assumption. reflexivity.
    - rewrite Ha. cbn [bind]. exact IH. }
  rewrite Hfind. reflexivity.
Qed.

(** ** Frames of functions *)

(** X13.  A function from entry to exit, in the counting manager: whatever
    is assigned to the frame pushed at the entry, the exit leaves the
    manager exactly as it was before the entry; a count made inside a
    function does not reach the frame around it. *)
Theorem X13_count_function_frame_is_discarded
        (ctx ctx' : EslintContext) (node : Node) (ev evExit : string)
        (f : Scope Z -> Scope Z) (m : ScopeManager Z) :
  includes ev ":exit" = false ->
  String.eqb ev "ReturnStatement" = false ->
  String.eqb ev "Sentinel" = false ->
  includes evExit ":exit" = true ->
  String.eqb (type node) "IfStatement" = false ->
  String.eqb (type node) "CatchClause" = false ->
  (forall s, event (f s) = event s) ->
  (entered <- CountScopeManager.account ctx node ev m ;;
   inside <- assignCurrent f entered ;;
   CountScopeManager.account ctx' node evExit inside) = Ok m.
Proof.
  intros H1 H2 Hns Hexit Hif Hcatch Hf.
  unfold CountScopeManager.account, CountScopeManager._dispatchExit.
  rewrite H1, H2, Hexit, Hif, Hcatch. destruct m as [stack calls].
  cbn [bind _enterScope assignCurrent _scopeStack reporterCalls].
  rewrite exitScope_pops; [reflexivity | ].
  rewrite Hf. exact Hns.
Qed.

Lemma X11_witness :
  AlwaysReturnPromise.on_MemberExpression scopeOfApp
    [app_intent (handlerFunction [Identifier "conv"]
                      [ExpressionStatement fetchThenCall]);
     fetchThenCall]
    fetchThen []
  = Ok [fetchThen]
  /\ (exists a,
         In a [app_intent (handlerFunction [Identifier "conv"]
                      [ExpressionStatement fetchThenCall]);
               fetchThenCall]
         /\ Classifier.isNodeIntentHandler scopeOfApp (Some a) = Ok true)
  /\ (forall a,
         In a [app_intent (handlerFunction [Identifier "conv"]
                      [ExpressionStatement fetchThenCall]);
               fetchThenCall] ->
         type a <> "ReturnStatement").
Proof.
  split; [reflexivity | ].
  destruct (X11_promise_reported_iff
              scopeOfApp
              [app_intent (handlerFunction [Identifier "conv"]
                      [ExpressionStatement fetchThenCall]);
               fetchThenCall]
              (CallExpression (Identifier "fetch") [Identifier "url"])
              (Identifier "then") [] [fetchThen] eq_refl)
    as [(_ & _ & Hinside & Hreturned) | (H & _)].
  - split; assumption.
  - discriminate H.
Defined.

Lemma X12_witness :
  AlwaysReturnPromise.on_MemberExpression None
    [Program [ExpressionStatement fetchThenCall];
     ExpressionStatement fetchThenCall; fetchThenCall]
    fetchThen []
  = Throw (Error "Expected Identifier").
Proof.
  apply (X12_promise_on_other_receiver_throws
           None
           [Program [ExpressionStatement fetchThenCall];
            ExpressionStatement fetchThenCall] []
           (CallExpression (Identifier "fetch") [Identifier "url"])
           (Identifier "then") [Identifier "cb"]
           (CallExpression (Identifier "fetch") [Identifier "url"])
           (Identifier "then") []).
  - reflexivity.
  - repeat constructor.
  - discriminate.
  - intros pre a E. destruct pre as [|p pre].
    + injection E as <-. discriminate.
    + destruct pre; discriminate.
Defined.

Lemma X13_witness :
  (entered <- CountScopeManager.account AtMostTwoSimpleResponses.child
                (FunctionDeclaration "f" [] (BlockStatement []))
                "FunctionDeclaration" CountScopeManager.new ;;
   inside <- assignCurrent counted entered ;;
   CountScopeManager.account AtMostTwoSimpleResponses.child
     (FunctionDeclaration "f" [] (BlockStatement []))
     "FunctionDeclaration:exit" inside) = Ok CountScopeManager.new.
Proof.
  apply (X13_count_function_frame_is_discarded
           AtMostTwoSimpleResponses.child AtMostTwoSimpleResponses.child
           (FunctionDeclaration "f" [] (BlockStatement []))
           "FunctionDeclaration" "FunctionDeclaration:exit" counted
           CountScopeManager.new); try reflexivity.
Defined.

(** ** Consecutive simple responses *)

Section Asks.
Import AtMostTwoSimpleResponses.
Variable getScope : Node -> option EScope.
Variable depth : nat.

Lemma ask_step (parent : option Node) (ctx : EslintContext) (str : string)
      (s : Scope Z) (rest : list (Scope Z)) (calls : list (ReporterCall Z)) :
  parentIsIfStatement parent = false ->
  traverse getScope (S depth) parent ctx (conv_ask (Literal str))
           (mkManager (s :: rest) calls)
  = Ok (mkManager (counted s :: rest)
                  (calls ++ [mkCall None (Some (counted s))])).
Proof.
  intros Hparent.
  assert (Hcall : on_CallExpression getScope (S depth)
                    (CallExpression askCallee [Literal str])
                    (mkManager (s :: rest) calls)
                  = Ok (mkManager (counted s :: rest)
                          (calls ++ [mkCall None (Some (counted s))]))).
  { unfold on_CallExpression, countArgument, report, reportOn.
    simpl. destruct (metadata s + 1 >? 2); reflexivity. }
  unfold conv_ask. fold askCallee. cbn [traverse enter]. rewrite Hparent.
  cbn [bind]. rewrite Hcall. reflexivity.
Qed.

Lemma asks_step (parent : option Node) (l : list string) :
  parentIsIfStatement parent = false ->
  forall (s : Scope Z) (rest : list (Scope Z))
         (calls : list (ReporterCall Z)),
    0 <= metadata s ->
    exists s' calls',
      visitList (traverse getScope (S depth) parent child)
                (map (fun str => conv_ask (Literal str)) l)
                (mkManager (s :: rest) calls)
      = Ok (mkManager (s' :: rest) calls')
      /\ metadata s' = metadata s + Z.of_nat (length l)
      /\ reports (mkManager (s' :: rest) calls')
         = reports (mkManager (s :: rest) calls)
           ++ repeat (Some askCallee)
                     (Z.to_nat (Z.max (metadata s') 2
                                - Z.max (metadata s) 2)).
Proof.
  intros Hparent. induction l as [|str l IH]; intros s rest calls Hs.
  - exists s, calls. cbn [map visitList length]. split; [reflexivity | ].
    split; [lia | ]. rewrite Z.sub_diag. simpl. symmetry. apply app_nil_r.
  - cbn [map visitList]. rewrite ask_step by assumption. cbn [bind].
    destruct (IH (counted s) rest (calls ++ [mkCall None (Some (counted s))]))
      as (s' & calls' & Hrun & Hcount & Hreports).
    { simpl. lia. }
    exists s', calls'. split; [exact Hrun | ].
    simpl metadata in Hcount, Hreports.
    split; [cbn [length]; lia | ].
    rewrite Hreports. unfold reports at 1.
    cbn [reporterCalls]. rewrite flat_map_app.
    fold (reports (mkManager (s :: rest) calls)).
    rewrite <- app_assoc. f_equal.
    cbn [flat_map scopeAtCall counted metadata lastViolatingNode app].
    destruct (metadata s + 1 >? 2) eqn:E.
    + apply Z.gtb_lt in E. rewrite app_nil_r.
      change ([Some askCallee]) with (repeat (Some askCallee) 1).
      rewrite <- repeat_app. f_equal. lia.
    + assert (metadata s + 1 <= 2) by (rewrite Z.gtb_ltb, Z.ltb_ge in E; lia).
      cbn [app]. f_equal. lia.
Qed.

End Asks.

(** X14.  A program of n consecutive statements `conv.ask('...')`: the pass
    of at-most-two-simple-responses returns, the sentinel frame ends with
    the count n, and there is one report for each statement after the
    second, n - 2 in all, each anchored at the callee `conv.ask`. *)
Theorem X14_consecutive_asks_report_all_but_two
        (getScope : Node -> option EScope) (depth : nat) (l : list string) :
  exists m top,
    AtMostTwoSimpleResponses.run getScope (S depth) (asks l) = Ok m
    /\ _scopeStack m = [top]
    /\ metadata top = Z.of_nat (length l)
    /\ AtMostTwoSimpleResponses.reports m
       = repeat (Some askCallee) (length l - 2).
Proof.
  unfold AtMostTwoSimpleResponses.run, asks.
  cbn [AtMostTwoSimpleResponses.traverse AtMostTwoSimpleResponses.enter bind].
  destruct (asks_step getScope depth
              (Some (Program (map (fun s => conv_ask (Literal s)) l))) l
              eq_refl
              (CountScopeManager._createScopeObject "Sentinel") [] [])
    as (s' & calls' & Hrun & Hcount & Hreports).
  { simpl. lia. }
  exists (mkManager [s'] calls'), s'.
  unfold CountScopeManager.new. rewrite Hrun.
  simpl metadata in Hcount, Hreports. simpl in Hreports.
  split; [reflexivity | ]. split; [reflexivity | ].
  split; [lia | ]. rewrite Hreports. f_equal. lia.
Qed.

(** ** The pass of must-return-response *)

Lemma seen_false (s : Scope bool) : seen false s = s.
Proof.
  destruct s. unfold seen, assign_metadata. simpl. now rewrite orb_false_r.
Qed.

Lemma seen_seen (a b : bool) (s : Scope bool) :
  seen b (seen a s) = seen (a || b) s.
Proof. unfold seen, assign_metadata. simpl. now rewrite orb_assoc. Qed.

Lemma insideIntent_seen (b : bool) (s : Scope bool) (rest : list (Scope bool)) :
  insideIntent (seen b s :: rest) = insideIntent (s :: rest).
Proof. reflexivity. Qed.

Lemma isScopeInsideIntent_current (s : Scope bool) (rest : list (Scope bool))
      (calls : list (ReporterCall bool)) :
  PresenceScopeManager.isScopeInsideIntent
    (Some (length (s :: rest) - 1)%nat) (mkManager (s :: rest) calls)
  = Ok (insideIntent (s :: rest)).
Proof.
  unfold PresenceScopeManager.isScopeInsideIntent. cbn [_scopeStack].
  replace (length (s :: rest) - 1 - (length (s :: rest) - 1))%nat with 0%nat
    by lia.
  reflexivity.
Qed.

Lemma on_CallExpression_seen (c : Node) (args : list Node) (s : Scope bool)
      (rest : list (Scope bool)) (calls : list (ReporterCall bool)) :
  MustReturnResponse.on_CallExpression (CallExpression c args)
    (mkManager (s :: rest) calls)
  = Ok (mkManager
          (seen (setsPresence (insideIntent (s :: rest))
                              (CallExpression c args)) s :: rest) calls).
Proof.
  unfold MustReturnResponse.on_CallExpression, setsPresence, seen.
  cbn [_scopeStack]. rewrite isScopeInsideIntent_current.
  destruct (Classifier.doesReturnActionResponse _); cbn [bind orb].
  - rewrite orb_true_r. reflexivity.
  - destruct (insideIntent (s :: rest)); cbn [assignCurrent _scopeStack].
    + rewrite orb_true_r. reflexivity.
    + rewrite orb_false_r. destruct s. reflexivity.
Qed.


Section StraightLine.
Variable getScope : Node -> option EScope.

Lemma visitList_onlySets (parent : option Node) (l : list Node) :
  Forall (fun x => onlySets getScope parent x) l ->
  forall s rest calls,
    visitList (MustReturnResponse.traverse getScope parent) l
              (mkManager (s :: rest) calls)
    = Ok (mkManager
            (seen (existsb (anyCall (setsPresence (insideIntent (s :: rest))))
                           l) s :: rest) calls).
Proof.
  induction 1 as [|x l Hx _ IH]; intros s rest calls; cbn [visitList existsb].
  - rewrite seen_false. reflexivity.
  - rewrite Hx. cbn [bind]. rewrite IH, insideIntent_seen, seen_seen.
    reflexivity.
Qed.

Lemma straightLine_parent (node : Node) :
  straightLine node = true ->
  MustReturnResponse.parentIsIfStatement (Some node) = false
  /\ MustReturnResponse.parentIsTryStatement (Some node) = false.
Proof.
  destruct node; simpl; intros H; (discriminate || split; reflexivity).
Qed.

Lemma list_onlySets (l : list Node) (parent : option Node) :
  list_all Node
           (fun n =>
              straightLine n = true ->
              forall parent,
                MustReturnResponse.parentIsIfStatement parent = false ->
                MustReturnResponse.parentIsTryStatement parent = false ->
                onlySets getScope parent n) l ->
  forallb straightLine l = true ->
  MustReturnResponse.parentIsIfStatement parent = false ->
  MustReturnResponse.parentIsTryStatement parent = false ->
  Forall (onlySets getScope parent) l.
Proof.
  intros IH Hl Hif Htry. rewrite forallb_forall in Hl.
  apply Forall_forall. intros x Hx.
  apply (list_all_In _ _ IH x Hx (Hl x Hx) parent Hif Htry).
Qed.

Lemma straightLine_onlySets (node : Node) :
  straightLine node = true ->
  forall parent,
    MustReturnResponse.parentIsIfStatement parent = false ->
    MustReturnResponse.parentIsTryStatement parent = false ->
    onlySets getScope parent node.
Proof.
  induction node as
      [ x | raw | es IH | op l IHl r IHr | c IHc args IHargs
      | c IHc args IHargs | o IHo p IHp | b IHb | b IHb | b IHb | i b IHb
      | k IHk v IHv | b IHb | l IH | t IHt c IHc a IHa | b IHb h IHh f IHf
      | b IHb | a IHa | l IH | ty l IH ];
    cbn [straightLine]; intros Hnode; try discriminate;
    intros parent Hif Htry s rest calls.
  all: try (apply andb_prop in Hnode; destruct Hnode as [Hn1 Hn2]).
  all: cbn [MustReturnResponse.traverse MustReturnResponse.enter
            MustReturnResponse.leave anyCall];
    try rewrite Hif; try rewrite Htry; cbn [bind].
  - rewrite seen_false. reflexivity.
  - rewrite seen_false. reflexivity.
  - rewrite visitList_onlySets by (apply list_onlySets; auto). reflexivity.
  - rewrite IHl by first [assumption | reflexivity]. cbn [bind].
    rewrite IHr by first [assumption | reflexivity].
    rewrite insideIntent_seen, seen_seen.
    reflexivity.
  - rewrite on_CallExpression_seen. cbn [bind].
    rewrite IHc by first [assumption | reflexivity]. cbn [bind].
    rewrite visitList_onlySets by (apply list_onlySets; auto).
    rewrite !insideIntent_seen, !seen_seen, ?orb_assoc. reflexivity.
  - rewrite IHc by first [assumption | reflexivity]. cbn [bind].
    rewrite visitList_onlySets by (apply list_onlySets; auto).
    rewrite !insideIntent_seen, !seen_seen, ?orb_assoc. reflexivity.
  - rewrite IHo by first [assumption | reflexivity]. cbn [bind].
    rewrite IHp by first [assumption | reflexivity].
    rewrite insideIntent_seen, seen_seen.
    reflexivity.
  - rewrite IHb by first [assumption | reflexivity]. reflexivity.
  - rewrite IHb by first [assumption | reflexivity]. reflexivity.
  - rewrite visitList_onlySets by (apply list_onlySets; auto). reflexivity.
  - destruct a as [x|]; cbn [visitOpt].
    + rewrite (option_all_Some _ _ IHa) by first [assumption | reflexivity].
      reflexivity.
    + rewrite seen_false. reflexivity.
  - rewrite visitList_onlySets by (apply list_onlySets; auto). reflexivity.
  - rewrite visitList_onlySets by (apply list_onlySets; auto). reflexivity.
Qed.

End StraightLine.

Lemma anyCall_inside (n : Node) :
  anyCall (setsPresence true) n = anyCall (fun _ => true) n.
Proof.
  induction n as
      [ x | raw | es IH | op l IHl r IHr | c IHc args IHargs
      | c IHc args IHargs | o IHo p IHp | b IHb | b IHb | b IHb | i b IHb
      | k IHk v IHv | b IHb | l IH | t IHt c IHc a IHa | b IHb h IHh f IHf
      | b IHb | a IHa | l IH | ty l IH ]; cbn [anyCall];
    repeat match goal with
           | H : list_all _ _ ?l |- _ =>
               let E := fresh "E" in
               assert (E : existsb (anyCall (setsPresence true)) l
                           = existsb (anyCall (fun _ => true)) l)
                 by (clear - H; induction H as [|y Hy l' _ IHl'];
                     cbn [existsb]; [reflexivity | now rewrite Hy, IHl']);
               clear H; rewrite E
           | H : option_all _ _ ?o |- _ =>
               destruct H
           end;
    try congruence.
  unfold setsPresence at 1. rewrite orb_true_r. congruence.
Qed.

Lemma existsb_anyCall_inside (l : list Node) :
  existsb (anyCall (setsPresence true)) l
  = existsb (anyCall (fun _ => true)) l.
Proof.
  induction l as [|x l IH]; cbn [existsb]; [reflexivity | ].
  now rewrite anyCall_inside, IH.
Qed.

Section Unfold.
Variable getScope : Node -> option EScope.

Lemma traverse_arrow (parent : option Node) (ps : list Node) (b : Node)
      (m : ScopeManager bool) :
  MustReturnResponse.traverse getScope parent (ArrowFunctionExpression ps b) m
  = (m1 <- MustReturnResponse.enter getScope parent
             (ArrowFunctionExpression ps b) m ;;
     m2 <- (m' <- visitList (MustReturnResponse.traverse getScope
                               (Some (ArrowFunctionExpression ps b))) ps m1 ;;
            MustReturnResponse.traverse getScope
              (Some (ArrowFunctionExpression ps b)) b m') ;;
     MustReturnResponse.leave getScope parent
       (ArrowFunctionExpression ps b) m2).
Proof. reflexivity. Qed.

Lemma traverse_block (parent : option Node) (l : list Node)
      (m : ScopeManager bool) :
  MustReturnResponse.traverse getScope parent (BlockStatement l) m
  = (m1 <- MustReturnResponse.enter getScope parent (BlockStatement l) m ;;
     visitList (MustReturnResponse.traverse getScope
                  (Some (BlockStatement l))) l m1).
Proof.
  cbn [MustReturnResponse.traverse MustReturnResponse.leave].
  destruct (MustReturnResponse.enter _ _ _ _) as [m1|]; cbn [bind];
    [ | reflexivity].
  destruct (visitList _ l m1); reflexivity.
Qed.

Lemma traverse_try (parent : option Node) (b : Node) (h f : option Node)
      (m : ScopeManager bool) :
  MustReturnResponse.traverse getScope parent (TryStatement b h f) m
  = (m1 <- MustReturnResponse.traverse getScope
             (Some (TryStatement b h f)) b m ;;
     m2 <- visitOpt (MustReturnResponse.traverse getScope
                       (Some (TryStatement b h f))) h m1 ;;
     visitOpt (MustReturnResponse.traverse getScope
                 (Some (TryStatement b h f))) f m2).
Proof.
  cbn [MustReturnResponse.traverse MustReturnResponse.enter
       MustReturnResponse.leave bind].
  destruct (MustReturnResponse.traverse _ _ b m) as [m1|]; cbn [bind];
    [ | reflexivity].
  destruct (visitOpt _ h m1) as [m2|]; cbn [bind]; [ | reflexivity].
  destruct (visitOpt _ f m2); reflexivity.
Qed.

Lemma traverse_catch (parent : option Node) (q : option Node) (b : Node)
      (m : ScopeManager bool) :
  MustReturnResponse.traverse getScope parent (CatchClause q b) m
  = (m1 <- PresenceScopeManager.account (CatchClause q b) "CatchClause" m ;;
     m2 <- (m' <- visitOpt (MustReturnResponse.traverse getScope
                              (Some (CatchClause q b))) q m1 ;;
            MustReturnResponse.traverse getScope
              (Some (CatchClause q b)) b m') ;;
     PresenceScopeManager.account (CatchClause q b) "CatchClause:exit" m2).
Proof. reflexivity. Qed.

(** What the pass does over a list of straight-line nodes. *)
Lemma straightLine_list (parent : Node) (l : list Node) :
  forallb straightLine l = true ->
  MustReturnResponse.parentIsIfStatement (Some parent) = false ->
  MustReturnResponse.parentIsTryStatement (Some parent) = false ->
  forall s rest calls,
    visitList (MustReturnResponse.traverse getScope (Some parent)) l
              (mkManager (s :: rest) calls)
    = Ok (mkManager
            (seen (existsb (anyCall (setsPresence (insideIntent (s :: rest))))
                           l) s :: rest) calls).
Proof.
  intros Hl Hif Htry. apply visitList_onlySets.
  rewrite forallb_forall in Hl. apply Forall_forall. intros x Hx.
  apply straightLine_onlySets; auto.
Qed.

End Unfold.

Lemma handler_traverse (getScope : Node -> option EScope)
      (parent : option Node) (params body : list Node) (s : Scope bool)
      (rest : list (Scope bool)) (calls : list (ReporterCall bool)) :
  Classifier.isNodeIntentHandler (getScope (handlerFunction params body))
                                 parent = Ok true ->
  forallb straightLine params = true ->
  forallb straightLine body = true ->
  MustReturnResponse.traverse getScope parent (handlerFunction params body)
                              (mkManager (s :: rest) calls)
  = Ok (mkManager
          (s :: rest)
          (calls
           ++ [mkCall (Some (handlerFunction params body))
                      (Some (mkScope "ArrowFunctionExpression, Intent"
                                     (existsb (anyCall (fun _ => true))
                                              (params ++ body))
                                     None false))])).
Proof.
  intros Hhandler Hparams Hbody. unfold handlerFunction in *.
  rewrite traverse_arrow.
  cbn [MustReturnResponse.enter MustReturnResponse.leave].
  rewrite Hhandler. cbn [bind].
  rewrite presence_enter by reflexivity.
  cbn [_scopeStack reporterCalls bind].
  change (includes "ArrowFunctionExpression, Intent" "Intent") with true.
  rewrite orb_true_r. cbn [negb].
  rewrite straightLine_list by first [assumption | reflexivity].
  cbn [bind].
  rewrite (straightLine_onlySets getScope (BlockStatement body))
    by first [assumption | reflexivity].
  cbn [bind anyCall]. rewrite insideIntent_seen, seen_seen.
  change (insideIntent
            (mkScope "ArrowFunctionExpression, Intent" false None false
             :: s :: rest)) with true.
  rewrite !existsb_anyCall_inside, existsb_app. reflexivity.
Qed.

Lemma handlerProgram_run (getScope : Node -> option EScope)
      (params body : list Node) :
  MustReturnResponse.run getScope (handlerProgram params body)
  = MustReturnResponse.traverse getScope
      (Some (app_intent (handlerFunction params body)))
      (handlerFunction params body) PresenceScopeManager.new.
Proof.
  unfold MustReturnResponse.run, handlerProgram, PresenceScopeManager.new.
  generalize (handlerFunction params body). intros fn.
  cbn [MustReturnResponse.traverse MustReturnResponse.enter
       MustReturnResponse.leave MustReturnResponse.parentIsIfStatement
       MustReturnResponse.parentIsTryStatement visitList bind app_intent].
  rewrite on_CallExpression_seen.
  change (setsPresence _ _) with false. rewrite seen_false. cbn [bind].
  destruct (MustReturnResponse.traverse _ _ fn _); reflexivity.
Qed.

(** X15.  A handler given inline to `app.intent` whose parameters and body
    are straight-line code: the pass of must-return-response returns with
    the stack as at the start, and it reports the handler function exactly
    when neither the parameters (their default values) nor the body hold a
    call expression; any call there, whatever it calls, counts as a
    response. *)
Theorem X15_straight_line_handler_reported_iff_no_call
        (getScope : Node -> option EScope) (params body : list Node) :
  Classifier.isNodeIntentHandler
    (getScope (handlerFunction params body))
    (Some (app_intent (handlerFunction params body))) = Ok true ->
  forallb straightLine params = true ->
  forallb straightLine body = true ->
  exists m,
    MustReturnResponse.run getScope (handlerProgram params body) = Ok m
    /\ _scopeStack m = _scopeStack PresenceScopeManager.new
    /\ MustReturnResponse.reports m
       = if existsb (anyCall (fun _ => true)) (params ++ body) then []
         else [Some (handlerFunction params body)].
Proof.
  intros Hhandler Hparams Hbody. rewrite handlerProgram_run.
  unfold PresenceScopeManager.new.
  rewrite handler_traverse by assumption.
  eexists. split; [reflexivity | ]. split; [reflexivity | ].
  cbn. destruct (existsb _ (params ++ body)); reflexivity.
Qed.

(** `app.intent('a', (conv) => { a + '1'; })` is reported;
    `app.intent('a', (conv, p = foo()) => { a + '1'; })` is not. *)
Lemma X15_witness :
  (exists m,
      MustReturnResponse.run (fun _ => scopeOfApp)
        (handlerProgram [Identifier "conv"] [plusStatement]) = Ok m
      /\ _scopeStack m = _scopeStack PresenceScopeManager.new
      /\ MustReturnResponse.reports m
         = [Some (handlerFunction [Identifier "conv"] [plusStatement])])
  /\ (exists m,
         MustReturnResponse.run (fun _ => scopeOfApp)
           (handlerProgram [Identifier "conv"; defaultFromCall]
                           [plusStatement]) = Ok m
         /\ _scopeStack m = _scopeStack PresenceScopeManager.new
         /\ MustReturnResponse.reports m = []).
Proof.
  split.
  - apply (X15_straight_line_handler_reported_iff_no_call
             (fun _ => scopeOfApp) [Identifier "conv"] [plusStatement]);
      reflexivity.
  - apply (X15_straight_line_handler_reported_iff_no_call
             (fun _ => scopeOfApp) [Identifier "conv"; defaultFromCall]
             [plusStatement]);
      reflexivity.
Defined.

Lemma visitList_app {S : Type} (visit : Node -> S -> Result S)
      (l1 l2 : list Node) (s : S) :
  visitList visit (l1 ++ l2) s
  = (s' <- visitList visit l1 s ;; visitList visit l2 s').
Proof.
  revert s. induction l1 as [|x l1 IH]; intros s; cbn [app visitList bind].
  - reflexivity.
  - destruct (visit x s) as [s1|]; cbn [bind]; [apply IH | reflexivity].
Qed.

Section Finally.
Variable getScope : Node -> option EScope.

(** Straight-line statements keep the frames and their events. *)
Lemma statements_keep (parent : Node) (l : list Node) :
  forallb straightLine l = true ->
  MustReturnResponse.parentIsIfStatement (Some parent) = false ->
  MustReturnResponse.parentIsTryStatement (Some parent) = false ->
  forall s rest calls,
  exists s',
    visitList (MustReturnResponse.traverse getScope (Some parent)) l
              (mkManager (s :: rest) calls)
    = Ok (mkManager (s' :: rest) calls)
    /\ event s' = event s.
Proof.
  intros Hl Hif Htry s rest calls. eexists. split.
  - apply straightLine_list; assumption.
  - reflexivity.
Qed.

(** So does the parameter of a catch clause. *)
Lemma parameter_keeps (parent : Node) (q : option Node) :
  match q with Some p => straightLine p | None => true end = true ->
  MustReturnResponse.parentIsIfStatement (Some parent) = false ->
  MustReturnResponse.parentIsTryStatement (Some parent) = false ->
  forall s rest calls,
  exists s',
    visitOpt (MustReturnResponse.traverse getScope (Some parent)) q
             (mkManager (s :: rest) calls)
    = Ok (mkManager (s' :: rest) calls)
    /\ event s' = event s.
Proof.
  intros Hq Hif Htry s rest calls. destruct q as [p|]; cbn [visitOpt].
  - eexists. split.
    + apply straightLine_onlySets; assumption.
    + reflexivity.
  - exists s. split; reflexivity.
Qed.

(** A block of a try statement, the protected one or the finaliser, pushes
    a frame and leaves it on the stack. *)
Lemma try_block_pushes (b : Node) (h f : option Node) (l : list Node) :
  forallb straightLine l = true ->
  forall stack calls,
  exists t,
    MustReturnResponse.traverse getScope (Some (TryStatement b h f))
                                (BlockStatement l) (mkManager stack calls)
    = Ok (mkManager (t :: stack) calls)
    /\ event t = "TryStatement > BlockStatement".
Proof.
  intros Hl stack calls. rewrite traverse_block.
  cbn [MustReturnResponse.enter MustReturnResponse.parentIsIfStatement
       MustReturnResponse.parentIsTryStatement bind].
  rewrite presence_enter by reflexivity.
  cbn [_scopeStack reporterCalls bind].
  apply statements_keep; [assumption | reflexivity | reflexivity].
Qed.

(** A catch clause pops its own frame and the frame of the protected
    block. *)
Lemma catch_clause_pops (parent : option Node) (q : option Node)
      (cs : list Node) (t s : Scope bool) (rest : list (Scope bool))
      (calls : list (ReporterCall bool)) :
  match q with Some p => straightLine p | None => true end = true ->
  forallb straightLine cs = true ->
  event t = "TryStatement > BlockStatement" ->
  exists s',
    MustReturnResponse.traverse getScope parent
                                (CatchClause q (BlockStatement cs))
                                (mkManager (t :: s :: rest) calls)
    = Ok (mkManager (s' :: rest) calls)
    /\ event s' = event s.
Proof.
  intros Hq Hcs Ht. rewrite traverse_catch.
  rewrite presence_enter by reflexivity.
  cbn [_scopeStack reporterCalls bind].
  destruct (parameter_keeps (CatchClause q (BlockStatement cs)) q Hq
              eq_refl eq_refl
              (mkScope "CatchClause"
                 (negb (existsb (fun s0 => includes (event s0) "Intent")
                                (t :: s :: rest)
                        || includes "CatchClause" "Intent")) None false)
              (t :: s :: rest) calls) as (c0 & -> & Hc0).
  cbn [bind]. rewrite traverse_block.
  cbn [MustReturnResponse.enter MustReturnResponse.parentIsIfStatement
       MustReturnResponse.parentIsTryStatement bind].
  destruct (statements_keep (BlockStatement cs) cs Hcs eq_refl eq_refl
              c0 (t :: s :: rest) calls) as (c & -> & Hc).
  rewrite Hc0 in Hc. cbn [bind event] in *.
  unfold PresenceScopeManager.account.
  change (includes "CatchClause:exit" ":exit") with true. cbv iota.
  unfold PresenceScopeManager._dispatchExit. cbn [type].
  change (String.eqb "CatchClause" "IfStatement") with false.
  change (String.eqb "CatchClause" "CatchClause") with true. cbv iota.
  unfold PresenceScopeManager._handleCatchExit.
  cbn [currentScope_get currentScope _scopeStack bind].
  rewrite Hc. change (includes "CatchClause" "CatchClause") with true.
  cbn [negb].
  rewrite exitScope_pops by (rewrite Hc; reflexivity).
  cbn [bind currentScope_get currentScope _scopeStack]. rewrite Ht.
  change (includes "TryStatement > BlockStatement" "TryStatement") with true.
  cbn [negb].
  rewrite exitScope_pops by (rewrite Ht; reflexivity).
  cbn [bind currentScope_get currentScope _scopeStack assignCurrent
       reporterCalls].
  eexists. split; reflexivity.
Qed.

(** A try statement with a finaliser leaves the frame of the finaliser on
    top of the stack, and under it that of the protected block when there
    is no catch clause. *)
Lemma finally_leaves_frames (parent : option Node) (bs : list Node)
      (catch : option (option Node * list Node)) (fs : list Node)
      (s : Scope bool) (rest : list (Scope bool))
      (calls : list (ReporterCall bool)) :
  forallb straightLine bs = true ->
  straightLineCatch catch = true ->
  forallb straightLine fs = true ->
  exists top frames s',
    MustReturnResponse.traverse getScope parent (tryWithFinally bs catch fs)
                                (mkManager (s :: rest) calls)
    = Ok (mkManager (top :: frames ++ s' :: rest) calls)
    /\ event top = "TryStatement > BlockStatement"
    /\ event s' = event s
    /\ length frames = match catch with Some _ => 0%nat | None => 1%nat end.
Proof.
  intros Hbs Hcs Hfs. unfold tryWithFinally. rewrite traverse_try.
  destruct (try_block_pushes (BlockStatement bs)
              (option_map catchClause catch)
              (Some (BlockStatement fs)) bs Hbs (s :: rest) calls)
    as (t & -> & Ht).
  cbn [bind]. destruct catch as [[q cs]|];
    cbn [option_map visitOpt]; unfold catchClause; cbn [fst snd].
  - cbn [straightLineCatch] in Hcs. apply andb_prop in Hcs.
    destruct Hcs as [Hq Hcs].
    destruct (catch_clause_pops
                (Some (TryStatement (BlockStatement bs)
                         (Some (CatchClause q (BlockStatement cs)))
                         (Some (BlockStatement fs))))
                q cs t s rest calls Hq Hcs Ht) as (s' & -> & Hs').
    cbn [bind].
    destruct (try_block_pushes (BlockStatement bs)
                (Some (CatchClause q (BlockStatement cs)))
                (Some (BlockStatement fs)) fs Hfs (s' :: rest) calls)
      as (t2 & -> & Ht2).
    exists t2, [], s'. repeat split; assumption.
  - cbn [bind].
    destruct (try_block_pushes (BlockStatement bs) None
                (Some (BlockStatement fs)) fs Hfs (t :: s :: rest) calls)
      as (t2 & -> & Ht2).
    exists t2, [t], s. repeat split; assumption.
Qed.

(** The pass over a handler whose body holds such a try statement among
    straight-line statements. *)
Lemma finally_traverse (parent : option Node)
      (params before bs : list Node)
      (catch : option (option Node * list Node))
      (fs after : list Node) (s : Scope bool) (rest : list (Scope bool))
      (calls : list (ReporterCall bool)) :
  let body := before ++ tryWithFinally bs catch fs :: after in
  Classifier.isNodeIntentHandler (getScope (handlerFunction params body))
                                 parent = Ok true ->
  forallb straightLine params = true ->
  forallb straightLine before = true ->
  forallb straightLine bs = true ->
  straightLineCatch catch = true ->
  forallb straightLine fs = true ->
  forallb straightLine after = true ->
  exists frames f,
    MustReturnResponse.traverse getScope parent (handlerFunction params body)
                                (mkManager (s :: rest) calls)
    = Ok (mkManager (frames ++ f :: s :: rest) calls)
    /\ event f = "ArrowFunctionExpression, Intent"
    /\ length frames = match catch with Some _ => 0%nat | None => 1%nat end.
Proof.
  intros body Hhandler Hparams Hbefore Hbs Hcs Hfs Hafter.
  unfold handlerFunction in *. rewrite traverse_arrow.
  cbn [MustReturnResponse.enter MustReturnResponse.leave].
  rewrite Hhandler. cbn [bind].
  rewrite presence_enter by reflexivity.
  cbn [_scopeStack reporterCalls bind].
  match goal with
  | |- context [visitList _ params (mkManager (?f :: _) _)] =>
      destruct (statements_keep
                  (ArrowFunctionExpression params (BlockStatement body))
                  params Hparams eq_refl eq_refl f (s :: rest) calls)
        as (f0 & -> & Hf0)
  end.
  cbn [bind]. rewrite traverse_block.
  cbn [MustReturnResponse.enter MustReturnResponse.parentIsIfStatement
       MustReturnResponse.parentIsTryStatement bind].
  unfold body at 2. rewrite visitList_app.
  destruct (statements_keep (BlockStatement body) before Hbefore
              eq_refl eq_refl f0 (s :: rest) calls) as (f1 & Hrun & Hf1).
  fold body. rewrite Hrun. cbn [bind visitList event] in *.
  destruct (finally_leaves_frames (Some (BlockStatement body)) bs catch fs
              f1 (s :: rest) calls Hbs Hcs Hfs)
    as (top & frames & f2 & -> & Htop & Hf2 & Hlen).
  cbn [bind].
  destruct (statements_keep (BlockStatement body) after Hafter
              eq_refl eq_refl top (frames ++ f2 :: s :: rest) calls)
    as (top' & -> & Htop').
  cbn [bind].
  exists frames, f2. split; [ | split; [congruence | exact Hlen]].
  unfold PresenceScopeManager.account.
  change (includes "ArrowFunctionExpression:exit, Intent" ":exit") with true.
  cbv iota. unfold PresenceScopeManager._dispatchExit. cbn [type].
  change (String.eqb "ArrowFunctionExpression" "IfStatement") with false.
  change (String.eqb "ArrowFunctionExpression" "CatchClause") with false.
  change (String.eqb "ArrowFunctionExpression" "ArrowFunctionExpression")
    with true.
  cbn [orb]. cbv iota.
  unfold PresenceScopeManager._handleIntentHandlerExit.
  cbn [currentScope_get currentScope _scopeStack bind].
  rewrite Htop', Htop.
  change (includes "TryStatement > BlockStatement" "Intent") with false.
  cbv iota. apply exitScope_pops. rewrite Htop', Htop. reflexivity.
Qed.

End Finally.

(** X16.  A handler given inline to `app.intent` whose body holds, among
    straight-line statements, a try statement with a `finally` block: the
    pass of must-return-response returns and never calls the reporter, so
    the handler is not reported even when it holds no response at all; and
    the frame of the handler is still on the stack at the end, under that of
    the protected block when there is no catch clause.  The parameters of
    the handler and of the catch clause are straight-line code too. *)
Theorem X16_finally_block_silences_the_handler
        (getScope : Node -> option EScope)
        (params before bs : list Node)
        (catch : option (option Node * list Node))
        (fs after : list Node) :
  let body := before ++ tryWithFinally bs catch fs :: after in
  Classifier.isNodeIntentHandler
    (getScope (handlerFunction params body))
    (Some (app_intent (handlerFunction params body))) = Ok true ->
  forallb straightLine params = true ->
  forallb straightLine before = true ->
  forallb straightLine bs = true ->
  straightLineCatch catch = true ->
  forallb straightLine fs = true ->
  forallb straightLine after = true ->
  exists m frames f,
    MustReturnResponse.run getScope (handlerProgram params body) = Ok m
    /\ reporterCalls m = []
    /\ MustReturnResponse.reports m = []
    /\ _scopeStack m = frames ++ f :: _scopeStack PresenceScopeManager.new
    /\ event f = "ArrowFunctionExpression, Intent"
    /\ length frames = match catch with Some _ => 0%nat | None => 1%nat end.
Proof.
  intros body Hhandler Hparams Hbefore Hbs Hcs Hfs Hafter.
  rewrite handlerProgram_run. unfold PresenceScopeManager.new.
  destruct (finally_traverse getScope
              (Some (app_intent (handlerFunction params body)))
              params before bs catch fs after
              (PresenceScopeManager._createScopeObject (mkManager [] [])
                                                       "Sentinel")
              [] [] Hhandler Hparams Hbefore Hbs Hcs Hfs Hafter)
    as (frames & f & Hrun & Hf & Hlen).
  fold body in Hrun. rewrite Hrun.
  eexists. exists frames, f.
  split; [reflexivity | ]. repeat split; assumption.
Qed.

(** `app.intent('a', (conv) => { try { } catch (e) { } finally { } })` *)
Lemma X16_witness :
  exists m frames f,
    MustReturnResponse.run (fun _ => scopeOfApp)
      (handlerProgram
         [Identifier "conv"]
         [tryWithFinally [] (Some (Some (Identifier "e"), [])) []]) = Ok m
    /\ reporterCalls m = []
    /\ MustReturnResponse.reports m = []
    /\ _scopeStack m = frames ++ f :: _scopeStack PresenceScopeManager.new
    /\ event f = "ArrowFunctionExpression, Intent"
    /\ length frames = 0%nat.
Proof.
  apply (X16_finally_block_silences_the_handler
           (fun _ => scopeOfApp) [Identifier "conv"] [] []
           (Some (Some (Identifier "e"), [])) [] []);
    reflexivity.
Defined.

(** ** Invariants of a pass of must-return-response *)

Lemma presence_handleIfExit_sentinel (node : Node) :
  preserves sentinelAtBottom (PresenceScopeManager._handleIfExit node).
Proof.
  intros m m' HP H. unfold PresenceScopeManager._handleIfExit in H.
  destruct (currentScope_get m) as [top|]; [simpl in H | discriminate].
  destruct (negb _); [injection H as <-; exact HP | ].
  destruct (_getElseScopeIfAny node m) as [[e m1]|] eqn:E1;
    [simpl in H | discriminate].
  pose proof (getElseScopeIfAny_sentinel _ _ _ _ HP E1) as HP1.
  destruct (_exitScope m1) as [m2|] eqn:E2; [simpl in H | discriminate].
  pose proof (exitScope_sentinel _ _ HP1 E2) as HP2.
  destruct (currentScope m1) as [ifScope|]; [ | discriminate].
  destruct (currentScope_get m2) as [parent|]; [simpl in H | discriminate].
  match type of H with
  | assignCurrent ?f m2 = _ =>
      apply (assignCurrent_sentinel f (fun _ => eq_refl) _ _ HP2 H)
  end.
Qed.

Lemma presence_handleCatchExit_sentinel (node : Node) :
  preserves sentinelAtBottom (PresenceScopeManager._handleCatchExit node).
Proof.
  intros m m' HP H. unfold PresenceScopeManager._handleCatchExit in H.
  destruct (currentScope_get m) as [k|]; [simpl in H | discriminate].
  destruct (negb _); [discriminate | ].
  destruct (_exitScope m) as [m1|] eqn:E1; [simpl in H | discriminate].
  pose proof (exitScope_sentinel _ _ HP E1) as HP1.
  destruct (currentScope_get m1) as [t|]; [simpl in H | discriminate].
  destruct (negb _); [discriminate | ].
  destruct (_exitScope m1) as [m2|] eqn:E2; [simpl in H | discriminate].
  pose proof (exitScope_sentinel _ _ HP1 E2) as HP2.
  destruct (currentScope_get m2) as [p|]; [simpl in H | discriminate].
  match type of H with
  | assignCurrent ?f m2 = _ =>
      apply (assignCurrent_sentinel f (fun _ => eq_refl) _ _ HP2 H)
  end.
Qed.

Lemma presence_account_sentinel (node : Node) (ev : string) :
  preserves sentinelAtBottom (PresenceScopeManager.account node ev).
Proof.
  intros m m' HP H. unfold PresenceScopeManager.account in H.
  destruct (includes ev ":exit").
  - unfold PresenceScopeManager._dispatchExit in H.
    destruct (String.eqb (type node) "IfStatement");
      [apply (presence_handleIfExit_sentinel node m m' HP H) | ].
    destruct (String.eqb (type node) "CatchClause");
      [apply (presence_handleCatchExit_sentinel node m m' HP H) | ].
    match type of H with
    | (if ?b then _ else _) = _ => destruct b
    end; [ | apply (exitScope_sentinel m m' HP H)].
    unfold PresenceScopeManager._handleIntentHandlerExit in H.
    destruct (currentScope_get m) as [top|]; [simpl in H | discriminate].
    refine (exitScope_sentinel _ m' _ H).
    destruct (includes (event top) "Intent");
      [apply reporterFn_sentinel | ]; exact HP.
  - destruct (String.eqb ev "ReturnStatement").
    + apply (assignCurrent_sentinel (assign_hasReturnStatement true)
               (fun _ => eq_refl) m m' HP H).
    + injection H as <-. destruct m as [stack calls].
      apply sentinel_cons with (calls := calls). exact HP.
Qed.

Lemma presence_account_reports (node : Node) (ev : string) :
  preserves reportsOnlyHandlers (PresenceScopeManager.account node ev).
Proof.
  intros [stack calls] m' HP H. unfold reportsOnlyHandlers in *.
  simpl in HP.
  unfold PresenceScopeManager.account, PresenceScopeManager._dispatchExit,
    PresenceScopeManager._handleIfExit, PresenceScopeManager._handleCatchExit,
    PresenceScopeManager._handleIntentHandlerExit,
    _getElseScopeIfAny, _exitScope, _invariant, _enterScope,
    currentScope_get, currentScope, assignCurrent, _reporterFn in H.
  fold (isFunctionType (type node)) in H.
  destruct stack as [|a [|b [|c rest]]]; split_ifs H;
    try discriminate; try (injection H as <-); simpl; try exact HP.
  all: apply Forall_app; split; [exact HP | ].
  all: constructor; [ | constructor].
  all: exists node, a; repeat split; assumption.
Qed.

Lemma presence_on_CallExpression_sentinel (callExpression : Node) :
  preserves sentinelAtBottom
            (MustReturnResponse.on_CallExpression callExpression).
Proof.
  intros m m' HP H. unfold MustReturnResponse.on_CallExpression in H.
  match type of H with
  | bind ?r _ = _ => destruct r as [[|]|]; [cbn [bind] in H .. | discriminate]
  end.
  - apply (assignCurrent_sentinel (assign_metadata true)
             (fun _ => eq_refl) m m' HP H).
  - injection H as <-. exact HP.
Qed.

Lemma presence_on_CallExpression_reports (callExpression : Node) :
  preserves reportsOnlyHandlers
            (MustReturnResponse.on_CallExpression callExpression).
Proof.
  intros [stack calls] m' HP H.
  unfold MustReturnResponse.on_CallExpression, assignCurrent in H.
  match type of H with
  | bind ?r _ = _ => destruct r as [[|]|]; [cbn [bind] in H .. | discriminate]
  end.
  - destruct stack; simpl in H; [discriminate | ]. injection H as <-. exact HP.
  - injection H as <-. exact HP.
Qed.

Section PresencePassInvariant.
Variable getScope : Node -> option EScope.
Variable P : ScopeManager bool -> Prop.

Hypothesis Haccount :
  forall node ev, preserves P (PresenceScopeManager.account node ev).
Hypothesis Hcall :
  forall callExpression,
    preserves P (MustReturnResponse.on_CallExpression callExpression).

Lemma presence_enter_preserves (parent : option Node) (node : Node) :
  preserves P (MustReturnResponse.enter getScope parent node).
Proof.
  intros m m' HP H. unfold MustReturnResponse.enter in H.
  destruct node;
    repeat match type of H with
           | context [MustReturnResponse.parentIsIfStatement parent] =>
               destruct (MustReturnResponse.parentIsIfStatement parent)
           | context [MustReturnResponse.parentIsTryStatement parent] =>
               destruct (MustReturnResponse.parentIsTryStatement parent)
           | context [Classifier.isNodeIntentHandler ?s parent] =>
               destruct (Classifier.isNodeIntentHandler s parent);
               [cbn [bind] in H | discriminate]
           end;
    try (injection H as <-; exact HP);
    try (apply (Haccount _ _ _ _ HP H)).
  apply (Hcall _ _ _ HP H).
Qed.

Lemma presence_leave_preserves (parent : option Node) (node : Node) :
  preserves P (MustReturnResponse.leave getScope parent node).
Proof.
  intros m m' HP H. unfold MustReturnResponse.leave in H.
  destruct node;
    try match type of H with
        | context [Classifier.isNodeIntentHandler ?s parent] =>
            destruct (Classifier.isNodeIntentHandler s parent);
            [cbn [bind] in H | discriminate]
        end;
    try (injection H as <-; exact HP);
    apply (Haccount _ _ _ _ HP H).
Qed.

Ltac decompose_pass :=
  repeat match goal with
         | H : bind ?r _ = Ok _ |- _ =>
             let m := fresh "m" in
             let E := fresh "E" in
             destruct r as [m|] eqn:E; [cbn [bind] in H | discriminate H]
         end.

Ltac chain_pass :=
  repeat match goal with
         | E : Ok _ = Ok _ |- _ => injection E as E; subst
         | HP0 : P ?m0,
           E : MustReturnResponse.enter _ _ _ ?m0 = Ok _ |- _ =>
             pose proof (presence_enter_preserves _ _ _ _ HP0 E); clear E
         | HP0 : P ?m0,
           E : MustReturnResponse.leave _ _ _ ?m0 = Ok _ |- _ =>
             pose proof (presence_leave_preserves _ _ _ _ HP0 E); clear E
         | IH : forall parent, preserves P _,
           HP0 : P ?m0,
           E : MustReturnResponse.traverse _ _ _ ?m0 = Ok _ |- _ =>
             pose proof (IH _ _ _ HP0 E); clear E
         | IH : list_all Node _ ?l,
           HP0 : P ?m0,
           E : visitList _ ?l ?m0 = Ok _ |- _ =>
             pose proof (visitList_preserves P _ l
                           (fun y Hy => list_all_In _ _ IH y Hy _)
                           _ _ HP0 E); clear E
         | IH : option_all Node _ (Some ?x),
           HP0 : P ?m0,
           E : MustReturnResponse.traverse _ _ ?x ?m0 = Ok _ |- _ =>
             pose proof (option_all_Some _ _ IH _ _ _ HP0 E); clear E
         end.

Lemma presence_traverse_preserves (node : Node) :
  forall parent, preserves P (MustReturnResponse.traverse getScope parent node).
Proof.
  induction node as
      [ x | raw | es IHes | op l IHl r IHr | c IHc args IHargs
      | c IHc args IHargs | o IHo p IHp | b IHb | b IHb | b IHb
      | id b IHb | k IHk v IHv | b IHb | l IHl | t IHt c IHc a IHa
      | b IHb h IHh f IHf | b IHb | a IHa | l IHl | ty l IHl ];
    intros parent m m' HP H;
    cbn [MustReturnResponse.traverse] in H;
    repeat match goal with
           | o : option Node |- _ => destruct o
           end;
    cbn [visitOpt] in H;
    decompose_pass; chain_pass; assumption.
Qed.

End PresencePassInvariant.

(** X17.  A pass of must-return-response over any program, when it returns,
    leaves a stack that is not empty and ends with the sentinel, and it has
    called the reporter only with functions at their exit, on a frame that
    belongs to an intent handler: whatever it reports is a function
    expression, an arrow function, a function declaration or a method
    definition. *)
Theorem X17_presence_pass_reports_only_functions
        (getScope : Node -> option EScope) (program : Node)
        (m : ScopeManager bool) :
  MustReturnResponse.run getScope program = Ok m ->
  sentinelAtBottom m
  /\ reportsOnlyHandlers m
  /\ Forall (fun r => exists n, r = Some n /\ isFunctionType (type n) = true)
            (MustReturnResponse.reports m).
Proof.
  intros H. unfold MustReturnResponse.run in H.
  assert (Hsentinel : sentinelAtBottom m).
  { apply (presence_traverse_preserves getScope sentinelAtBottom
             presence_account_sentinel presence_on_CallExpression_sentinel
             program None _ _) in H; [exact H | ].
    eexists [], _. split; reflexivity. }
  assert (Hreports : reportsOnlyHandlers m).
  { apply (presence_traverse_preserves getScope reportsOnlyHandlers
             presence_account_reports presence_on_CallExpression_reports
             program None _ _) in H; [exact H | ].
    constructor. }
  split; [exact Hsentinel | split; [exact Hreports | ]].
  unfold reportsOnlyHandlers in Hreports. unfold MustReturnResponse.reports.
  induction Hreports as [|c calls (n & s & Hn & Hfn & Hs & _) _ IH];
    cbn [flat_map]; [constructor | ].
  rewrite Hs. destruct (metadata s); cbn [app]; [exact IH | ].
  constructor; [ | exact IH]. exists n. split; assumption.
Qed.

Lemma X17_witness :
  exists m,
    MustReturnResponse.run (fun _ => scopeOfApp)
                           (handlerProgram [Identifier "conv"] []) = Ok m
    /\ sentinelAtBottom m
    /\ reportsOnlyHandlers m
    /\ Forall (fun r => exists n, r = Some n /\ isFunctionType (type n) = true)
              (MustReturnResponse.reports m).
Proof.
  eexists. split; [reflexivity | ].
  apply (X17_presence_pass_reports_only_functions
           (fun _ => scopeOfApp) (handlerProgram [Identifier "conv"] [])).
  reflexivity.
Defined.

(** ** Programs on which every frame is paired *)

(** X18.  A pass of at-most-two-simple-responses over a program in which
    each branch of an if-statement is an expression statement, a block or
    an if-statement, and each try statement has a catch clause: when it
    returns, the sentinel is alone on the stack; and when it throws, the
    error is that of findVariableNodeValue, the exhaustion of the call
    stack in a classifier, or the AssertionError of ESLint on a report
    without a node, never one of the manager's own ('is about to be
    popped', 'Expected Catch to be on top of stack', a TypeError on an
    empty stack). *)
Theorem X18_framed_pass_is_balanced
        (getScope : Node -> option EScope) (stackDepth : nat)
        (program : Node) :
  framed program = true ->
  (forall m,
      AtMostTwoSimpleResponses.run getScope stackDepth program = Ok m ->
      map event (_scopeStack m) = ["Sentinel"])
  /\ (forall e,
         AtMostTwoSimpleResponses.run getScope stackDepth program = Throw e ->
         e = Error "Expected Identifier" \/ e = RangeError
         \/ e = AssertionError nodeMustBeProvided).
Proof.
  intros Hframed.
  pose proof (run_framed getScope stackDepth program Hframed) as H.
  split.
  - intros m Hrun. rewrite Hrun in H. exact H.
  - intros e Hrun. rewrite Hrun in H.
    destruct H as [[H | H] | H]; auto.
Qed.

(** The third error does occur: at the exit of the catch clause of
    `function f() { try { conv.ask('1'); conv.ask('2'); conv.ask('3'); }
                    catch (e) { } }`
    the frame of the function gets the count 3 while its
    `lastViolatingNode` is still `null`, and `report` passes that to
    ESLint. *)
Lemma report_without_node_after_try :
  framed threeAsksInTry = true
  /\ AtMostTwoSimpleResponses.run noScopes 1 threeAsksInTry
     = Throw (AssertionError nodeMustBeProvided).
Proof. split; reflexivity. Qed.

Lemma X18_witness :
  exists m,
    AtMostTwoSimpleResponses.run noScopes 1 pairedFrames = Ok m
    /\ map event (_scopeStack m) = ["Sentinel"].
Proof.
  eexists. split; [reflexivity | ].
  apply (proj1 (X18_framed_pass_is_balanced noScopes 1 pairedFrames
                  eq_refl)).
  reflexivity.
Defined.
